(** * Survey analysis engine: a shallow embedding and its properties

    The development embeds the two analysis engines of the repository:

    - [SurveyAnalyzer] ([src/survey_analyzer.py]), which infers the
      question types from the data, and
    - [SoLib] ([so_lib/core.py], [so_lib/analysis.py], and the sorting step
      of [so_lib/cli.py]), which reads them from a schema sheet.

    [Cli] ([src/cli.py]) is the command line over [SurveyAnalyzer]: its
    commands and its interactive loop.

    Both work on a pandas [DataFrame].  The fragment of Python and pandas
    that the two engines use is embedded first ([Py], [Pandas]).

    Conventions of the embedding.
    - Text is a [string] whose characters are the code points below 256.
    - A cell is [None] (pandas' NaN) or a value: a text or an integer.
      Floating-point cells are outside the model.
    - Percentages are exact rationals ([Q]) where the source computes
      [float]s: [count / total * 100] is embedded with exact division and
      rounding to two decimals is exact round-half-even.
    - A [dict] keeps insertion order, as Python's does.
    - Regular expressions: [Pandas] embeds a fragment of Python's [re]
      (ordinary characters and the dot); a call with a pattern outside it
      is [Unsupported].  [AnyRegex] writes the functions that compile a
      pattern over an arbitrary engine, for the properties that do not
      depend on what a pattern matches. *)

From Stdlib Require Import List String Ascii Bool Arith ZArith QArith Qround.
From Stdlib Require Import Lia Sorted Permutation DecimalString.
Import ListNotations.

Close Scope Q_scope.
Open Scope string_scope.
Open Scope list_scope.
Open Scope nat_scope.

(* ================================================================= *)
(** ** Python primitives *)

Module Py.

(** Exceptions the code raises.  [ValueError] carries its message. *)
Inductive exn : Type :=
| ValueError (msg : string)
| IndexError
| AttributeError
(** [re.error], raised by [re.compile] on a pattern it rejects *)
| re_error.

(** Outcome of a call: a value, a raised exception, or [Unsupported] when
    the call compiles a regular expression outside the embedded fragment
    (see [Pandas.re_compile]); the model says nothing about such a call. *)
Inductive result (A : Type) : Type :=
| Ok (a : A)
| Raise (e : exn)
| Unsupported.
Arguments Ok {A} a.
Arguments Raise {A} e.
Arguments Unsupported {A}.

Definition bind {A B : Type} (r : result A) (k : A -> result B) : result B :=
  match r with
  | Ok a => k a
  | Raise e => Raise e
  | Unsupported => Unsupported
  end.

(** *** Characters and strings *)

Definition code (c : ascii) : nat := nat_of_ascii c.

(** [str.isspace] on one character (code points below 256). *)
Definition is_space (c : ascii) : bool :=
  let n := code c in
  ((9 <=? n) && (n <=? 13)) || ((28 <=? n) && (n <=? 32))
  || (n =? 133) || (n =? 160).

(** [str.lower] on one character: A-Z and the Latin-1 capitals. *)
Definition lower_char (c : ascii) : ascii :=
  let n := code c in
  if ((65 <=? n) && (n <=? 90))
     || ((192 <=? n) && (n <=? 222) && negb (n =? 215))
  then ascii_of_nat (n + 32) else c.

Fixpoint lower (s : string) : string :=
  match s with
  | EmptyString => EmptyString
  | String c s' => String (lower_char c) (lower s')
  end.

(** [sub in s] on strings. *)
Fixpoint contains (sub s : string) : bool :=
  prefix sub s ||
  match s with
  | EmptyString => false
  | String _ s' => contains sub s'
  end.

(** [s.split(sep)] for a one-character separator. *)
Fixpoint split (sep : ascii) (s : string) : list string :=
  match s with
  | EmptyString => [EmptyString]
  | String c s' =>
      if Ascii.eqb c sep then EmptyString :: split sep s'
      else match split sep s' with
           | f :: fs => String c f :: fs
           | [] => [String c EmptyString]
           end
  end.

Fixpoint lstrip (s : string) : string :=
  match s with
  | EmptyString => EmptyString
  | String c s' => if is_space c then lstrip s' else s
  end.

Fixpoint rstrip (s : string) : string :=
  match s with
  | EmptyString => EmptyString
  | String c s' =>
      match rstrip s' with
      | EmptyString => if is_space c then EmptyString else String c EmptyString
      | r => String c r
      end
  end.

(** [s.strip()] *)
Definition strip (s : string) : string := rstrip (lstrip s).

(** [str(n)] for an [int]. *)
Definition str_of_int (n : Z) : string := NilZero.string_of_int (Z.to_int n).

(** *** Insertion-ordered dictionaries *)

(** Keys are compared with [==]. *)
Class Hashable (K : Type) : Type := { key_eqb : K -> K -> bool }.

#[export] Instance string_Hashable : Hashable string :=
  {| key_eqb := String.eqb |}.

Definition dict (K V : Type) : Type := list (K * V).

Section Dict.
Context {K V : Type} `{Hashable K}.

Fixpoint dict_get (d : dict K V) (k : K) : option V :=
  match d with
  | [] => None
  | (k', v) :: d' => if key_eqb k' k then Some v else dict_get d' k
  end.

(** [d.get(k, default)] *)
Definition dict_get_default (d : dict K V) (k : K) (default : V) : V :=
  match dict_get d k with
  | Some v => v
  | None => default
  end.

(** [d[k] = v]: an existing key keeps its position, a new key goes
    last. *)
Fixpoint dict_set (d : dict K V) (k : K) (v : V) : dict K V :=
  match d with
  | [] => [(k, v)]
  | (k', v') :: d' =>
      if key_eqb k' k then (k', v) :: d' else (k', v') :: dict_set d' k v
  end.

Definition keys (d : dict K V) : list K := map fst d.

(** [dict(items)] and [{k: v for k, v in items}]. *)
Definition dict_of_items (items : list (K * V)) : dict K V :=
  fold_left (fun d kv => dict_set d (fst kv) (snd kv)) items [].
End Dict.

(** *** Sorting *)

(** A stable sort into descending order of a key, as [sorted] with
    [reverse=True] is; [sorted_desc] below is
    [sorted(items, key=lambda x: x[1], reverse=True)]. *)
Section StableSort.
Context {A : Type}.
(** [lt x y]: the key of [x] is strictly below the key of [y]. *)
Variable lt : A -> A -> bool.

(** [x] stood before every element of [l]; it moves behind the
    elements whose key is strictly greater, and no further. *)
Fixpoint insert_desc (x : A) (l : list A) : list A :=
  match l with
  | [] => [x]
  | y :: l' => if lt x y then y :: insert_desc x l' else x :: l
  end.

Definition sort_desc (l : list A) : list A := fold_right insert_desc [] l.
End StableSort.

Definition pct_lt {K : Type} (x y : K * Q) : bool :=
  negb (Qle_bool (snd y) (snd x)).

Definition sorted_desc {K : Type} (l : list (K * Q)) : list (K * Q) :=
  sort_desc pct_lt l.

(** [sorted(l)] on a list of strings (code-point order). *)
Fixpoint insert_str (x : string) (l : list string) : list string :=
  match l with
  | [] => [x]
  | y :: l' => if String.ltb x y then x :: l else y :: insert_str x l'
  end.

Definition sorted_str (l : list string) : list string :=
  fold_right insert_str [] l.

(** *** Slices *)

(** The position a slice bound [n] denotes in a list of length [len]. *)
Definition slice_bound (len : nat) (n : Z) : nat :=
  if (n <? 0)%Z then Z.to_nat (Z.of_nat len + n) else Z.to_nat n.

(** [l[:n]] *)
Definition slice_to {A : Type} (l : list A) (n : Z) : list A :=
  firstn (slice_bound (List.length l) n) l.

(** [l[n:]] *)
Definition slice_from {A : Type} (l : list A) (n : Z) : list A :=
  skipn (slice_bound (List.length l) n) l.

(** [sum(vs)] *)
Definition sum (vs : list Q) : Q := fold_left Qplus vs (inject_Z 0).

(** The nearest integer, ties to even. *)
Definition round_half_even (q : Q) : Z :=
  let f := Qfloor q in
  let r := (q - inject_Z f)%Q in
  match Qcompare r (1 # 2) with
  | Lt => f
  | Gt => (f + 1)%Z
  | Eq => if Z.even f then f else (f + 1)%Z
  end.

(** [round(x, 2)] and [Series.round(2)], exact: the nearest multiple of
    1/100, ties to even. *)
Definition round2 (q : Q) : Q := (round_half_even (q * 100)%Q) # 100.

End Py.

(* ================================================================= *)
(** ** The pandas fragment *)

Module Pandas.
Import Py.

(** A non-null cell. *)
Inductive value : Type :=
| VStr (s : string)
| VInt (n : Z).

Definition value_eqb (a b : value) : bool :=
  match a, b with
  | VStr s, VStr t => String.eqb s t
  | VInt n, VInt m => Z.eqb n m
  | _, _ => false
  end.

#[export] Instance value_Hashable : Hashable value :=
  {| key_eqb := value_eqb |}.

(** [str(val)] *)
Definition str (v : value) : string :=
  match v with
  | VStr s => s
  | VInt n => str_of_int n
  end.

(** [isinstance(val, str)] *)
Definition is_text (v : value) : bool :=
  match v with
  | VStr _ => true
  | VInt _ => false
  end.

(** A cell: [None] is NaN. *)
Definition cell : Type := option value.

Definition Series : Type := list cell.

(** A frame: the column names and the rows in order, every row with a
    cell for each column. *)
Record DataFrame : Type := {
  columns : list string;
  rows : list (list cell)
}.

(** [len(df)] *)
Definition len (df : DataFrame) : nat := List.length (rows df).

(** [q in df.columns] *)
Definition has_column (df : DataFrame) (q : string) : bool :=
  existsb (String.eqb q) (columns df).

Fixpoint position (q : string) (cols : list string) : option nat :=
  match cols with
  | [] => None
  | c :: cols' =>
      if String.eqb c q then Some 0
      else option_map S (position q cols')
  end.

(** [df[q]]: the cells of column [q], one per row.  The engines read a
    column only after [q in df.columns] (the [KeyError] of a missing
    column cannot arise); for a missing column this is empty. *)
Definition getitem (df : DataFrame) (q : string) : Series :=
  match position q (columns df) with
  | Some i => map (fun r => nth i r None) (rows df)
  | None => []
  end.

(** [s.dropna()] *)
Fixpoint dropna (s : Series) : list value :=
  match s with
  | [] => []
  | Some v :: s' => v :: dropna s'
  | None :: s' => dropna s'
  end.

(** [s.notna()] and [s.isna()] *)
Definition notna (s : Series) : list bool :=
  map (fun c => match c with Some _ => true | None => false end) s.

(** [s.notna().sum()] *)
Definition notna_sum (s : Series) : nat :=
  List.length (filter (fun b => b) (notna s)).

(** [.unique()]: the distinct values in order of first appearance. *)
Fixpoint unique_acc (seen : list value) (vs : list value) : list value :=
  match vs with
  | [] => []
  | v :: vs' =>
      if existsb (value_eqb v) seen then unique_acc seen vs'
      else v :: unique_acc (v :: seen) vs'
  end.

Definition unique (vs : list value) : list value := unique_acc [] vs.

(** The tally behind [value_counts]: one entry per distinct value, in
    order of first appearance. *)
Definition bump (t : dict value nat) (v : value) : dict value nat :=
  dict_set t v (dict_get_default t v 0 + 1).

Definition tally (vs : list value) : dict value nat := fold_left bump vs [].

Definition count_lt (x y : value * nat) : bool := snd x <? snd y.

(** [s.value_counts()]: NaN dropped, most frequent first; values with the
    same count are listed here in order of first appearance. *)
Definition value_counts (s : Series) : dict value nat :=
  sort_desc count_lt (tally (dropna s)).

(** [df[mask]]: the rows whose mask entry is true, all columns kept. *)
Fixpoint select {A : Type} (mask : list bool) (l : list A) : list A :=
  match mask, l with
  | b :: mask', x :: l' => if b then x :: select mask' l' else select mask' l'
  | _, _ => []
  end.

Definition loc_mask (df : DataFrame) (mask : list bool) : DataFrame :=
  {| columns := columns df; rows := select mask (rows df) |}.

(** [s == option] with a string on the right. *)
Definition eq_str (s : Series) (option : string) : list bool :=
  map (fun c => match c with
                | Some (VStr t) => String.eqb t option
                | _ => false
                end) s.

(** [a & b] and [a | b] on masks. *)
Fixpoint mask_zip (f : bool -> bool -> bool) (a b : list bool) : list bool :=
  match a, b with
  | x :: a', y :: b' => f x y :: mask_zip f a' b'
  | _, _ => []
  end.

(** *** Regular expressions: the embedded fragment

    [Series.str.contains(pat)] compiles [pat] as a regular expression
    ([regex=True] is the default) and searches each text cell for it.
    The fragment embedded here has ordinary characters, which match
    themselves, and [.], which matches any character except a newline.
    A pattern with another special character is outside the fragment. *)

Inductive re_atom : Type :=
| ReChar (c : ascii)
| ReAny.

Definition re_special (c : ascii) : bool :=
  existsb (Ascii.eqb c)
    [ "."%char; "^"%char; "$"%char; "*"%char; "+"%char; "?"%char;
      "{"%char; "}"%char; "["%char; "]"%char; "\"%char; "|"%char;
      "("%char; ")"%char ].

Fixpoint re_compile (pat : string) : option (list re_atom) :=
  match pat with
  | EmptyString => Some []
  | String c pat' =>
      match re_compile pat' with
      | None => None
      | Some p =>
          if Ascii.eqb c "."%char then Some (ReAny :: p)
          else if re_special c then None
          else Some (ReChar c :: p)
      end
  end.

Definition newline : ascii := ascii_of_nat 10.

Definition re_atom_match (ignorecase : bool) (a : re_atom) (c : ascii) : bool :=
  match a with
  | ReAny => negb (Ascii.eqb c newline)
  | ReChar p =>
      if ignorecase then Ascii.eqb (lower_char p) (lower_char c)
      else Ascii.eqb p c
  end.

(** The pattern matches a prefix of [s]. *)
Fixpoint re_match (ignorecase : bool) (p : list re_atom) (s : string) : bool :=
  match p with
  | [] => true
  | a :: p' =>
      match s with
      | EmptyString => false
      | String c s' => re_atom_match ignorecase a c && re_match ignorecase p' s'
      end
  end.

(** [regex.search(s)] is not [None]. *)
Fixpoint re_search (ignorecase : bool) (p : list re_atom) (s : string) : bool :=
  re_match ignorecase p s ||
  match s with
  | EmptyString => false
  | String _ s' => re_search ignorecase p s'
  end.

(** The [.str] accessor exists on a column of dtype object: one that
    holds a text, or has no row at all. *)
Definition has_str_accessor (s : Series) : bool :=
  match s with
  | [] => true
  | _ => existsb is_text (dropna s)
  end.

(** [s.str.contains(pat, case=case, na=False)]: NaN and non-text cells
    give [na]. *)
Definition str_contains (s : Series) (pat : string) (case : bool)
  : result (list bool) :=
  if negb (has_str_accessor s) then Raise AttributeError
  else match re_compile pat with
       | None => Unsupported
       | Some p =>
           Ok (map (fun c => match c with
                             | Some (VStr t) => re_search (negb case) p t
                             | _ => false
                             end) s)
       end.

(** [(count / total) * 100] *)
Definition percent (count total : nat) : Q :=
  ((inject_Z (Z.of_nat count) / inject_Z (Z.of_nat total)) * inject_Z 100)%Q.

End Pandas.

(* ================================================================= *)
(** ** [SurveyAnalyzer] (src/survey_analyzer.py) *)

Module SurveyAnalyzer.
Import Py Pandas.

(** The type tags ['empty'], ['MC'] and ['SC']. *)
Inductive qtype : Type := empty | MC | SC.

Definition qtype_eqb (a b : qtype) : bool :=
  match a, b with
  | empty, empty | MC, MC | SC, SC => true
  | _, _ => false
  end.

(** An entry of [self.questions]. *)
Record info : Type := {
  type : qtype;
  unique_values : nat;
  response_count : nat
}.

(** The analyzer's state. *)
Record t : Type := {
  df : DataFrame;
  questions : dict string info;
  question_types : dict string qtype
}.

(** [self.question_types.get(question) == 'MC'] *)
Definition is_MC (self : t) (question : string) : bool :=
  match dict_get (question_types self) question with
  | Some ty => qtype_eqb ty MC
  | None => false
  end.

(** One turn of the loop of [_analyze_structure]. *)
Definition analyze_column (self : t) (col : string) : t :=
  if String.eqb col "ResponseId" then self
  else
    let unique_vals := unique (dropna (getitem (df self) col)) in
    let ty :=
      if List.length unique_vals =? 0 then empty
      else if contains ";"
                (match dropna (getitem (df self) col) with
                 | v :: _ => str v
                 | [] => ""
                 end)
           then MC
           else SC in
    {| df := df self;
       questions :=
         dict_set (questions self) col
           {| type := ty;
              unique_values := List.length unique_vals;
              response_count := notna_sum (getitem (df self) col) |};
       question_types := dict_set (question_types self) col ty |}.

Definition _analyze_structure (self : t) : t :=
  fold_left analyze_column (columns (df self)) self.

(** [__init__], from the loaded frame on. *)
Definition init (data : DataFrame) : t :=
  _analyze_structure {| df := data; questions := []; question_types := [] |}.

Definition search_questions (self : t) (keyword : string) : list string :=
  let keyword_lower := lower keyword in
  filter (fun q => contains keyword_lower (lower q)) (keys (questions self)).

(** [all_options.update(...)]: a set, listed without repetition. *)
Definition set_add (acc : list string) (x : string) : list string :=
  if existsb (String.eqb x) acc then acc else acc ++ [x].

Definition not_found (question where_ : string) : exn :=
  ValueError ("Question '" ++ question ++ "' not found in " ++ where_)%string.

Definition search_options (self : t) (question keyword : string)
  : result (list string) :=
  if negb (has_column (df self) question) then
    Raise (not_found question "survey")
  else
    let keyword_lower := lower keyword in
    let matching_options :=
      if is_MC self question then
        let all_options :=
          fold_left
            (fun acc val =>
               fold_left set_add (map strip (split ";"%char (str val))) acc)
            (dropna (getitem (df self) question)) [] in
        filter (fun opt => contains keyword_lower (lower opt)) all_options
      else
        let unique_vals := unique (dropna (getitem (df self) question)) in
        map str
          (filter (fun val => contains keyword_lower (lower (str val)))
             unique_vals) in
    Ok (sorted_str matching_options).

Definition create_subset (self : t) (question option : string)
  : result DataFrame :=
  if negb (has_column (df self) question) then
    Raise (not_found question "survey")
  else
    bind
      (if is_MC self question then
         bind (str_contains (getitem (df self) question) option false)
           (fun m => Ok (mask_zip andb (notna (getitem (df self) question)) m))
       else Ok (eq_str (getitem (df self) question) option))
      (fun mask => Ok (loc_mask (df self) mask)).

(** The counting loop of the MC branch of [get_distribution]. *)
Definition count_option (option_counts : dict string nat) (opt : string) : dict string nat :=
  let opt := strip opt in
  dict_set option_counts opt (dict_get_default option_counts opt 0 + 1).

Definition count_options (vals : list value) : dict string nat :=
  fold_left
    (fun option_counts val =>
       fold_left count_option (split ";"%char (str val)) option_counts)
    vals [].

Definition get_distribution (self : t) (question : string)
    (subset_df : option DataFrame) : result (dict string Q) :=
  let df := match subset_df with Some d => d | None => df self end in
  if negb (has_column df question) then
    Raise (not_found question "data")
  else
    let total_responses := notna_sum (getitem df question) in
    if total_responses =? 0 then Ok []
    else
      let distribution :=
        if is_MC self question then
          let option_counts := count_options (dropna (getitem df question)) in
          dict_of_items
            (map (fun oc => (fst oc, percent (snd oc) total_responses))
               option_counts)
        else
          let value_counts := value_counts (getitem df question) in
          dict_of_items
            (map (fun vc => (str (fst vc), percent (snd vc) total_responses))
               value_counts) in
      Ok (dict_of_items (sorted_desc distribution)).

(** [if top_n]: neither [None] nor 0. *)
Definition truthy (top_n : option Z) : bool :=
  match top_n with
  | Some n => negb (Z.eqb n 0)
  | None => false
  end.

(** The frame [display_distribution] returns, as its rows
    (Option, Percentage). *)
Definition display_distribution (self : t) (question : string)
    (subset_df : option DataFrame) (top_n : option Z)
  : result (list (string * Q)) :=
  bind (get_distribution self question subset_df)
    (fun distribution =>
       match distribution with
       | [] => Ok [("No responses", inject_Z 0)]
       | _ =>
           let items :=
             match top_n with
             | Some n => if truthy top_n then slice_to distribution n
                         else distribution
             | None => distribution
             end in
           let df_dist := map (fun it => (fst it, round2 (snd it))) items in
           match top_n with
           | Some n =>
               if truthy top_n && (n <? Z.of_nat (List.length distribution))%Z
               then
                 let other_pct := sum (map snd (slice_from distribution n)) in
                 Ok (df_dist ++ [("Others", round2 other_pct)])
               else Ok df_dist
           | None => Ok df_dist
           end
       end).

(** [get_survey_structure] *)
Definition get_survey_structure (self : t) : dict string info := questions self.

(** A row of the frame [display_survey_structure] returns: the columns
    [Question], [Type], [Unique Values] and [Responses]. *)
Record structure_row : Type := {
  Question : string;
  Type' : qtype;
  Unique_Values : nat;
  Responses : nat
}.

(** [q[:80] + '...' if len(q) > 80 else q] *)
Definition shorten (q : string) : string :=
  if 80 <? String.length q then (substring 0 80 q ++ "...")%string else q.

(** The loop of [display_survey_structure], from index [i] on:
    [if limit and i >= limit: break]. *)
Fixpoint structure_rows (limit : option Z) (i : nat)
    (items : list (string * info)) : list structure_row :=
  match items with
  | [] => []
  | (q, inf) :: items' =>
      if truthy limit
         && match limit with
            | Some n => (n <=? Z.of_nat i)%Z
            | None => false
            end
      then []
      else {| Question := shorten q;
              Type' := type inf;
              Unique_Values := unique_values inf;
              Responses := response_count inf |}
           :: structure_rows limit (S i) items'
  end.

Definition display_survey_structure (self : t) (limit : option Z)
  : list structure_row :=
  structure_rows limit 0 (questions self).

End SurveyAnalyzer.

(* ================================================================= *)
(** ** [so_lib] (so_lib/core.py, so_lib/analysis.py, so_lib/cli.py) *)

Module SoLib.
Import Py Pandas.

(** A row of the schema sheet. *)
Record schema_row : Type := {
  column : string;
  question_text : string;
  type : string
}.

(** What [load_data()] returns: the two sheets. *)
Record data : Type := {
  schema : list schema_row;
  raw_data : DataFrame
}.

(** [schema.loc[schema['column'] == question_id, field].iloc[0]] *)
Definition schema_field {A : Type} (field : schema_row -> A)
    (sch : list schema_row) (question_id : string) : result A :=
  match filter (fun r => String.eqb (column r) question_id) sch with
  | r :: _ => Ok (field r)
  | [] => Raise IndexError
  end.

(** [list_questions()]: the schema rows, columns renamed. *)
Definition list_questions (d : data) : list schema_row := schema d.

Definition text_series (ss : list string) : Series :=
  map (fun s => Some (VStr s)) ss.

Definition search_questions (d : data) (query : string)
  : result (list schema_row) :=
  if String.eqb query "" then
    Raise (ValueError "Query must be a non-empty string")
  else
    let questions := list_questions d in
    bind (str_contains
            (text_series (map (fun r => lower (question_text r)) questions))
            (lower query) true)
      (fun by_text =>
         bind (str_contains
                 (text_series (map (fun r => lower (column r)) questions))
                 (lower query) true)
           (fun by_id => Ok (select (mask_zip orb by_text by_id) questions))).

Definition id_not_found (question_id : string) : exn :=
  ValueError ("Question ID '" ++ question_id
              ++ "' not found in the dataset")%string.

Definition empty_id : exn :=
  ValueError "Question ID must be a non-empty string".

(** [';' in opt] for an option of either kind. *)
Definition has_separator (opt : value) : bool :=
  match opt with
  | VStr s => contains ";" s
  | VInt _ => false
  end.

(** [list(set(all_options))]: the distinct options; Python leaves the
    order of a set open, the order here is that of first appearance. *)
Definition set_add (acc : list value) (x : value) : list value :=
  if existsb (value_eqb x) acc then acc else acc ++ [x].

(** [search_options(question_id, query)], the [options] entry of the
    dictionary it returns; [query] is [None] when absent.
    [';' in str(options)] inspects the printed list, which shows a [';']
    exactly when one of its text elements has one. *)
Definition search_options (d : data) (question_id : string)
    (query : option string) : result (list value) :=
  if String.eqb question_id "" then Raise empty_id
  else if negb (has_column (raw_data d) question_id) then
    Raise (id_not_found question_id)
  else
    let options := unique (dropna (getitem (raw_data d) question_id)) in
    let options :=
      if existsb has_separator options then
        let all_options :=
          flat_map
            (fun opt =>
               match opt with
               | VStr s => if contains ";" s
                           then map VStr (split ";"%char s)
                           else [opt]
               | VInt _ => [opt]
               end) options in
        fold_left set_add all_options []
      else options in
    let options :=
      match query with
      | Some q =>
          if String.eqb q "" then options
          else filter (fun opt => contains (lower q) (lower (str opt))) options
      | None => options
      end in
    Ok options.

Definition subset_respondents (d : data) (question_id option : string)
  : result DataFrame :=
  if String.eqb question_id "" then Raise empty_id
  else if String.eqb option "" then
    Raise (ValueError "Option must be a non-empty string")
  else if negb (has_column (raw_data d) question_id) then
    Raise (id_not_found question_id)
  else
    bind (schema_field type (schema d) question_id)
      (fun question_type =>
         if String.eqb question_type "SC" then
           Ok (loc_mask (raw_data d)
                 (eq_str (getitem (raw_data d) question_id) option))
         else
           bind (str_contains (getitem (raw_data d) question_id) option true)
             (fun m => Ok (loc_mask (raw_data d) m))).

(** The dictionary the two distribution functions return. *)
Record distribution_of (K : Type) : Type := {
  dist_question_id : string;
  dist_question_text : string;
  distribution : list (K * Q)
}.
Arguments dist_question_id {K} _.
Arguments dist_question_text {K} _.
Arguments distribution {K} _.

(** [distribution_sc]: the keys are the cell values themselves, which
    [value_counts] lists once each. *)
Definition distribution_sc (d : data) (question_id : string)
  : result (distribution_of value) :=
  if String.eqb question_id "" then Raise empty_id
  else if negb (has_column (raw_data d) question_id) then
    Raise (id_not_found question_id)
  else
    bind (schema_field type (schema d) question_id)
      (fun question_type =>
         if negb (String.eqb question_type "SC") then
           Raise (ValueError ("Question '" ++ question_id
                              ++ "' is not a single-choice question")%string)
         else
           let total_responses :=
             List.length
               (select (notna (getitem (raw_data d) question_id))
                  (rows (raw_data d))) in
           let value_counts := value_counts (getitem (raw_data d) question_id) in
           let distribution :=
             map (fun vc => (fst vc, percent (snd vc) total_responses))
               value_counts in
           bind (schema_field question_text (schema d) question_id)
             (fun question_text =>
                Ok {| dist_question_id := question_id;
                      dist_question_text := question_text;
                      distribution := distribution |})).

(** The counting loop of [distribution_mc]. *)
Definition count_option (options_count : dict string nat) (option : string) : dict string nat :=
  match dict_get options_count option with
  | Some n => dict_set options_count option (n + 1)
  | None => dict_set options_count option 1
  end.

Definition count_answer (options_count : dict string nat) (answer : value) : dict string nat :=
  match answer with
  | VStr s => fold_left count_option (split ";"%char s) options_count
  | VInt _ => options_count
  end.

Definition distribution_mc (d : data) (question_id : string)
  : result (distribution_of string) :=
  if String.eqb question_id "" then Raise empty_id
  else if negb (has_column (raw_data d) question_id) then
    Raise (id_not_found question_id)
  else
    bind (schema_field type (schema d) question_id)
      (fun question_type =>
         if negb (String.eqb question_type "MC") then
           Raise (ValueError ("Question '" ++ question_id
                              ++ "' is not a multiple-choice question")%string)
         else
           let total_respondents := len (raw_data d) in
           let options_count :=
             fold_left count_answer
               (dropna (getitem (raw_data d) question_id)) [] in
           let distribution :=
             dict_of_items
               (map (fun oc => (fst oc, percent (snd oc) total_respondents))
                  options_count) in
           bind (schema_field question_text (schema d) question_id)
             (fun question_text =>
                Ok {| dist_question_id := question_id;
                      dist_question_text := question_text;
                      distribution := distribution |})).

(** [sorted_dist] of [format_distribution] (so_lib/cli.py). *)
Definition sorted_dist {K : Type} (dist_data : distribution_of K)
  : list (K * Q) :=
  sorted_desc (distribution dist_data).

End SoLib.

(* ================================================================= *)
(** ** Vocabulary of the statements *)

Module Terms.
Import Py Pandas.

(** Key comparison decides equality. *)
Class HashableLaws (K : Type) `{Hashable K} : Prop := {
  key_eqb_eq : forall a b : K, key_eqb a b = true <-> a = b
}.

(** Counting with [d[k] = d.get(k, 0) + 1]. *)
Definition incr {K : Type} `{Hashable K} (d : dict K nat) (k : K) : dict K nat :=
  dict_set d k (dict_get_default d k 0 + 1).

(** How often [k] occurs in [xs]. *)
Definition occurrences {K : Type} `{Hashable K} (k : K) (xs : list K) : nat :=
  List.length (filter (key_eqb k) xs).

(** [a] may stand before [b] in a distribution: its percentage is not
    smaller. *)
Definition pct_ge {K : Type} (a b : K * Q) : Prop := (snd b <= snd a)%Q.

(** The formula [100 * count / denominator]. *)
Definition ratio100 (count denominator : nat) : Q :=
  (inject_Z 100 * inject_Z (Z.of_nat count) / inject_Z (Z.of_nat denominator))%Q.

(** The first non-null value of a column. *)
Definition first_valid (s : Series) : option value := hd_error (dropna s).

(** The type [analyze_column] infers for a column with cells [s], and the
    entry it stores. *)
Definition column_type (s : Series) : SurveyAnalyzer.qtype :=
  if List.length (unique (dropna s)) =? 0 then SurveyAnalyzer.empty
  else if contains ";" (match dropna s with v :: _ => str v | [] => "" end)
       then SurveyAnalyzer.MC else SurveyAnalyzer.SC.

Definition column_info (s : Series) : SurveyAnalyzer.info :=
  {| SurveyAnalyzer.type := column_type s;
     SurveyAnalyzer.unique_values := List.length (unique (dropna s));
     SurveyAnalyzer.response_count := notna_sum s |}.

(** [col] is analysed: it is a column other than [ResponseId]. *)
Definition analysed (cols : list string) (col : string) : bool :=
  existsb (String.eqb col) cols && negb (String.eqb col "ResponseId").

(** The frame [get_distribution] works on. *)
Definition rowset (self : SurveyAnalyzer.t) (subset_df : option DataFrame)
  : DataFrame :=
  match subset_df with Some d => d | None => SurveyAnalyzer.df self end.

(** The cell of row [r] in column [question]. *)
Definition cell_of (df : DataFrame) (question : string) (r : list cell) : cell :=
  match position question (columns df) with
  | Some i => nth i r None
  | None => None
  end.

(** The fragments of the cells, split on [';'], in reading order. *)
Definition fragments (vals : list value) : list string :=
  flat_map (fun val => split ";"%char (str val)) vals.

(** The fragments of the text cells alone. *)
Definition text_fragments (vals : list value) : list string :=
  flat_map (fun val => match val with
                       | VStr s => split ";"%char s
                       | VInt _ => []
                       end) vals.

(** [opt] is a fragment of a non-null cell of [s], split on [';'] and
    stripped. *)
Definition stripped_fragment_of (s : Series) (opt : string) : Prop :=
  exists val f,
    In (Some val) s /\ In f (split ";"%char (str val)) /\ opt = strip f.

(** [opt] is a fragment of a text cell of [s], split on [';'], as it stands. *)
Definition fragment_of (s : Series) (opt : string) : Prop :=
  exists t, In (Some (VStr t)) s /\ In opt (split ";"%char t).

(** The distinct strings of [xs], each at its first occurrence. *)
Fixpoint first_seen (xs : list string) : list string :=
  match xs with
  | [] => []
  | x :: xs' => x :: filter (fun y => negb (String.eqb y x)) (first_seen xs')
  end.

(** The dictionary [distribution] of [get_distribution], before sorting. *)
Definition unsorted_distribution (self : SurveyAnalyzer.t) (question : string)
    (s : Series) : dict string Q :=
  if SurveyAnalyzer.is_MC self question then
    dict_of_items
      (map (fun oc => (fst oc, percent (snd oc) (notna_sum s)))
         (SurveyAnalyzer.count_options (dropna s)))
  else
    dict_of_items
      (map (fun vc => (str (fst vc), percent (snd vc) (notna_sum s)))
         (value_counts s)).

(** The rows [display_distribution] shows for the entries [items]. *)
Definition shown (items : list (string * Q)) : list (string * Q) :=
  map (fun it => (fst it, round2 (snd it))) items.

Definition starts_with_space (s : string) : bool :=
  match s with
  | String c _ => is_space c
  | EmptyString => false
  end.

Fixpoint ends_with_space (s : string) : bool :=
  match s with
  | EmptyString => false
  | String c EmptyString => is_space c
  | String _ s' => ends_with_space s'
  end.

(** No whitespace at either end. *)
Definition trimmed (s : string) : Prop :=
  starts_with_space s = false /\ ends_with_space s = false.

(** The pattern has no character that is special in a regular expression. *)
Definition literal (pat : string) : bool :=
  forallb (fun c => negb (re_special c)) (list_ascii_of_string pat).

End Terms.

(* ================================================================= *)
(** ** Fixtures: the data of the test suites and small frames *)

Module Fixtures.
Import Py Pandas.

Definition txt (s : string) : cell := Some (VStr s).
Definition num (n : Z) : cell := Some (VInt n).

(** [sample_data] of tests/test_survey_analyzer.py. *)
Definition sample_data : DataFrame :=
  {| columns := ["ResponseId"; "Country"; "Languages"; "YearsCode"; "EmptyColumn"];
     rows :=
       [ [num 1; txt "USA"; txt "Python;JavaScript"; num 5; None];
         [num 2; txt "UK"; txt "Python"; num 3; None];
         [num 3; txt "Canada"; txt "JavaScript;Java"; num 7; None];
         [num 4; txt "USA"; txt "Python;Java"; num 2; None];
         [num 5; txt "UK"; txt "JavaScript"; num 4; None] ] |}.

Definition analyzer : SurveyAnalyzer.t := SurveyAnalyzer.init sample_data.

(** The two sheets of tests/test_core.py and tests/test_analysis.py. *)
Definition test_data : SoLib.data :=
  {| SoLib.schema :=
       [ {| SoLib.column := "Q1"; SoLib.question_text := "Test question 1?";
            SoLib.type := "SC" |};
         {| SoLib.column := "Q2";
            SoLib.question_text := "Test multiple-choice question?";
            SoLib.type := "MC" |};
         {| SoLib.column := "Q3"; SoLib.question_text := "Another test question?";
            SoLib.type := "SC" |} ];
     SoLib.raw_data :=
       {| columns := ["Q1"; "Q2"; "Q3"];
          rows :=
            [ [txt "Option A"; txt "Option X;Option Y"; txt "Yes"];
              [txt "Option B"; txt "Option Z"; txt "No"];
              [txt "Option A"; txt "Option X"; txt "Yes"];
              [txt "Option C"; txt "Option Y;Option Z"; txt "Yes"] ] |} |}.

(** A multiple-choice column with an unanswered row. *)
Definition unanswered_data : DataFrame :=
  {| columns := ["Languages"];
     rows := [ [txt "Python;Java"]; [None] ] |}.

(** A multiple-choice column with an empty fragment and padded fragments. *)
Definition ragged_data : DataFrame :=
  {| columns := ["Languages"];
     rows := [ [txt "Python;; Java "]; [txt "Go"] ] |}.

Definition ragged_so_data : SoLib.data :=
  {| SoLib.schema :=
       [ {| SoLib.column := "Languages"; SoLib.question_text := "Languages?";
            SoLib.type := "MC" |} ];
     SoLib.raw_data := ragged_data |}.

(** A multiple-choice column and an option with a dot. *)
Definition dotted_data : DataFrame :=
  {| columns := ["Tools"];
     rows := [ [txt "Node.js;Deno"]; [txt "Nodejs"]; [txt "Node-js;Bun"] ] |}.

(** A single-choice column where a number and a text print alike. *)
Definition mixed_data : DataFrame :=
  {| columns := ["YearsCode"];
     rows := [ [num 5]; [txt "5"] ] |}.

Definition mixed_so_data : SoLib.data :=
  {| SoLib.schema :=
       [ {| SoLib.column := "YearsCode"; SoLib.question_text := "Years?";
            SoLib.type := "SC" |} ];
     SoLib.raw_data := mixed_data |}.

(** A multiple-choice column whose first option is the rarer one. *)
Definition order_data : SoLib.data :=
  {| SoLib.schema :=
       [ {| SoLib.column := "Languages"; SoLib.question_text := "Languages?";
            SoLib.type := "MC" |} ];
     SoLib.raw_data :=
       {| columns := ["Languages"];
          rows := [ [txt "Python;Java"]; [txt "Java"] ] |} |}.

(** The sheets of the tests, with the row of [Q2] missing from the schema. *)
Definition unlisted_data : SoLib.data :=
  {| SoLib.schema :=
       [ {| SoLib.column := "Q1"; SoLib.question_text := "Test question 1?";
            SoLib.type := "SC" |};
         {| SoLib.column := "Q3"; SoLib.question_text := "Another test question?";
            SoLib.type := "SC" |} ];
     SoLib.raw_data := SoLib.raw_data test_data |}.

End Fixtures.

(* ================================================================= *)
(** ** More Python primitives, for the command line *)

Module PyText.
Import Py.

(** [s.startswith(p)] *)
Definition startswith (s p : string) : bool := prefix p s.

(** [s.split()] and [s.split(maxsplit=k)]: the words between runs of
    whitespace; once [k] words are cut the rest of the text, stripped on the
    left only, is the last item.  [cur] is the word being read. *)
Fixpoint split_words (maxsplit : option nat) (cur : option string) (s : string)
  : list string :=
  match s with
  | EmptyString =>
      match cur with
      | Some w => [w]
      | None => []
      end
  | String c s' =>
      match cur with
      | Some w =>
          if is_space c then w :: split_words maxsplit None s'
          else split_words maxsplit (Some (w ++ String c EmptyString)%string) s'
      | None =>
          if is_space c then split_words maxsplit None s'
          else match maxsplit with
               | Some 0 => [s]
               | Some (S k) =>
                   split_words (Some k) (Some (String c EmptyString)) s'
               | None => split_words None (Some (String c EmptyString)) s'
               end
      end
  end.

Definition split_ws (s : string) : list string := split_words None None s.

Definition split_ws_max (s : string) (maxsplit : nat) : list string :=
  split_words (Some maxsplit) None s.

Definition digit_value (c : ascii) : option Z :=
  let n := code c in
  if (48 <=? n) && (n <=? 57) then Some (Z.of_nat (n - 48)) else None.

(** The digits of [int(s)]: decimal digits, with single underscores
    between digits. *)
Fixpoint int_digits (acc : Z) (after_digit : bool) (s : string) : option Z :=
  match s with
  | EmptyString => if after_digit then Some acc else None
  | String c s' =>
      match digit_value c with
      | Some d => int_digits (10 * acc + d)%Z true s'
      | None =>
          if Ascii.eqb c "_"%char && after_digit then int_digits acc false s'
          else None
      end
  end.

(** [int(s)] for a token without whitespace; [None] is its [ValueError]. *)
Definition int_of_string (s : string) : option Z :=
  match s with
  | String c s' =>
      if Ascii.eqb c "+"%char then int_digits 0 false s'
      else if Ascii.eqb c "-"%char then option_map Z.opp (int_digits 0 false s')
      else int_digits 0 false s
  | EmptyString => None
  end.

End PyText.

(* ================================================================= *)
(** ** The command line of [SurveyAnalyzer] (src/cli.py)

    The commands run on a loaded analyzer ([get_analyzer()] succeeded) and
    on the saved subset [current_subset].  What they print is a list of
    events; the grid that [tabulate] draws of a frame is the event that
    carries the frame. *)

Module Cli.
Import Py Pandas PyText.

Inductive event : Type :=
| Echo (text : string)
(** [click.echo(f"Error: {e}")] *)
| EchoError (e : exn)
(** the same line for the [ValueError] of [int(token)] *)
| EchoIntError (token : string)
(** ["Created subset: {subset_size} respondents
    ({subset_size/total_size*100:.1f}% of total)"] *)
| EchoCreated (subset_size total_size : nat)
| TabulateStructure (df : list SurveyAnalyzer.structure_row)
| TabulateDistribution (df_dist : list (string * Q)).

(** How a command ends: it returns, it dies of an exception it does not
    catch, or it compiled a regular expression outside the embedded
    fragment. *)
Inductive failure : Type :=
| ZeroDivisionError
| KeyError
| Uncaught (e : exn).

Inductive outcome (A : Type) : Type :=
| Finished (a : A)
| Died (f : failure)
| Unmodelled.
Arguments Finished {A} a.
Arguments Died {A} f.
Arguments Unmodelled {A}.

Definition nl : string := String newline EmptyString.

(** [str(n)] of a count. *)
Definition str_of_nat (n : nat) : string := str_of_int (Z.of_nat n).

(** The type tag of a question as printed. *)
Definition qtype_str (ty : SurveyAnalyzer.qtype) : string :=
  match ty with
  | SurveyAnalyzer.empty => "empty"
  | SurveyAnalyzer.MC => "MC"
  | SurveyAnalyzer.SC => "SC"
  end.

(** The command [structure --limit limit]. *)
Definition structure (self : SurveyAnalyzer.t) (limit : Z) : list event :=
  let df := SurveyAnalyzer.display_survey_structure self (Some limit) in
  let total := List.length (SurveyAnalyzer.questions self) in
  [ Echo (nl ++ "Survey Structure (" ++ str_of_nat total
          ++ " total questions):" ++ nl)%string;
    TabulateStructure df ]
  ++ (if (limit <? Z.of_nat total)%Z then
        [ Echo (nl ++ "Showing " ++ str_of_int limit ++ " of "
                ++ str_of_nat total
                ++ " questions. Use --limit to see more.")%string ]
      else []).

(** [enumerate(l, start)] *)
Definition enumerate {A : Type} (l : list A) (start : nat) : list (nat * A) :=
  combine (seq start (List.length l)) l.

(** The two lines of a question found; [analyzer.questions[q]] raises
    [KeyError] for a missing key, here [None]. *)
Definition question_lines (self : SurveyAnalyzer.t) (iq : nat * string)
  : option (list event) :=
  match dict_get (SurveyAnalyzer.questions self) (snd iq) with
  | Some q_info =>
      Some [ Echo ("  " ++ str_of_nat (fst iq) ++ ". " ++ snd iq)%string;
             Echo ("     Type: " ++ qtype_str (SurveyAnalyzer.type q_info)
                   ++ ", Responses: "
                   ++ str_of_nat (SurveyAnalyzer.response_count q_info))%string ]
  | None => None
  end.

Fixpoint questions_lines (self : SurveyAnalyzer.t) (items : list (nat * string))
  : option (list event) :=
  match items with
  | [] => Some []
  | iq :: items' =>
      match question_lines self iq with
      | Some lines => option_map (app lines) (questions_lines self items')
      | None => None
      end
  end.

(** The command [search keyword [--in-options] [--question question]]. *)
Definition search (self : SurveyAnalyzer.t) (keyword : string)
    (in_options : bool) (question : option string) : outcome (list event) :=
  if in_options then
    match question with
    | None | Some EmptyString =>
        Finished [Echo "Error: --question is required when searching in options"]
    | Some question =>
        match SurveyAnalyzer.search_options self question keyword with
        | Ok options =>
            Finished
              (Echo (nl ++ "Options matching '" ++ keyword ++ "' in question '"
                     ++ question ++ "':")%string
               :: map (fun io => Echo ("  " ++ str_of_nat (fst io) ++ ". "
                                       ++ snd io)%string)
                    (enumerate options 1)
               ++ match options with
                  | [] => [Echo "  No matching options found."]
                  | _ => []
                  end)
        | Raise (ValueError msg) => Finished [EchoError (ValueError msg)]
        | Raise e => Died (Uncaught e)
        | Unsupported => Unmodelled
        end
    end
  else
    let questions := SurveyAnalyzer.search_questions self keyword in
    match questions_lines self (enumerate questions 1) with
    | Some lines =>
        Finished
          (Echo (nl ++ "Questions matching '" ++ keyword ++ "':")%string
           :: lines
           ++ match questions with
              | [] => [Echo "  No matching questions found."]
              | _ => []
              end)
    | None => Died KeyError
    end.

(** The command [distribution question [--top top] [--subset]]. *)
Definition distribution (self : SurveyAnalyzer.t)
    (current_subset : option DataFrame) (question : string) (top : Z)
    (subset : bool) : outcome (list event) :=
  if subset && match current_subset with None => true | Some _ => false end then
    Finished
      [ Echo "Error: No subset saved. Create a subset first using the 'subset' command with --save flag." ]
  else
    let data_to_use := if subset then current_subset else None in
    match SurveyAnalyzer.display_distribution self question data_to_use (Some top) with
    | Ok df_dist =>
        let data_desc := if subset then "saved subset" else "full dataset" in
        let total_responses :=
          notna_sum
            (getitem (match data_to_use with
                      | Some d => d
                      | None => SurveyAnalyzer.df self
                      end) question) in
        Finished
          [ Echo (nl ++ "Distribution for '" ++ question ++ "' (" ++ data_desc
                  ++ "):")%string;
            Echo ("Total responses: " ++ str_of_nat total_responses)%string;
            Echo ("Question type: "
                  ++ match dict_get (SurveyAnalyzer.question_types self) question with
                     | Some ty => qtype_str ty
                     | None => "Unknown"
                     end ++ nl)%string;
            TabulateDistribution df_dist ]
    | Raise (ValueError msg) => Finished [EchoError (ValueError msg)]
    | Raise e => Died (Uncaught e)
    | Unsupported => Unmodelled
    end.

(** *** The interactive loop ([repl]) *)

(** [f"{s:<30}"] *)
Definition ljust30 (s : string) : string :=
  (s ++ string_of_list_ascii (repeat " "%char (30 - String.length s)))%string.

Definition commands : list (string * string) :=
  [ ("help", "Show available commands");
    ("structure [limit]", "Display survey structure");
    ("search <keyword>", "Search questions");
    ("search-options <question> <keyword>", "Search options in a question");
    ("subset <question> <option>", "Create and save subset");
    ("dist <question> [top_n]", "Show distribution");
    ("dist-subset <question> [top_n]", "Show distribution for saved subset");
    ("clear-subset", "Clear saved subset");
    ("exit", "Exit REPL") ].

(** One turn of the loop: it goes on with a saved subset and the lines
    printed, or leaves the loop. *)
Inductive reply : Type :=
| Continue (current_subset : option DataFrame) (out : list event)
| Break.

(** [except Exception as e: click.echo(f"Error: {e}")]: an exception ends
    the turn with its message and leaves the saved subset as it was. *)
Definition guarded (current_subset : option DataFrame)
    (r : result (option DataFrame * list event)) : outcome reply :=
  match r with
  | Ok (cs, out) => Finished (Continue cs out)
  | Raise e => Finished (Continue current_subset [EchoError e])
  | Unsupported => Unmodelled
  end.

(** [int(parts[i]) if len(parts) > i else default] *)
Definition int_arg (parts : list string) (i : nat) (default : Z)
  : string + Z :=
  match nth_error parts i with
  | Some token =>
      match int_of_string token with
      | Some n => inr n
      | None => inl token
      end
  | None => inr default
  end.

(** The branches [dist] and [dist-subset], after the test for a saved
    subset. *)
Definition show_distribution (self : SurveyAnalyzer.t)
    (current_subset data_to_use : option DataFrame) (cmd usage : string)
  : outcome reply :=
  let parts := split_ws cmd in
  match nth_error parts 1 with
  | None => Finished (Continue current_subset [Echo usage])
  | Some question =>
      match int_arg parts 2 10 with
      | inl token => Finished (Continue current_subset [EchoIntError token])
      | inr top =>
          guarded current_subset
            (bind (SurveyAnalyzer.display_distribution self question
                     data_to_use (Some top))
               (fun df_dist => Ok (current_subset, [TabulateDistribution df_dist])))
      end
  end.

(** *** The commands that call [create_subset]

    [subset] and [repl] call [analyzer.create_subset], which compiles the
    option as a regular expression.  They are written here over the
    function that stands for that call, [SurveyAnalyzer.create_subset] with
    the embedded fragment of [re] or [AnyRegex.create_subset] with any
    engine. *)

Section CreateSubset.
Variable create_subset
  : SurveyAnalyzer.t -> string -> string -> result DataFrame.

(** The command [subset question option [--save]]: the new saved subset and
    the lines printed.  Only [ValueError] is caught. *)
Definition subset_with (self : SurveyAnalyzer.t) (current_subset : option DataFrame)
    (question option : string) (save : bool)
  : outcome (Datatypes.option DataFrame * list event) :=
  match create_subset self question option with
  | Ok subset_df =>
      let subset_size := len subset_df in
      let total_size := len (SurveyAnalyzer.df self) in
      if total_size =? 0 then Died ZeroDivisionError
      else
        Finished
          (if save then Some subset_df else current_subset,
           [ EchoCreated subset_size total_size;
             Echo ("Filter: " ++ question ++ " = '" ++ option ++ "'")%string ]
           ++ (if save then
                 [ Echo (nl ++ "Subset saved for future operations. Use --subset flag in distribution command.")%string ]
               else []))
  | Raise (ValueError msg) => Finished (current_subset, [EchoError (ValueError msg)])
  | Raise e => Died (Uncaught e)
  | Unsupported => Unmodelled
  end.

Definition repl_step_with (self : SurveyAnalyzer.t) (current_subset : option DataFrame)
    (cmd : string) : outcome reply :=
  if String.eqb (strip cmd) "exit" then Finished Break
  else if String.eqb (strip cmd) "help" then
    Finished
      (Continue current_subset
         (Echo (nl ++ "Available commands:")%string
          :: map (fun c => Echo ("  " ++ ljust30 (fst c) ++ " - " ++ snd c)%string)
               commands))
  else if startswith cmd "structure" then
    match int_arg (split_ws cmd) 1 20 with
    | inl token => Finished (Continue current_subset [EchoIntError token])
    | inr limit =>
        Finished
          (Continue current_subset
             [TabulateStructure
                (SurveyAnalyzer.display_survey_structure self (Some limit))])
    end
  else if startswith cmd "search-options" then
    match split_ws_max cmd 2 with
    | [_; question; keyword] =>
        guarded current_subset
          (bind (SurveyAnalyzer.search_options self question keyword)
             (fun options =>
                Ok (current_subset,
                    map (fun opt => Echo ("  - " ++ opt)%string) options)))
    | _ =>
        Finished
          (Continue current_subset
             [Echo "Usage: search-options <question> <keyword>"])
    end
  else if startswith cmd "search" then
    match split_ws_max cmd 1 with
    | [_; keyword] =>
        Finished
          (Continue current_subset
             (map (fun q => Echo ("  - " ++ q)%string)
                (SurveyAnalyzer.search_questions self keyword)))
    | _ => Finished (Continue current_subset [Echo "Usage: search <keyword>"])
    end
  else if startswith cmd "subset" then
    match split_ws_max cmd 2 with
    | [_; question; option] =>
        guarded current_subset
          (bind (create_subset self question option)
             (fun subset_df =>
                Ok (Some subset_df,
                    [Echo ("Subset created: " ++ str_of_nat (len subset_df)
                           ++ " respondents")%string])))
    | _ =>
        Finished
          (Continue current_subset [Echo "Usage: subset <question> <option>"])
    end
  else if startswith cmd "dist-subset" then
    match current_subset with
    | None =>
        Finished
          (Continue current_subset
             [Echo "No subset saved. Create one first with 'subset' command."])
    | Some _ =>
        show_distribution self current_subset current_subset cmd
          "Usage: dist-subset <question> [top_n]"
    end
  else if startswith cmd "dist" then
    show_distribution self current_subset None cmd
      "Usage: dist <question> [top_n]"
  else if String.eqb (strip cmd) "clear-subset" then
    Finished (Continue None [Echo "Subset cleared."])
  else
    Finished
      (Continue current_subset
         [Echo ("Unknown command: " ++ cmd
                ++ ". Type 'help' for available commands.")%string]).

(** The loop over the lines typed at the prompt: the saved subset once the
    lines are read or the loop is left, and all that was printed for them.
    [click.prompt] asks again when a line is empty. *)
Fixpoint repl_with (self : SurveyAnalyzer.t) (current_subset : option DataFrame)
    (inputs : list string) : outcome (option DataFrame * list event) :=
  match inputs with
  | [] => Finished (current_subset, [])
  | cmd :: inputs' =>
      if String.eqb cmd "" then repl_with self current_subset inputs'
      else
      match repl_step_with self current_subset cmd with
      | Finished Break => Finished (current_subset, [])
      | Finished (Continue cs out) =>
          match repl_with self cs inputs' with
          | Finished (cs', out') => Finished (cs', out ++ out')
          | Died f => Died f
          | Unmodelled => Unmodelled
          end
      | Died f => Died f
      | Unmodelled => Unmodelled
      end
  end.

(** *** One run of the program ([main])

    A command line of the group [cli]; for [repl], with the lines typed at
    its prompt. *)
Inductive command : Type :=
| run_structure (limit : Z)
| run_search (keyword : string) (in_options : bool) (question : option string)
| run_subset (question option : string) (save : bool)
| run_distribution (question : string) (top : Z) (subset : bool)
| run_repl (inputs : list string).

(** The command [repl]: the two lines it starts with, what the loop prints
    for the lines typed and, when one of them is [exit], the line
    [Goodbye!] after the loop. *)
Definition repl_command (self : SurveyAnalyzer.t)
    (current_subset : option DataFrame) (inputs : list string)
  : outcome (option DataFrame * list event) :=
  match repl_with self current_subset inputs with
  | Finished (cs, out) =>
      Finished
        (cs,
         [ Echo (nl ++ "Stack Overflow Survey Analyzer - Interactive Mode")%string;
           Echo ("Type 'help' for available commands, 'exit' to quit" ++ nl)%string ]
         ++ out
         ++ (if existsb (fun cmd => String.eqb (strip cmd) "exit") inputs
             then [Echo (nl ++ "Goodbye!")%string]
             else []))
  | Died f => Died f
  | Unmodelled => Unmodelled
  end.

(** [main()] runs one command of the group.  The module has just been
    loaded: [current_subset = None].  The result is the saved subset when
    the command returns, and the lines printed. *)
Definition main_with (self : SurveyAnalyzer.t) (c : command)
  : outcome (option DataFrame * list event) :=
  let current_subset : option DataFrame := None in
  let printed (r : outcome (list event)) :=
    match r with
    | Finished out => Finished (current_subset, out)
    | Died f => Died f
    | Unmodelled => Unmodelled
    end in
  match c with
  | run_structure limit => Finished (current_subset, structure self limit)
  | run_search keyword in_options question =>
      printed (search self keyword in_options question)
  | run_subset question option save =>
      subset_with self current_subset question option save
  | run_distribution question top subset =>
      printed (distribution self current_subset question top subset)
  | run_repl inputs => repl_command self current_subset inputs
  end.

End CreateSubset.

(** The commands with the embedded fragment of [re]. *)
Definition subset := subset_with SurveyAnalyzer.create_subset.

Definition repl_step := repl_step_with SurveyAnalyzer.create_subset.

Definition repl := repl_with SurveyAnalyzer.create_subset.

Definition main := main_with SurveyAnalyzer.create_subset.

End Cli.

(* ================================================================= *)
(** ** The functions under any regular-expression engine

    [Pandas.re_compile] embeds a fragment of Python's [re]; a call with a
    pattern outside it is [Unsupported].  What the code needs of [re] is
    less than its syntax: whether [re.compile(pat, flags)] accepts the
    pattern and, if it does, in which texts [search] finds a match.  An
    [engine] is any such behaviour, and the functions that compile a
    pattern are written here over an engine, so that what is proved of them
    for every engine holds of Python's own. *)

Module AnyRegex.
Import Py Pandas.

(** [re pat ignorecase] is [None] when [re.compile] raises [re.error], and
    otherwise the test [regex.search(s) is not None]. *)
Definition engine : Type := string -> bool -> option (string -> bool).

(** The engine does on the patterns of the embedded fragment what the
    fragment does. *)
Definition extends_fragment (re : engine) : Prop :=
  forall pat p ignorecase,
    re_compile pat = Some p ->
    exists search,
      re pat ignorecase = Some search
      /\ forall s, search s = re_search ignorecase p s.

(** The fragment as an engine that rejects every other pattern. *)
Definition strict : engine :=
  fun pat ignorecase => option_map (re_search ignorecase) (re_compile pat).

Section Engine.
Variable re : engine.

(** [s.str.contains(pat, case=case, na=False)] *)
Definition str_contains (s : Series) (pat : string) (case : bool)
  : result (list bool) :=
  if negb (has_str_accessor s) then Raise AttributeError
  else match re pat (negb case) with
       | None => Raise re_error
       | Some search =>
           Ok (map (fun c => match c with
                             | Some (VStr t) => search t
                             | _ => false
                             end) s)
       end.

(** [SurveyAnalyzer.create_subset] *)
Definition create_subset (self : SurveyAnalyzer.t) (question option : string)
  : result DataFrame :=
  if negb (has_column (SurveyAnalyzer.df self) question) then
    Raise (SurveyAnalyzer.not_found question "survey")
  else
    bind
      (if SurveyAnalyzer.is_MC self question then
         bind (str_contains (getitem (SurveyAnalyzer.df self) question) option false)
           (fun m =>
              Ok (mask_zip andb (notna (getitem (SurveyAnalyzer.df self) question)) m))
       else Ok (eq_str (getitem (SurveyAnalyzer.df self) question) option))
      (fun mask => Ok (loc_mask (SurveyAnalyzer.df self) mask)).

(** The commands of src/cli.py that call it. *)
Definition subset := Cli.subset_with create_subset.

Definition repl_step := Cli.repl_step_with create_subset.

Definition repl := Cli.repl_with create_subset.

Definition main := Cli.main_with create_subset.

End Engine.

End AnyRegex.

(* ================================================================= *)
(** ** Vocabulary of the further statements *)

Module MoreTerms.
Import Py Pandas PyText.

(** [l1] is [l2] with some elements left out, the order kept. *)
Inductive Subsequence {A : Type} : list A -> list A -> Prop :=
| Subsequence_nil : Subsequence [] []
| Subsequence_skip (x : A) (l1 l2 : list A) :
    Subsequence l1 l2 -> Subsequence l1 (x :: l2)
| Subsequence_keep (x : A) (l1 l2 : list A) :
    Subsequence l1 l2 -> Subsequence (x :: l1) (x :: l2).

(** [a] may stand before [b] in an ascending list of strings. *)
Definition str_le (a b : string) : Prop := String.ltb b a = false.

(** A saved subset is a selection of the rows of the analyzer's table. *)
Definition selection_of (self : SurveyAnalyzer.t) (current_subset : option DataFrame)
  : Prop :=
  match current_subset with
  | None => True
  | Some sub =>
      columns sub = columns (SurveyAnalyzer.df self)
      /\ Subsequence (rows sub) (rows (SurveyAnalyzer.df self))
  end.

(** The column names that get a catalog entry. *)
Definition question_columns (cols : list string) : list string :=
  filter (fun c => negb (String.eqb c "ResponseId")) cols.

(** A word: not empty and without whitespace. *)
Definition is_word (s : string) : bool :=
  negb (String.eqb s "")
  && forallb (fun c => negb (is_space c)) (list_ascii_of_string s).

(** A line of the loop that only reads: it does not start with [subset]
    and is not [clear-subset]. *)
Definition read_only (cmd : string) : bool :=
  negb (startswith cmd "subset") && negb (String.eqb (strip cmd) "clear-subset").

End MoreTerms.

(* ================================================================= *)
(** ** Facts about the Python primitives *)

Module PyFacts.
Import Py Terms.

#[export] Instance string_HashableLaws : HashableLaws string.
Proof. constructor. exact String.eqb_eq. Qed.

Section DictFacts.
Context {K V : Type} `{HashableLaws K}.
Implicit Types (d : dict K V) (k : K) (v : V).

Lemma key_eqb_refl k : key_eqb k k = true.
Proof. now apply key_eqb_eq. Qed.

Lemma key_eqb_neq k k' : k <> k' -> key_eqb k k' = false.
Proof.
  intros N. destruct (key_eqb k k') eqn:E; [|reflexivity].
  apply key_eqb_eq in E. contradiction.
Qed.

Lemma key_eqb_false k k' : key_eqb k k' = false -> k <> k'.
Proof.
  intros E ->. rewrite key_eqb_refl in E. discriminate.
Qed.

Lemma key_eq_dec k k' : {k = k'} + {k <> k'}.
Proof.
  destruct (key_eqb k k') eqn:E.
  - left. now apply key_eqb_eq.
  - right. now apply key_eqb_false.
Qed.

Lemma dict_get_set d k v k' :
  dict_get (dict_set d k v) k' = if key_eqb k k' then Some v else dict_get d k'.
Proof.
  induction d as [|[k0 v0] d IH]; simpl.
  - destruct (key_eqb k k'); reflexivity.
  - destruct (key_eqb k0 k) eqn:E0; simpl.
    + apply key_eqb_eq in E0. subst k0.
      destruct (key_eqb k k'); reflexivity.
    + rewrite IH. destruct (key_eqb k0 k') eqn:E1; [|reflexivity].
      apply key_eqb_eq in E1. subst k0.
      destruct (key_eqb k k') eqn:E2; [|reflexivity].
      apply key_eqb_eq in E2. subst k'. rewrite key_eqb_refl in E0. discriminate.
Qed.

Lemma dict_get_In d k v : dict_get d k = Some v -> In (k, v) d.
Proof.
  induction d as [|[k0 v0] d IH]; simpl; [discriminate|].
  destruct (key_eqb k0 k) eqn:E.
  - apply key_eqb_eq in E. subst k0. intros [= ->]. now left.
  - intros G. right. now apply IH.
Qed.

Lemma dict_get_None d k : dict_get d k = None <-> ~ In k (keys d).
Proof.
  induction d as [|[k0 v0] d IH]; simpl.
  - split; [intros _ []|reflexivity].
  - destruct (key_eqb k0 k) eqn:E.
    + apply key_eqb_eq in E. subst k0. split; [discriminate|].
      intros N. exfalso. apply N. now left.
    + rewrite IH. apply key_eqb_false in E. split.
      * intros N [E1|I]; [now apply E|now apply N].
      * intros N I. apply N. now right.
Qed.

Lemma In_dict_get d k v : NoDup (keys d) -> In (k, v) d -> dict_get d k = Some v.
Proof.
  induction d as [|[k0 v0] d IH]; simpl; [intros _ []|].
  intros ND [E|I].
  - injection E as -> ->. now rewrite key_eqb_refl.
  - inversion ND as [|? ? N ND']; subst.
    destruct (key_eqb k0 k) eqn:E.
    + apply key_eqb_eq in E. subst k0. exfalso. apply N.
      change k with (fst (k, v)). now apply in_map.
    + now apply IH.
Qed.

Lemma In_dict_set d k v x : In x (dict_set d k v) -> x = (k, v) \/ In x d.
Proof.
  induction d as [|[k0 v0] d IH]; simpl.
  - intros [E|[]]. now left.
  - destruct (key_eqb k0 k) eqn:E; simpl.
    + apply key_eqb_eq in E. subst k0. intros [E|I]; [left|right; right]; auto.
    + intros [E1|I]; [right; now left|].
      destruct (IH I) as [E2|I2]; [now left|right; now right].
Qed.

Lemma keys_dict_set_old d k v : In k (keys d) -> keys (dict_set d k v) = keys d.
Proof.
  induction d as [|[k0 v0] d IH]; simpl; [intros []|].
  destruct (key_eqb k0 k) eqn:E; simpl; [reflexivity|].
  intros [E1|I]; [subst; now rewrite key_eqb_refl in E|].
  now rewrite IH.
Qed.

Lemma dict_set_new d k v : ~ In k (keys d) -> dict_set d k v = d ++ [(k, v)].
Proof.
  induction d as [|[k0 v0] d IH]; simpl; [reflexivity|].
  intros N. destruct (key_eqb k0 k) eqn:E.
  - apply key_eqb_eq in E. exfalso. apply N. now left.
  - rewrite IH; [reflexivity|]. intros I. apply N. now right.
Qed.

Lemma keys_dict_set d k v :
  keys (dict_set d k v) = if in_dec key_eq_dec k (keys d) then keys d else keys d ++ [k].
Proof.
  destruct (in_dec key_eq_dec k (keys d)) as [I|N].
  - now apply keys_dict_set_old.
  - rewrite dict_set_new by assumption. unfold keys. now rewrite map_app.
Qed.

Lemma NoDup_snoc {A : Type} (l : list A) (x : A) :
  NoDup l -> ~ In x l -> NoDup (l ++ [x]).
Proof.
  intros ND N. apply NoDup_rev in ND.
  rewrite <- (rev_involutive (l ++ [x])). apply NoDup_rev.
  rewrite rev_app_distr. simpl. constructor; [|assumption].
  now rewrite <- in_rev.
Qed.

Lemma NoDup_keys_dict_set d k v : NoDup (keys d) -> NoDup (keys (dict_set d k v)).
Proof.
  intros ND. rewrite keys_dict_set.
  destruct (in_dec key_eq_dec k (keys d)); [assumption|].
  now apply NoDup_snoc.
Qed.

Lemma In_keys_dict_set d k v k' :
  In k' (keys (dict_set d k v)) <-> k' = k \/ In k' (keys d).
Proof.
  rewrite keys_dict_set. destruct (in_dec key_eq_dec k (keys d)) as [I|N].
  - split; [now right|]. intros [->|I']; assumption.
  - rewrite in_app_iff. simpl. intuition congruence.
Qed.

Lemma fold_dict_set_NoDup (items : list (K * V)) d :
  NoDup (keys d) ->
  NoDup (keys (fold_left (fun d kv => dict_set d (fst kv) (snd kv)) items d)).
Proof.
  revert d. induction items as [|[k v] items IH]; simpl; intros d ND; [assumption|].
  apply IH. now apply NoDup_keys_dict_set.
Qed.

Lemma dict_of_items_NoDup (items : list (K * V)) : NoDup (keys (dict_of_items items)).
Proof. apply fold_dict_set_NoDup. constructor. Qed.

Lemma fold_dict_set_In (items : list (K * V)) d x :
  In x (fold_left (fun d kv => dict_set d (fst kv) (snd kv)) items d) ->
  In x d \/ In x items.
Proof.
  revert d. induction items as [|[k v] items IH]; simpl; intros d I; [now left|].
  destruct (IH _ I) as [I1|I2]; [|right; now right].
  destruct (In_dict_set _ _ _ _ I1) as [->|I3]; [right; now left|now left].
Qed.

Lemma dict_of_items_In (items : list (K * V)) x :
  In x (dict_of_items items) -> In x items.
Proof.
  intros I. destruct (fold_dict_set_In _ _ _ I) as [[]|I']. exact I'.
Qed.

Lemma fold_dict_set_fresh (items : list (K * V)) d :
  NoDup (keys d ++ map fst items) ->
  fold_left (fun d kv => dict_set d (fst kv) (snd kv)) items d = d ++ items.
Proof.
  revert d. induction items as [|[k v] items IH]; simpl; intros d ND.
  - now rewrite app_nil_r.
  - assert (N : ~ In k (keys d)).
    { apply NoDup_remove_2 in ND. intros I. apply ND. apply in_or_app. now left. }
    rewrite dict_set_new by assumption.
    rewrite IH.
    + now rewrite <- app_assoc.
    + unfold keys. rewrite map_app. simpl. rewrite <- app_assoc. exact ND.
Qed.

(** Building a dictionary from items with distinct keys keeps the items. *)
Lemma dict_of_items_id (items : list (K * V)) :
  NoDup (map fst items) -> dict_of_items items = items.
Proof.
  intros ND. unfold dict_of_items. now rewrite fold_dict_set_fresh.
Qed.

End DictFacts.

Section TallyFacts.
Context {K : Type} `{HashableLaws K}.
Implicit Types (d : dict K nat) (k : K).

Lemma dict_get_incr d k k' :
  dict_get (incr d k) k'
  = if key_eqb k k' then Some (dict_get_default d k 0 + 1) else dict_get d k'.
Proof. unfold incr. apply dict_get_set. Qed.

Lemma key_eqb_sym k k' : key_eqb k k' = key_eqb k' k.
Proof.
  destruct (key_eqb k k') eqn:E.
  - apply key_eqb_eq in E. subst. symmetry. apply key_eqb_refl.
  - symmetry. apply key_eqb_neq. intros ->. rewrite key_eqb_refl in E. discriminate.
Qed.

Lemma dict_get_fold_incr xs d k :
  dict_get (fold_left incr xs d) k
  = match dict_get d k with
    | Some n => Some (n + occurrences k xs)
    | None => if occurrences k xs =? 0 then None else Some (occurrences k xs)
    end.
Proof.
  revert d. induction xs as [|x xs IH]; intros d; simpl.
  - unfold occurrences. simpl. destruct (dict_get d k); [f_equal; lia|reflexivity].
  - rewrite IH, dict_get_incr. unfold occurrences. simpl.
    rewrite (key_eqb_sym k x). destruct (key_eqb x k) eqn:E; simpl.
    + apply key_eqb_eq in E. subst x. unfold dict_get_default.
      destruct (dict_get d k); f_equal; lia.
    + reflexivity.
Qed.

Lemma NoDup_keys_fold_incr xs d :
  NoDup (keys d) -> NoDup (keys (fold_left incr xs d)).
Proof.
  revert d. induction xs as [|x xs IH]; intros d ND; simpl; [assumption|].
  apply IH. now apply NoDup_keys_dict_set.
Qed.

Lemma occurrences_In k xs : occurrences k xs <> 0 -> In k xs.
Proof.
  unfold occurrences. induction xs as [|x xs IH]; simpl; [congruence|].
  destruct (key_eqb k x) eqn:E.
  - apply key_eqb_eq in E. now left.
  - intros N. right. now apply IH.
Qed.

(** An entry of a tally started empty holds the number of occurrences of its
    key, which is not zero. *)
Lemma In_tally xs k n :
  In (k, n) (fold_left incr xs []) -> n = occurrences k xs /\ n <> 0.
Proof.
  intros I. apply In_dict_get in I.
  - rewrite dict_get_fold_incr in I. simpl in I.
    destruct (occurrences k xs =? 0) eqn:E; [discriminate|].
    injection I as <-. apply Nat.eqb_neq in E. now split.
  - apply NoDup_keys_fold_incr. constructor.
Qed.

Lemma list_sum_dict_set d k n :
  list_sum (map snd (dict_set d k n)) + dict_get_default d k 0
  = list_sum (map snd d) + n.
Proof.
  unfold dict_get_default. induction d as [|[k0 n0] d IH]; simpl; [lia|].
  destruct (key_eqb k0 k); simpl; [lia|].
  destruct (dict_get d k); lia.
Qed.

Lemma list_sum_fold_incr xs d :
  list_sum (map snd (fold_left incr xs d)) = list_sum (map snd d) + List.length xs.
Proof.
  revert d. induction xs as [|x xs IH]; intros d; simpl; [lia|].
  rewrite IH. unfold incr.
  pose proof (list_sum_dict_set d x (dict_get_default d x 0 + 1)). lia.
Qed.

End TallyFacts.

(** *** The stable descending sort *)

Section SortFacts.
Context {A : Type} (lt : A -> A -> bool).

Lemma insert_desc_perm x l : Permutation (x :: l) (insert_desc lt x l).
Proof.
  induction l as [|y l IH]; simpl; [reflexivity|].
  destruct (lt x y); [|reflexivity].
  rewrite perm_swap. now constructor.
Qed.

Lemma sort_desc_perm l : Permutation l (sort_desc lt l).
Proof.
  induction l as [|x l IH]; simpl; [constructor|].
  rewrite <- insert_desc_perm. now constructor.
Qed.

(** [R a b]: [a] may stand directly before [b]. *)
Variable R : A -> A -> Prop.
Hypothesis lt_R : forall x y, lt x y = true -> R y x.
Hypothesis nlt_R : forall x y, lt x y = false -> R x y.

Lemma insert_desc_HdRel x y l :
  R y x -> HdRel R y l -> HdRel R y (insert_desc lt x l).
Proof.
  intros Ryx Hd. destruct l as [|z l]; simpl; [now constructor|].
  inversion Hd; subst. destruct (lt x z); now constructor.
Qed.

Lemma insert_desc_Sorted x l : Sorted R l -> Sorted R (insert_desc lt x l).
Proof.
  induction 1 as [|y l S IH Hd]; simpl.
  - repeat constructor.
  - destruct (lt x y) eqn:E.
    + constructor; [assumption|]. apply insert_desc_HdRel; auto.
    + constructor; [now constructor|]. constructor. auto.
Qed.

Lemma sort_desc_Sorted l : Sorted R (sort_desc lt l).
Proof.
  induction l as [|x l IH]; simpl; [constructor|].
  now apply insert_desc_Sorted.
Qed.

End SortFacts.

Lemma sorted_desc_Sorted {K : Type} (l : list (K * Q)) :
  Sorted pct_ge (sorted_desc l).
Proof.
  apply sort_desc_Sorted; unfold pct_lt, pct_ge; intros x y E.
  - apply negb_true_iff in E.
    destruct (Qlt_le_dec (snd x) (snd y)) as [L|L].
    + now apply Qlt_le_weak.
    + apply Qle_bool_iff in L. congruence.
  - apply negb_false_iff in E. now apply Qle_bool_iff.
Qed.

Lemma sorted_desc_perm {K : Type} (l : list (K * Q)) :
  Permutation l (sorted_desc l).
Proof. apply sort_desc_perm. Qed.

(** Sorting a dictionary's items and building a dictionary again gives
    the sorted items. *)
Lemma dict_of_sorted_items {K : Type} `{HashableLaws K} (d : dict K Q) :
  NoDup (keys d) -> dict_of_items (sorted_desc d) = sorted_desc d.
Proof.
  intros ND. apply dict_of_items_id.
  eapply Permutation_NoDup; [|exact ND].
  apply Permutation_map. apply sorted_desc_perm.
Qed.

End PyFacts.

(* ================================================================= *)
(** ** Facts about the pandas fragment *)

Module PandasFacts.
Import Py Pandas Terms PyFacts.

Lemma value_eqb_eq (a b : value) : value_eqb a b = true <-> a = b.
Proof.
  destruct a as [s|n], b as [t|m]; simpl; split; intros E;
    try discriminate; try congruence.
  - apply String.eqb_eq in E. now subst.
  - injection E as ->. apply String.eqb_refl.
  - apply Z.eqb_eq in E. now subst.
  - injection E as ->. apply Z.eqb_refl.
Qed.

#[export] Instance value_HashableLaws : HashableLaws value.
Proof. constructor. exact value_eqb_eq. Qed.

Lemma has_column_true df q : has_column df q = true <-> In q (columns df).
Proof.
  unfold has_column. rewrite existsb_exists. split.
  - intros (c & I & E). apply String.eqb_eq in E. now subst.
  - intros I. exists q. split; [assumption|apply String.eqb_refl].
Qed.

Lemma has_column_false df q : has_column df q = false <-> ~ In q (columns df).
Proof.
  rewrite <- has_column_true. destruct (has_column df q); split; congruence.
Qed.

Lemma In_dropna (s : Series) v : In v (dropna s) <-> In (Some v) s.
Proof.
  induction s as [|[w|] s IH]; simpl.
  - reflexivity.
  - rewrite IH. split; intros [E|I]; auto; left; congruence.
  - rewrite IH. split; [auto|]. intros [E|I]; [discriminate|assumption].
Qed.

Lemma notna_sum_dropna (s : Series) : notna_sum s = List.length (dropna s).
Proof.
  unfold notna_sum, notna. induction s as [|[w|] s IH]; simpl; auto.
Qed.

Lemma unique_acc_nil seen vs : unique_acc seen vs = [] -> forall v, In v vs -> In v seen.
Proof.
  revert seen. induction vs as [|w vs IH]; intros seen E v; simpl; [intros []|].
  simpl in E. destruct (existsb (value_eqb w) seen) eqn:X; [|discriminate].
  intros [->|I]; [|now apply IH].
  apply existsb_exists in X. destruct X as (x & I & Ex).
  apply value_eqb_eq in Ex. now subst.
Qed.

Lemma length_unique_0 vs : List.length (unique vs) = 0 <-> vs = [].
Proof.
  split; [|intros ->; reflexivity].
  intros L. apply length_zero_iff_nil in L.
  destruct vs as [|v vs]; [reflexivity|].
  exfalso. apply (unique_acc_nil [] _ L v). now left.
Qed.

(** [value_counts] lists every value that occurs once, with the number of
    its occurrences. *)
Lemma In_value_counts (s : Series) v n :
  In (v, n) (value_counts s) ->
  n = occurrences v (dropna s) /\ n <> 0 /\ In (Some v) s.
Proof.
  unfold value_counts, tally. intros I.
  apply (Permutation_in _ (Permutation_sym (sort_desc_perm _ _))) in I.
  apply (In_tally (dropna s)) in I. destruct I as [-> N].
  repeat split; [assumption|]. apply In_dropna. now apply occurrences_In.
Qed.


Lemma list_sum_value_counts (s : Series) :
  list_sum (map snd (value_counts s)) = List.length (dropna s).
Proof.
  unfold value_counts, tally.
  rewrite <- (Permutation_list_sum
                (Permutation_map snd (sort_desc_perm count_lt _))).
  apply (list_sum_fold_incr (dropna s) []).
Qed.

Lemma select_map {A : Type} (f : A -> bool) (l : list A) :
  select (map f l) l = filter f l.
Proof.
  induction l as [|x l IH]; simpl; [reflexivity|].
  destruct (f x); now rewrite IH.
Qed.

Lemma mask_zip_map {A : Type} (op : bool -> bool -> bool) (f g : A -> bool) (l : list A) :
  mask_zip op (map f l) (map g l) = map (fun x => op (f x) (g x)) l.
Proof.
  induction l as [|x l IH]; simpl; [reflexivity|]. now rewrite IH.
Qed.

(** *** Percentages *)

Lemma percent_ratio100 count total : (percent count total == ratio100 count total)%Q.
Proof. unfold percent, ratio100, Qdiv. ring. Qed.

Lemma inject_nat_pos n : n <> 0 -> (0 < inject_Z (Z.of_nat n))%Q.
Proof.
  intros N. change 0%Q with (inject_Z 0). rewrite <- Zlt_Qlt. lia.
Qed.

Lemma percent_pos count total :
  count <> 0 -> total <> 0 -> (0 < percent count total)%Q.
Proof.
  intros C T. unfold percent.
  apply Qmult_lt_0_compat; [|reflexivity].
  apply Qlt_shift_div_l; [now apply inject_nat_pos|].
  rewrite Qmult_0_l. now apply inject_nat_pos.
Qed.

End PandasFacts.

(* ================================================================= *)
(** ** The catalog built by [_analyze_structure] *)

Module CatalogFacts.
Import Py Pandas Terms PyFacts PandasFacts SurveyAnalyzer.

Lemma analyze_column_df self col : df (analyze_column self col) = df self.
Proof. unfold analyze_column. destruct (String.eqb col "ResponseId"); reflexivity. Qed.

Lemma fold_analyze_df cols self : df (fold_left analyze_column cols self) = df self.
Proof.
  revert self. induction cols as [|c cols IH]; intros self; simpl; [reflexivity|].
  now rewrite IH, analyze_column_df.
Qed.

Lemma analyze_column_get self c col :
  dict_get (questions (analyze_column self c)) col
  = (if String.eqb c col && negb (String.eqb c "ResponseId")
     then Some (column_info (getitem (df self) c))
     else dict_get (questions self) col)
  /\ dict_get (question_types (analyze_column self c)) col
     = (if String.eqb c col && negb (String.eqb c "ResponseId")
        then Some (column_type (getitem (df self) c))
        else dict_get (question_types self) col).
Proof.
  unfold analyze_column. destruct (String.eqb c "ResponseId") eqn:Rc.
  - rewrite andb_false_r. split; reflexivity.
  - rewrite andb_true_r. cbn [questions question_types].
    rewrite !dict_get_set. cbn [key_eqb string_Hashable].
    destruct (String.eqb c col); split; reflexivity.
Qed.

Lemma fold_analyze_get cols self col :
  dict_get (questions (fold_left analyze_column cols self)) col
  = (if analysed cols col
     then Some (column_info (getitem (df self) col))
     else dict_get (questions self) col)
  /\ dict_get (question_types (fold_left analyze_column cols self)) col
     = (if analysed cols col
        then Some (column_type (getitem (df self) col))
        else dict_get (question_types self) col).
Proof.
  revert self. induction cols as [|c cols IH]; intros self.
  - simpl. split; reflexivity.
  - cbn [fold_left]. destruct (IH (analyze_column self c)) as [IHq IHt].
    rewrite IHq, IHt, analyze_column_df. clear IHq IHt.
    destruct (analyze_column_get self c col) as [Eq Et]. rewrite Eq, Et. clear Eq Et.
    unfold analysed. cbn [existsb]. rewrite (String.eqb_sym col c).
    destruct (String.eqb c col) eqn:Ec.
    + apply String.eqb_eq in Ec. subst c. cbn [orb andb].
      destruct (existsb (String.eqb col) cols); cbn [andb];
        destruct (negb (String.eqb col "ResponseId")); split; reflexivity.
    + cbn [orb andb]. split; reflexivity.
Qed.

Lemma init_df data : df (init data) = data.
Proof. unfold init, _analyze_structure. now rewrite fold_analyze_df. Qed.

Lemma init_questions data col :
  dict_get (questions (init data)) col
  = if analysed (columns data) col
    then Some (column_info (getitem data col)) else None.
Proof.
  unfold init, _analyze_structure.
  destruct (fold_analyze_get (columns data)
              {| df := data; questions := []; question_types := [] |} col) as [E _].
  exact E.
Qed.

Lemma init_question_types data col :
  dict_get (question_types (init data)) col
  = if analysed (columns data) col
    then Some (column_type (getitem data col)) else None.
Proof.
  unfold init, _analyze_structure.
  destruct (fold_analyze_get (columns data)
              {| df := data; questions := []; question_types := [] |} col) as [_ E].
  exact E.
Qed.

Lemma analysed_true cols col :
  In col cols -> col <> "ResponseId" -> analysed cols col = true.
Proof.
  intros I N. unfold analysed. apply andb_true_iff. split.
  - apply existsb_exists. exists col. split; [assumption|apply String.eqb_refl].
  - apply negb_true_iff. now apply String.eqb_neq.
Qed.

Lemma column_type_empty s : column_type s = empty <-> notna_sum s = 0.
Proof.
  unfold column_type. rewrite notna_sum_dropna.
  destruct (List.length (unique (dropna s)) =? 0) eqn:E.
  - apply Nat.eqb_eq, length_unique_0 in E. rewrite E. split; reflexivity.
  - apply Nat.eqb_neq in E. rewrite length_unique_0 in E.
    split.
    + destruct (contains _ _); discriminate.
    + intros L. apply length_zero_iff_nil in L. contradiction.
Qed.

Lemma column_type_MC s :
  column_type s = MC
  <-> exists v, first_valid s = Some v /\ contains ";" (str v) = true.
Proof.
  unfold column_type, first_valid.
  destruct (List.length (unique (dropna s)) =? 0) eqn:E.
  - apply Nat.eqb_eq, length_unique_0 in E. rewrite E. simpl.
    split; [discriminate|]. intros (v & F & _). discriminate.
  - apply Nat.eqb_neq in E. rewrite length_unique_0 in E.
    destruct (dropna s) as [|v vs]; [contradiction|]. simpl.
    destruct (contains ";" (str v)) eqn:C; split; try discriminate.
    + intros _. now exists v.
    + reflexivity.
    + intros (w & [= <-] & C'). congruence.
Qed.

Lemma column_type_SC s :
  column_type s = SC
  <-> exists v, first_valid s = Some v /\ contains ";" (str v) = false.
Proof.
  unfold column_type, first_valid.
  destruct (List.length (unique (dropna s)) =? 0) eqn:E.
  - apply Nat.eqb_eq, length_unique_0 in E. rewrite E. simpl.
    split; [discriminate|]. intros (v & F & _). discriminate.
  - apply Nat.eqb_neq in E. rewrite length_unique_0 in E.
    destruct (dropna s) as [|v vs]; [contradiction|]. simpl.
    destruct (contains ";" (str v)) eqn:C; split; try discriminate.
    + intros (w & [= <-] & C'). congruence.
    + intros _. now exists v.
    + reflexivity.
Qed.

End CatalogFacts.

(* ================================================================= *)
(** ** The distributions of [SurveyAnalyzer] *)

Module DistributionFacts.
Import Py Pandas Terms PyFacts PandasFacts SurveyAnalyzer.

Lemma fold_count_option frags d :
  fold_left count_option frags d = fold_left incr (map strip frags) d.
Proof.
  revert d. induction frags as [|f frags IH]; intros d; simpl; [reflexivity|].
  now rewrite IH.
Qed.

Lemma count_options_tally vals :
  count_options vals = fold_left incr (map strip (fragments vals)) [].
Proof.
  unfold count_options, fragments. generalize (@nil (string * nat)).
  induction vals as [|v vals IH]; intros d; simpl; [reflexivity|].
  rewrite IH, map_app, fold_left_app. now rewrite fold_count_option.
Qed.

Lemma In_fragments vals opt :
  In opt (map strip (fragments vals)) ->
  exists val f, In val vals /\ In f (split ";"%char (str val)) /\ opt = strip f.
Proof.
  intros I. apply in_map_iff in I. destruct I as (f & E & I).
  apply in_flat_map in I. destruct I as (val & Iv & If).
  exists val, f. now repeat split.
Qed.

(** What [get_distribution] returns when it returns. *)
Lemma get_distribution_Ok self question subset_df d :
  get_distribution self question subset_df = Ok d ->
  let s := getitem (rowset self subset_df) question in
  In question (columns (rowset self subset_df))
  /\ ((notna_sum s = 0 /\ d = [])
      \/ (notna_sum s <> 0
          /\ d = sorted_desc (unsorted_distribution self question s)
          /\ NoDup (keys (unsorted_distribution self question s)))).
Proof.
  unfold get_distribution. fold (rowset self subset_df).
  destruct (has_column (rowset self subset_df) question) eqn:C; simpl; [|discriminate].
  apply has_column_true in C. intros G. split; [assumption|].
  destruct (notna_sum (getitem (rowset self subset_df) question) =? 0) eqn:T.
  - left. apply Nat.eqb_eq in T. split; congruence.
  - right. apply Nat.eqb_neq in T. split; [assumption|].
    assert (ND : NoDup (keys (unsorted_distribution self question
                                (getitem (rowset self subset_df) question)))).
    { unfold unsorted_distribution. destruct (is_MC self question);
        apply dict_of_items_NoDup. }
    split; [|assumption].
    injection G as <-. fold (unsorted_distribution self question
                               (getitem (rowset self subset_df) question)).
    now apply dict_of_sorted_items.
Qed.

(** The entries of a returned distribution. *)
Lemma get_distribution_entry self question subset_df d opt pct :
  get_distribution self question subset_df = Ok d ->
  In (opt, pct) d ->
  let s := getitem (rowset self subset_df) question in
  notna_sum s <> 0
  /\ if is_MC self question then
       exists n, n = occurrences opt (map strip (fragments (dropna s)))
                 /\ n <> 0 /\ pct = percent n (notna_sum s)
     else
       exists val n, opt = str val /\ n = occurrences val (dropna s)
                     /\ n <> 0 /\ In (Some val) s
                     /\ pct = percent n (notna_sum s).
Proof.
  intros G I. apply get_distribution_Ok in G. cbv zeta in G.
  destruct G as [_ [[_ ->]|(T & -> & _)]]; [destruct I|].
  cbv zeta. split; [assumption|].
  apply (Permutation_in _ (Permutation_sym (sorted_desc_perm _))) in I.
  unfold unsorted_distribution in I.
  destruct (is_MC self question); apply dict_of_items_In, in_map_iff in I;
    destruct I as ([k n] & E & I); simpl in E; injection E as <- <-.
  - rewrite count_options_tally in I. apply In_tally in I.
    destruct I as [-> N]. eexists. repeat split; assumption.
  - apply In_value_counts in I. destruct I as (-> & N & Iv).
    exists k. eexists. repeat split; assumption.
Qed.

End DistributionFacts.

(* ================================================================= *)
(** ** Strings: trimming, splitting, literal patterns *)

Module StringFacts.
Import Py Pandas Terms PyFacts.

Lemma lstrip_start s : starts_with_space (lstrip s) = false.
Proof.
  induction s as [|c s IH]; simpl; [reflexivity|].
  destruct (is_space c) eqn:E; [assumption|]. simpl. exact E.
Qed.

Lemma rstrip_end s : ends_with_space (rstrip s) = false.
Proof.
  induction s as [|c s IH]; simpl; [reflexivity|].
  destruct (rstrip s) as [|a r].
  - destruct (is_space c) eqn:E; simpl; [reflexivity|exact E].
  - exact IH.
Qed.

Lemma rstrip_start s : starts_with_space s = false -> starts_with_space (rstrip s) = false.
Proof.
  destruct s as [|c s]; simpl; [reflexivity|]. intros E.
  destruct (rstrip s); [rewrite E|]; simpl; exact E.
Qed.

Lemma strip_trimmed s : trimmed (strip s).
Proof.
  unfold strip. split; [apply rstrip_start, lstrip_start|apply rstrip_end].
Qed.

Lemma split_nonempty sep s : split sep s <> [].
Proof.
  destruct s as [|c s]; simpl; [discriminate|].
  destruct (Ascii.eqb c sep); [discriminate|].
  destruct (split sep s); discriminate.
Qed.

(** A text without the separator is its own single fragment. *)
Lemma split_no_sep sep s :
  contains (String sep EmptyString) s = false -> split sep s = [s].
Proof.
  induction s as [|c s IH]; simpl; [reflexivity|].
  destruct (ascii_dec sep c) as [->|N].
  - destruct s; discriminate.
  - simpl. intros C. rewrite (IH C).
    destruct (Ascii.eqb c sep) eqn:E; [|reflexivity].
    apply Ascii.eqb_eq in E. congruence.
Qed.

Lemma In_insert_str x y l : In x (insert_str y l) <-> x = y \/ In x l.
Proof.
  induction l as [|z l IH]; simpl; [intuition|].
  destruct (String.ltb y z); simpl; [intuition|].
  rewrite IH. intuition.
Qed.

Lemma In_sorted_str x l : In x (sorted_str l) <-> In x l.
Proof.
  induction l as [|y l IH]; simpl; [reflexivity|].
  rewrite In_insert_str, IH. intuition.
Qed.

(** *** Literal patterns *)

Lemma re_compile_literal pat :
  literal pat = true ->
  re_compile pat = Some (map ReChar (list_ascii_of_string pat)).
Proof.
  unfold literal. induction pat as [|c pat IH]; simpl; [reflexivity|].
  intros L. apply andb_true_iff in L. destruct L as [Lc L].
  rewrite (IH L). apply negb_true_iff in Lc.
  destruct (Ascii.eqb c ".") eqn:E.
  - apply Ascii.eqb_eq in E. subst c. discriminate.
  - now rewrite Lc.
Qed.

Lemma re_match_literal pat s :
  re_match false (map ReChar (list_ascii_of_string pat)) s = prefix pat s.
Proof.
  revert s. induction pat as [|c pat IH]; intros s; simpl.
  - destruct s; reflexivity.
  - destruct s as [|b s]; [reflexivity|]. simpl.
    destruct (ascii_dec c b) as [E|N].
    + subst c. rewrite Ascii.eqb_refl. apply IH.
    + apply Ascii.eqb_neq in N. now rewrite N.
Qed.

Lemma re_match_literal_ignorecase pat s :
  re_match true (map ReChar (list_ascii_of_string pat)) s
  = prefix (lower pat) (lower s).
Proof.
  revert s. induction pat as [|c pat IH]; intros s; simpl.
  - destruct s; reflexivity.
  - destruct s as [|b s]; [reflexivity|]. simpl.
    destruct (ascii_dec (lower_char c) (lower_char b)) as [E|N].
    + rewrite E, Ascii.eqb_refl. apply IH.
    + apply Ascii.eqb_neq in N. now rewrite N.
Qed.

Lemma re_search_literal pat s :
  re_search false (map ReChar (list_ascii_of_string pat)) s = contains pat s.
Proof.
  induction s as [|b s IH]; simpl re_search; simpl contains;
    rewrite re_match_literal; [reflexivity|]. now rewrite IH.
Qed.

Lemma re_search_literal_ignorecase pat s :
  re_search true (map ReChar (list_ascii_of_string pat)) s
  = contains (lower pat) (lower s).
Proof.
  induction s as [|b s IH]; simpl re_search; simpl lower at 2; simpl contains;
    rewrite re_match_literal_ignorecase; [reflexivity|]. now rewrite IH.
Qed.

Lemma re_special_lower_char c : re_special (lower_char c) = re_special c.
Proof.
  destruct c as [[] [] [] [] [] [] [] []]; reflexivity.
Qed.

Lemma literal_lower pat : literal (lower pat) = literal pat.
Proof.
  unfold literal. induction pat as [|c pat IH]; simpl; [reflexivity|].
  now rewrite re_special_lower_char, IH.
Qed.

End StringFacts.

(* ================================================================= *)
(** ** The functions of [so_lib] *)

Module SoLibFacts.
Import Py Pandas Terms PyFacts PandasFacts StringFacts SoLib.

Lemma count_option_incr d o : count_option d o = incr d o.
Proof.
  unfold count_option, incr, dict_get_default.
  destruct (dict_get d o); reflexivity.
Qed.

Lemma fold_count_answer vals d :
  fold_left count_answer vals d = fold_left incr (text_fragments vals) d.
Proof.
  revert d. induction vals as [|[s|n] vals IH]; intros d; simpl; [reflexivity| |apply IH].
  rewrite fold_left_app, IH. f_equal.
  generalize (split ";"%char s). intros fs. revert d.
  induction fs as [|f fs IHf]; intros d; simpl; [reflexivity|].
  now rewrite count_option_incr, IHf.
Qed.

Lemma In_text_fragments vals opt :
  In opt (text_fragments vals) ->
  exists s, In (VStr s) vals /\ In opt (split ";"%char s).
Proof.
  intros I. apply in_flat_map in I. destruct I as ([s|n] & Iv & If); [|destruct If].
  now exists s.
Qed.

(** A column that exists has one cell per row. *)
Lemma getitem_rows df q :
  In q (columns df) -> exists i, getitem df q = map (fun r => nth i r None) (rows df).
Proof.
  intros I. unfold getitem.
  assert (P : exists i, position q (columns df) = Some i).
  { induction (columns df) as [|c cols IH]; [destruct I|]. simpl.
    destruct (String.eqb c q) eqn:E; [now exists 0|].
    destruct I as [->|I]; [rewrite String.eqb_refl in E; discriminate|].
    destruct (IH I) as (i & ->). now exists (S i). }
  destruct P as (i & ->). now exists i.
Qed.

Lemma length_getitem df q : In q (columns df) -> List.length (getitem df q) = len df.
Proof.
  intros I. destruct (getitem_rows df q I) as (i & ->). apply length_map.
Qed.

Lemma length_filter_map {A : Type} (f : A -> bool) (l : list A) :
  List.length (filter f l) = List.length (filter (fun b => b) (map f l)).
Proof.
  induction l as [|x l IH]; simpl; [reflexivity|].
  destruct (f x); simpl; now rewrite IH.
Qed.

Lemma length_select_notna df q :
  In q (columns df) ->
  List.length (select (notna (getitem df q)) (rows df)) = notna_sum (getitem df q).
Proof.
  intros I. destruct (getitem_rows df q I) as (i & ->).
  unfold notna_sum, notna. rewrite map_map, select_map.
  apply length_filter_map.
Qed.

(** What [distribution_mc] returns when it returns. *)
Lemma distribution_mc_Ok d question_id r :
  distribution_mc d question_id = Ok r ->
  In question_id (columns (raw_data d))
  /\ distribution r
     = map (fun oc => (fst oc, percent (snd oc) (len (raw_data d))))
         (fold_left incr
            (text_fragments (dropna (getitem (raw_data d) question_id))) []).
Proof.
  unfold distribution_mc.
  destruct (String.eqb question_id ""); [discriminate|].
  destruct (has_column (raw_data d) question_id) eqn:C; simpl; [|discriminate].
  apply has_column_true in C.
  destruct (schema_field type (schema d) question_id) as [ty|e|]; simpl; try discriminate.
  destruct (String.eqb ty "MC"); simpl; [|discriminate].
  destruct (schema_field question_text (schema d) question_id) as [tx|e|]; simpl;
    try discriminate.
  intros [= <-]. split; [assumption|]. simpl.
  rewrite fold_count_answer. apply dict_of_items_id.
  rewrite map_map. simpl.
  apply (NoDup_keys_fold_incr _ []). constructor.
Qed.

(** What [distribution_sc] returns when it returns. *)
Lemma distribution_sc_Ok d question_id r :
  distribution_sc d question_id = Ok r ->
  In question_id (columns (raw_data d))
  /\ distribution r
     = map (fun vc => (fst vc,
                       percent (snd vc) (notna_sum (getitem (raw_data d) question_id))))
         (value_counts (getitem (raw_data d) question_id)).
Proof.
  unfold distribution_sc.
  destruct (String.eqb question_id ""); [discriminate|].
  destruct (has_column (raw_data d) question_id) eqn:C; simpl; [|discriminate].
  apply has_column_true in C.
  destruct (schema_field type (schema d) question_id) as [ty|e|]; simpl; try discriminate.
  destruct (String.eqb ty "SC"); simpl; [|discriminate].
  destruct (schema_field question_text (schema d) question_id) as [tx|e|]; simpl;
    try discriminate.
  intros [= <-]. split; [assumption|]. simpl.
  now rewrite length_select_notna.
Qed.

Lemma In_unique_acc seen vs v : In v (unique_acc seen vs) -> In v vs.
Proof.
  revert seen. induction vs as [|w vs IH]; intros seen; simpl; [auto|].
  destruct (existsb (value_eqb w) seen).
  - intros I. right. eapply IH. exact I.
  - intros [->|I]; [now left|right; eapply IH; exact I].
Qed.

Lemma In_unique vs v : In v (unique vs) -> In v vs.
Proof. apply In_unique_acc. Qed.

Lemma In_fold_set_add xs acc x :
  In x (fold_left set_add xs acc) -> In x acc \/ In x xs.
Proof.
  revert acc. induction xs as [|y xs IH]; intros acc; simpl; [auto|].
  intros I. destruct (IH _ I) as [I1|I2]; [|right; now right].
  unfold set_add in I1. destruct (existsb (value_eqb y) acc); [now left|].
  apply in_app_iff in I1. destruct I1 as [I1|[->|[]]]; [now left|right; now left].
Qed.

(** Every text option [search_options] returns is a fragment, as it stands,
    of a text cell of the column. *)
Lemma search_options_fragment d question_id query opts o :
  search_options d question_id query = Ok opts ->
  In (VStr o) opts ->
  exists s, In (Some (VStr s)) (getitem (raw_data d) question_id)
            /\ In o (split ";"%char s).
Proof.
  unfold search_options.
  destruct (String.eqb question_id ""); [discriminate|].
  destruct (has_column (raw_data d) question_id); simpl; [|discriminate].
  set (col := getitem (raw_data d) question_id).
  set (options1 := if existsb has_separator (unique (dropna col)) then _ else _).
  intros [= <-] I.
  assert (I1 : In (VStr o) options1).
  { destruct query as [q|]; [|assumption].
    destruct (String.eqb q ""); [assumption|].
    apply filter_In in I. tauto. }
  clear I. subst options1.
  destruct (existsb has_separator (unique (dropna col))) eqn:X.
  - apply In_fold_set_add in I1. destruct I1 as [[]|I1].
    apply in_flat_map in I1. destruct I1 as ([s|n] & Iu & If).
    + apply In_unique, In_dropna in Iu. exists s. split; [assumption|].
      destruct (contains ";" s) eqn:C.
      * apply in_map_iff in If. destruct If as (f & [= ->] & If). exact If.
      * destruct If as [[= ->]|[]]. rewrite (split_no_sep _ _ C). now left.
    + destruct If as [E|[]]. discriminate.
  - assert (C : has_separator (VStr o) = false).
    { destruct (has_separator (VStr o)) eqn:C; [|reflexivity].
      assert (existsb has_separator (unique (dropna col)) = true); [|congruence].
      apply existsb_exists. now exists (VStr o). }
    simpl in C. apply In_unique, In_dropna in I1. exists o.
    split; [assumption|]. rewrite (split_no_sep _ _ C). now left.
Qed.

End SoLibFacts.

(* ================================================================= *)
(** * Properties of the two engines *)

Import Py Pandas Terms PyFacts PandasFacts CatalogFacts DistributionFacts.
Import StringFacts SoLibFacts Fixtures.

(* ================================================================= *)
(** ** Unknown questions *)

(** The functions of [so_lib] raise the [ValueError] that names the id as
    not found when the id, not empty, is not a column of the raw data. *)
Lemma so_lib_unknown_question dat question_id :
  question_id <> "" ->
  ~ In question_id (columns (SoLib.raw_data dat)) ->
  (forall query,
      SoLib.search_options dat question_id query
      = Raise (SoLib.id_not_found question_id))
  /\ (forall option,
         option <> "" ->
         SoLib.subset_respondents dat question_id option
         = Raise (SoLib.id_not_found question_id))
  /\ SoLib.distribution_sc dat question_id = Raise (SoLib.id_not_found question_id)
  /\ SoLib.distribution_mc dat question_id = Raise (SoLib.id_not_found question_id).
Proof.
  intros E N. apply String.eqb_neq in E. apply has_column_false in N.
  unfold SoLib.search_options, SoLib.subset_respondents, SoLib.distribution_sc,
    SoLib.distribution_mc.
  rewrite E, N. repeat split.
  intros option O. apply String.eqb_neq in O. now rewrite O.
Qed.

(** Whatever the id, the functions of [so_lib] raise a [ValueError] when it
    is not a column: the guards against an empty id or option, which come
    first, raise one as well. *)
Lemma so_lib_absent_question dat question_id :
  ~ In question_id (columns (SoLib.raw_data dat)) ->
  (forall query, exists msg,
      SoLib.search_options dat question_id query = Raise (ValueError msg))
  /\ (forall option, exists msg,
         SoLib.subset_respondents dat question_id option = Raise (ValueError msg))
  /\ (exists msg, SoLib.distribution_sc dat question_id = Raise (ValueError msg))
  /\ (exists msg, SoLib.distribution_mc dat question_id = Raise (ValueError msg)).
Proof.
  intros N. apply has_column_false in N.
  unfold SoLib.search_options, SoLib.subset_respondents, SoLib.distribution_sc,
    SoLib.distribution_mc, SoLib.empty_id, SoLib.id_not_found.
  rewrite N. destruct (String.eqb question_id ""); simpl;
    repeat split; intros; try destruct (String.eqb option ""); eexists; reflexivity.
Qed.

(** C9. A question that is not a column of the table is not in the catalog,
    and no function returns a result for it.  [SurveyAnalyzer]'s
    [search_options], [create_subset], [get_distribution] and
    [display_distribution] each raise the [ValueError] that names the
    question as not found (the distribution functions test the columns of the
    row set they are given).  The functions of [so_lib] each raise a
    [ValueError] too: the one that names the id as not found, unless the id
    or the option is empty and the guard against that comes first.

    The functions test the columns of the table, not the catalog.  The
    column [ResponseId], which has no catalog entry, is not rejected:
    [search_options] and [get_distribution] return a result for it. *)
Theorem unknown_question_raises (data : DataFrame) (dat : SoLib.data)
    (question : string) :
  ~ In question (columns data) ->
  ~ In question (columns (SoLib.raw_data dat)) ->
  let self := SurveyAnalyzer.init data in
  (dict_get (SurveyAnalyzer.questions self) question = None
   /\ (forall keyword,
          SurveyAnalyzer.search_options self question keyword
          = Raise (SurveyAnalyzer.not_found question "survey"))
   /\ (forall option,
          SurveyAnalyzer.create_subset self question option
          = Raise (SurveyAnalyzer.not_found question "survey"))
   /\ (forall subset_df,
          ~ In question (columns (rowset self subset_df)) ->
          SurveyAnalyzer.get_distribution self question subset_df
          = Raise (SurveyAnalyzer.not_found question "data"))
   /\ (forall subset_df top_n,
          ~ In question (columns (rowset self subset_df)) ->
          SurveyAnalyzer.display_distribution self question subset_df top_n
          = Raise (SurveyAnalyzer.not_found question "data")))
  /\ ((forall query, exists msg,
          SoLib.search_options dat question query = Raise (ValueError msg))
      /\ (forall option, exists msg,
             SoLib.subset_respondents dat question option
             = Raise (ValueError msg))
      /\ (exists msg, SoLib.distribution_sc dat question = Raise (ValueError msg))
      /\ (exists msg, SoLib.distribution_mc dat question = Raise (ValueError msg)))
  /\ (question <> "" ->
      (forall query,
          SoLib.search_options dat question query
          = Raise (SoLib.id_not_found question))
      /\ (forall option,
             option <> "" ->
             SoLib.subset_respondents dat question option
             = Raise (SoLib.id_not_found question))
      /\ SoLib.distribution_sc dat question = Raise (SoLib.id_not_found question)
      /\ SoLib.distribution_mc dat question = Raise (SoLib.id_not_found question))
  /\ (In "ResponseId" (columns data) ->
      dict_get (SurveyAnalyzer.questions self) "ResponseId" = None
      /\ (forall keyword, exists options,
             SurveyAnalyzer.search_options self "ResponseId" keyword = Ok options)
      /\ (exists d,
             SurveyAnalyzer.get_distribution self "ResponseId" None = Ok d)).
Proof.
  intros N N' self.
  split; [|split; [now apply so_lib_absent_question
                  |split; [intros E; now apply so_lib_unknown_question|]]].
  2:{ intros R. apply has_column_true in R.
      assert (C : has_column (SurveyAnalyzer.df self) "ResponseId" = true)
        by (subst self; now rewrite init_df).
      split; [|split].
      - subst self. rewrite init_questions. unfold analysed.
        now rewrite andb_false_r.
      - intros keyword. unfold SurveyAnalyzer.search_options. rewrite C.
        eexists. reflexivity.
      - unfold SurveyAnalyzer.get_distribution. rewrite C. simpl.
        destruct (notna_sum _ =? 0); eexists; reflexivity. }
  assert (C : has_column (SurveyAnalyzer.df self) question = false).
  { apply has_column_false. subst self. now rewrite init_df. }
  assert (G : forall subset_df,
             ~ In question (columns (rowset self subset_df)) ->
             SurveyAnalyzer.get_distribution self question subset_df
             = Raise (SurveyAnalyzer.not_found question "data")).
  { intros subset_df Ns. apply has_column_false in Ns.
    unfold SurveyAnalyzer.get_distribution. fold (rowset self subset_df).
    now rewrite Ns. }
  repeat split.
  - subst self. rewrite init_questions. unfold analysed.
    replace (existsb (String.eqb question) (columns data)) with false; [reflexivity|].
    symmetry. change (has_column data question = false). now apply has_column_false.
  - intros keyword. unfold SurveyAnalyzer.search_options. now rewrite C.
  - intros option. unfold SurveyAnalyzer.create_subset. now rewrite C.
  - exact G.
  - intros subset_df top_n Ns. unfold SurveyAnalyzer.display_distribution.
    now rewrite (G subset_df Ns).
Qed.

Lemma unknown_question_raises_witness :
  ~ In "InvalidQuestion" (columns sample_data)
  /\ ~ In "InvalidQuestion" (columns (SoLib.raw_data test_data))
  /\ SurveyAnalyzer.search_options analyzer "InvalidQuestion" "test"
     = Raise (ValueError "Question 'InvalidQuestion' not found in survey").
Proof.
  assert (N : ~ In "InvalidQuestion" (columns sample_data)).
  { simpl. intros [E|[E|[E|[E|[E|[]]]]]]; discriminate. }
  assert (N' : ~ In "InvalidQuestion" (columns (SoLib.raw_data test_data))).
  { simpl. intros [E|[E|[E|[]]]]; discriminate. }
  split; [exact N|]. split; [exact N'|].
  exact (proj1 (proj2 (proj1
           (unknown_question_raises sample_data test_data "InvalidQuestion" N N')))
           "test").
Defined.

(** C9 as stated fails for an id that is absent from the catalog and present
    in the table.  The column [ResponseId] of the tests' table has no
    catalog entry, and [search_options], [create_subset] and
    [get_distribution] return results for it.  In [so_lib], the column [Q2]
    has no row in the schema: [search_options] returns its options, and
    [subset_respondents] and [distribution_mc] raise [IndexError], which is
    not the error of an unknown question. *)
Lemma response_id_counterexample :
  dict_get (SurveyAnalyzer.questions analyzer) "ResponseId" = None
  /\ SurveyAnalyzer.search_options analyzer "ResponseId" ""
     = Ok ["1"; "2"; "3"; "4"; "5"]
  /\ SurveyAnalyzer.create_subset analyzer "ResponseId" "1"
     = Ok {| columns := columns sample_data; rows := [] |}
  /\ (exists d,
         SurveyAnalyzer.get_distribution analyzer "ResponseId" None = Ok d
         /\ In ("1", (100 # 5)%Q) d)
  /\ (forall r, In r (SoLib.schema unlisted_data) -> SoLib.column r <> "Q2")
  /\ (exists options,
         SoLib.search_options unlisted_data "Q2" None = Ok options
         /\ In (VStr "Option X") options)
  /\ SoLib.subset_respondents unlisted_data "Q2" "Option X" = Raise IndexError
  /\ SoLib.distribution_mc unlisted_data "Q2" = Raise IndexError.
Proof.
  split; [reflexivity|].
  split; [vm_compute; reflexivity|].
  split; [vm_compute; reflexivity|].
  split; [eexists; split; [vm_compute; reflexivity|simpl; auto]|].
  split; [intros r [<-|[<-|[]]]; discriminate|].
  split; [eexists; split; [vm_compute; reflexivity|simpl; auto]|].
  split; vm_compute; reflexivity.
Qed.

(* ================================================================= *)
(** ** The catalog *)

(** C7. Without a schema, every column but [ResponseId] gets a catalog
    entry whose type is [empty] exactly when its response count (the number
    of non-null cells) is 0, and otherwise [MC] exactly when the first
    non-null value, as a string, contains [';'], else [SC]; [ResponseId]
    gets no entry. *)
Theorem catalog_types (data : DataFrame) (col : string) :
  In col (columns data) -> col <> "ResponseId" ->
  let self := SurveyAnalyzer.init data in
  dict_get (SurveyAnalyzer.questions self) "ResponseId" = None
  /\ exists i,
      dict_get (SurveyAnalyzer.questions self) col = Some i
      /\ dict_get (SurveyAnalyzer.question_types self) col
         = Some (SurveyAnalyzer.type i)
      /\ SurveyAnalyzer.response_count i = notna_sum (getitem data col)
      /\ (SurveyAnalyzer.type i = SurveyAnalyzer.empty
          <-> SurveyAnalyzer.response_count i = 0)
      /\ (SurveyAnalyzer.response_count i <> 0 ->
          (SurveyAnalyzer.type i = SurveyAnalyzer.MC
           <-> exists v, first_valid (getitem data col) = Some v
                         /\ contains ";" (str v) = true)
          /\ (SurveyAnalyzer.type i = SurveyAnalyzer.SC
              <-> exists v, first_valid (getitem data col) = Some v
                            /\ contains ";" (str v) = false)).
Proof.
  intros I N self. subst self. split.
  - rewrite init_questions. unfold analysed. simpl.
    now rewrite andb_false_r.
  - exists (column_info (getitem data col)).
    rewrite init_questions, init_question_types, (analysed_true _ _ I N).
    repeat split; try reflexivity; simpl.
    + apply column_type_empty.
    + apply column_type_empty.
    + apply column_type_MC.
    + apply column_type_MC.
    + apply column_type_SC.
    + apply column_type_SC.
Qed.

Lemma catalog_types_witness :
  dict_get (SurveyAnalyzer.question_types analyzer) "Languages"
  = Some SurveyAnalyzer.MC.
Proof.
  assert (I : In "Languages" (columns sample_data)) by (simpl; auto).
  assert (N : "Languages" <> "ResponseId") by discriminate.
  destruct (catalog_types sample_data "Languages" I N) as (_ & i & Hq & Ht & _ & _ & _).
  unfold analyzer. rewrite Ht. f_equal.
  vm_compute in Hq. injection Hq as <-. reflexivity.
Defined.

(* ================================================================= *)
(** ** Ordering *)

Lemma Sorted_consecutive {A : Type} (R : A -> A -> Prop) (l : list A) :
  Sorted R l ->
  forall i a b, nth_error l i = Some a -> nth_error l (S i) = Some b -> R a b.
Proof.
  induction 1 as [|x l S IH Hd]; intros i a b Ha Hb.
  - destruct i; discriminate.
  - destruct i as [|i].
    + simpl in Ha, Hb. injection Ha as <-.
      destruct l as [|y l]; [discriminate|]. simpl in Hb. injection Hb as <-.
      now inversion Hd.
    + simpl in Ha. apply (IH i); assumption.
Qed.

Lemma filter_filter {A : Type} (f g : A -> bool) (l : list A) :
  filter f (filter g l) = filter (fun x => g x && f x) l.
Proof.
  induction l as [|x l IH]; simpl; [reflexivity|].
  destruct (g x); simpl; [destruct (f x)|]; now rewrite IH.
Qed.

(** The counting loops list the options in order of first encounter. *)
Lemma keys_fold_incr_first_seen (xs : list string) (d : dict string nat) :
  keys (fold_left incr xs d)
  = keys d
    ++ filter (fun y => negb (existsb (String.eqb y) (keys d))) (first_seen xs).
Proof.
  revert d. induction xs as [|x xs IH]; intros d; simpl.
  - now rewrite app_nil_r.
  - rewrite IH. unfold incr at 1 2. rewrite keys_dict_set.
    destruct (in_dec key_eq_dec x (keys d)) as [I|N].
    + assert (E : existsb (String.eqb x) (keys d) = true).
      { apply existsb_exists. exists x. split; [assumption|apply String.eqb_refl]. }
      rewrite E. simpl. f_equal. rewrite filter_filter.
      apply filter_ext. intros y.
      destruct (String.eqb y x) eqn:Eyx; simpl; [|reflexivity].
      apply String.eqb_eq in Eyx. subst y. now rewrite E.
    + assert (E : existsb (String.eqb x) (keys d) = false).
      { destruct (existsb (String.eqb x) (keys d)) eqn:X; [|reflexivity].
        apply existsb_exists in X. destruct X as (k & Ik & Ek).
        apply String.eqb_eq in Ek. subst k. contradiction. }
      rewrite E. simpl. rewrite <- app_assoc. simpl. do 2 f_equal.
      rewrite filter_filter. apply filter_ext. intros y.
      rewrite existsb_app. simpl. rewrite orb_false_r, negb_orb.
      apply andb_comm.
Qed.

(** C4. The sequence [get_distribution] returns is in descending order of
    percentage: of two consecutive entries the first has a percentage at
    least that of the second.  [distribution_mc] does not sort: its mapping
    lists the options in the order in which the column first names them.
    The sequence that [format_distribution] makes of it for display is in
    descending order. *)
Theorem get_distribution_sorted (self : SurveyAnalyzer.t) (question : string)
    (subset_df : option DataFrame) (d : dict string Q)
    (dat : SoLib.data) (question_id : string)
    (r : SoLib.distribution_of string) :
  SurveyAnalyzer.get_distribution self question subset_df = Ok d ->
  SoLib.distribution_mc dat question_id = Ok r ->
  (forall i a b,
      nth_error d i = Some a -> nth_error d (S i) = Some b ->
      (snd b <= snd a)%Q)
  /\ keys (SoLib.distribution r)
     = first_seen
         (text_fragments (dropna (getitem (SoLib.raw_data dat) question_id)))
  /\ (forall i a b,
         nth_error (SoLib.sorted_dist r) i = Some a ->
         nth_error (SoLib.sorted_dist r) (S i) = Some b ->
         (snd b <= snd a)%Q).
Proof.
  intros G M. split; [|split].
  - apply (Sorted_consecutive pct_ge).
    apply get_distribution_Ok in G. cbv zeta in G.
    destruct G as [_ [[_ ->]|(_ & -> & _)]]; [constructor|].
    apply sorted_desc_Sorted.
  - apply distribution_mc_Ok in M. destruct M as [_ ->].
    set (frags := text_fragments _).
    transitivity (keys (fold_left incr frags [])).
    + unfold keys. rewrite map_map. reflexivity.
    + rewrite keys_fold_incr_first_seen. simpl.
      generalize (first_seen frags). intros l.
      induction l as [|x l IH]; simpl; [reflexivity|now rewrite IH].
  - apply (Sorted_consecutive pct_ge). apply sorted_desc_Sorted.
Qed.

Lemma get_distribution_sorted_witness :
  keys [("Option X", (200 # 4)%Q); ("Option Y", (200 # 4)%Q);
        ("Option Z", (200 # 4)%Q)]
  = first_seen
      (text_fragments (dropna (getitem (SoLib.raw_data test_data) "Q2"))).
Proof.
  refine (proj1 (proj2 (get_distribution_sorted analyzer "Country" None
            [("USA", (200 # 5)%Q); ("UK", (200 # 5)%Q); ("Canada", (100 # 5)%Q)]
            test_data "Q2"
            {| SoLib.dist_question_id := "Q2";
               SoLib.dist_question_text := "Test multiple-choice question?";
               SoLib.distribution :=
                 [("Option X", (200 # 4)%Q); ("Option Y", (200 # 4)%Q);
                  ("Option Z", (200 # 4)%Q)] |} _ _))).
  - vm_compute. reflexivity.
  - vm_compute. reflexivity.
Defined.

(** C4 as stated fails for [distribution_mc]: with the answers
    ["Python;Java"] and ["Java"] it returns [Python] at 50 percent before
    [Java] at 100 percent, the order of first encounter. *)
Lemma distribution_mc_order_counterexample :
  exists r a b,
    SoLib.distribution_mc order_data "Languages" = Ok r
    /\ SoLib.distribution r = [("Python", (100 # 2)%Q); ("Java", (200 # 2)%Q)]
    /\ nth_error (SoLib.distribution r) 0 = Some a
    /\ nth_error (SoLib.distribution r) 1 = Some b
    /\ ~ (snd b <= snd a)%Q.
Proof.
  eexists _, ("Python", (100 # 2)%Q), ("Java", (200 # 2)%Q).
  split; [vm_compute; reflexivity|]. simpl.
  repeat split. intros L. vm_compute in L. now apply L.
Qed.

(* ================================================================= *)
(** ** Entries of a distribution *)

Lemma In_rows_nonempty df q c : In c (getitem df q) -> len df <> 0.
Proof.
  unfold getitem, len. destruct (position q (columns df)); [|intros []].
  destruct (rows df); [intros []|discriminate].
Qed.

(** C10. Every entry of a distribution has a strictly positive percentage,
    and its option occurs in a non-null cell of the row set: for
    [get_distribution] as the string of the cell (single choice) or as one of
    its stripped fragments (multiple choice), for [distribution_mc] as one of
    the fragments of a text cell. *)
Theorem distribution_entries_positive
    (self : SurveyAnalyzer.t) (question : string) (subset_df : option DataFrame)
    (d : dict string Q) (opt : string) (pct : Q)
    (dat : SoLib.data) (question_id : string)
    (r : SoLib.distribution_of string) (opt' : string) (pct' : Q) :
  SurveyAnalyzer.get_distribution self question subset_df = Ok d ->
  In (opt, pct) d ->
  SoLib.distribution_mc dat question_id = Ok r ->
  In (opt', pct') (SoLib.distribution r) ->
  ((0 < pct)%Q
   /\ exists val,
       In (Some val) (getitem (rowset self subset_df) question)
       /\ if SurveyAnalyzer.is_MC self question
          then In opt (map strip (split ";"%char (str val)))
          else opt = str val)
  /\ ((0 < pct')%Q
      /\ fragment_of (getitem (SoLib.raw_data dat) question_id) opt').
Proof.
  intros G I G' I'. split.
  - destruct (get_distribution_entry _ _ _ _ _ _ G I) as [T E].
    destruct (SurveyAnalyzer.is_MC self question).
    + destruct E as (n & -> & N & ->). split; [now apply percent_pos|].
      apply occurrences_In, In_fragments in N.
      destruct N as (val & f & Iv & If & ->). exists val.
      split; [now apply In_dropna|]. now apply in_map.
    + destruct E as (val & n & -> & -> & N & Iv & ->).
      split; [now apply percent_pos|]. now exists val.
  - apply distribution_mc_Ok in G'. destruct G' as [C E]. rewrite E in I'.
    apply in_map_iff in I'. destruct I' as ([k n] & [= <- <-] & It).
    apply In_tally in It. destruct It as [-> N]. pose proof N as N'.
    apply occurrences_In, In_text_fragments in N'. destruct N' as (s & Is & If).
    apply In_dropna in Is. split.
    + apply percent_pos; [assumption|].
      now apply (In_rows_nonempty _ question_id (Some (VStr s))).
    + now exists s.
Qed.

Lemma distribution_entries_positive_witness : (0 < 200 # 5)%Q /\ (0 < 200 # 4)%Q.
Proof.
  destruct (distribution_entries_positive
              analyzer "Languages" None
              [("Python", (300 # 5)%Q); ("JavaScript", (300 # 5)%Q);
               ("Java", (200 # 5)%Q)]
              "Java" (200 # 5)%Q
              test_data "Q2"
              {| SoLib.dist_question_id := "Q2";
                 SoLib.dist_question_text := "Test multiple-choice question?";
                 SoLib.distribution :=
                   [("Option X", (200 # 4)%Q); ("Option Y", (200 # 4)%Q);
                    ("Option Z", (200 # 4)%Q)] |}
              "Option X" (200 # 4)%Q) as [[P _] [P' _]].
  - vm_compute. reflexivity.
  - simpl. auto.
  - vm_compute. reflexivity.
  - simpl. auto.
  - split; assumption.
Defined.

(* ================================================================= *)
(** ** Denominators *)

(** C1, as the code has it.  [get_distribution] divides by the number of
    non-null cells of the question's column in the row set, for a
    multiple-choice question as for a single-choice one; [distribution_mc]
    divides by the number of rows of the table, rows without an answer
    included.  Each percentage is [100 * count / denominator], where the
    count of a multiple-choice option is the number of (stripped) fragments
    equal to it and a single-choice entry carries the count of a cell value
    that prints as the option. *)
Theorem distribution_denominators
    (self : SurveyAnalyzer.t) (question : string) (subset_df : option DataFrame)
    (d : dict string Q) (opt : string) (pct : Q)
    (dat : SoLib.data) (question_id : string)
    (r : SoLib.distribution_of string) (opt' : string) (pct' : Q) :
  SurveyAnalyzer.get_distribution self question subset_df = Ok d ->
  In (opt, pct) d ->
  SoLib.distribution_mc dat question_id = Ok r ->
  In (opt', pct') (SoLib.distribution r) ->
  (let s := getitem (rowset self subset_df) question in
   if SurveyAnalyzer.is_MC self question then
     (pct == ratio100 (occurrences opt (map strip (fragments (dropna s))))
                      (notna_sum s))%Q
   else
     exists val,
       opt = str val
       /\ (pct == ratio100 (occurrences val (dropna s)) (notna_sum s))%Q)
  /\ (pct' == ratio100
               (occurrences opt'
                  (text_fragments
                     (dropna (getitem (SoLib.raw_data dat) question_id))))
               (len (SoLib.raw_data dat)))%Q.
Proof.
  intros G I G' I'. split.
  - destruct (get_distribution_entry _ _ _ _ _ _ G I) as [T E]. cbv zeta.
    destruct (SurveyAnalyzer.is_MC self question).
    + destruct E as (n & -> & N & ->). apply percent_ratio100.
    + destruct E as (val & n & -> & -> & N & Iv & ->).
      exists val. split; [reflexivity|apply percent_ratio100].
  - apply distribution_mc_Ok in G'. destruct G' as [C E]. rewrite E in I'.
    apply in_map_iff in I'. destruct I' as ([k n] & [= <- <-] & It).
    apply In_tally in It. destruct It as [-> N]. apply percent_ratio100.
Qed.

Lemma distribution_denominators_witness :
  (200 # 5 == ratio100 2 5)%Q /\ (200 # 4 == ratio100 2 4)%Q.
Proof.
  exact (distribution_denominators
           analyzer "Languages" None
           [("Python", (300 # 5)%Q); ("JavaScript", (300 # 5)%Q);
            ("Java", (200 # 5)%Q)]
           "Java" (200 # 5)%Q
           test_data "Q2"
           {| SoLib.dist_question_id := "Q2";
              SoLib.dist_question_text := "Test multiple-choice question?";
              SoLib.distribution :=
                [("Option X", (200 # 4)%Q); ("Option Y", (200 # 4)%Q);
                 ("Option Z", (200 # 4)%Q)] |}
           "Option X" (200 # 4)%Q
           eq_refl (or_intror (or_intror (or_introl eq_refl)))
           eq_refl (or_introl eq_refl)).
Defined.

(** C1 as stated fails for [get_distribution]: with a multiple-choice column
    of two rows, one of them unanswered, the option of the answered row gets
    100 percent, not the 50 percent that the row count would give. *)
Lemma mc_denominator_counterexample :
  let self := SurveyAnalyzer.init unanswered_data in
  SurveyAnalyzer.is_MC self "Languages" = true
  /\ len unanswered_data = 2
  /\ occurrences "Python"
       (map strip (fragments (dropna (getitem unanswered_data "Languages")))) = 1
  /\ exists d pct,
      SurveyAnalyzer.get_distribution self "Languages" None = Ok d
      /\ In ("Python", pct) d
      /\ ~ (pct == ratio100 1 (len unanswered_data))%Q.
Proof.
  cbv zeta. repeat split; try reflexivity.
  exists [("Python", 100%Q); ("Java", 100%Q)], 100%Q.
  repeat split.
  - simpl. auto.
  - vm_compute. discriminate.
Qed.

(* ================================================================= *)
(** ** Option strings *)

Lemma In_fold_string_set_add xs acc x :
  In x (fold_left SurveyAnalyzer.set_add xs acc) -> In x acc \/ In x xs.
Proof.
  revert acc. induction xs as [|y xs IH]; intros acc; simpl; [auto|].
  intros I. destruct (IH _ I) as [I1|I2]; [|right; now right].
  unfold SurveyAnalyzer.set_add in I1. destruct (existsb (String.eqb y) acc); [now left|].
  apply in_app_iff in I1. destruct I1 as [I1|[->|[]]]; [now left|right; now left].
Qed.

Lemma In_all_options (vals : list value) acc x :
  In x (fold_left
          (fun acc val =>
             fold_left SurveyAnalyzer.set_add
               (map strip (split ";"%char (str val))) acc)
          vals acc) ->
  In x acc \/ exists val, In val vals /\ In x (map strip (split ";"%char (str val))).
Proof.
  revert acc. induction vals as [|v vals IH]; intros acc; simpl; [auto|].
  intros I. destruct (IH _ I) as [I1|(val & Iv & Ix)].
  - apply In_fold_string_set_add in I1. destruct I1 as [I1|I1]; [now left|].
    right. exists v. split; [now left|assumption].
  - right. exists val. split; [now right|assumption].
Qed.

(** The options [search_options] lists for a multiple-choice question. *)
Lemma search_options_MC self question keyword opts o :
  SurveyAnalyzer.search_options self question keyword = Ok opts ->
  SurveyAnalyzer.is_MC self question = true ->
  In o opts ->
  stripped_fragment_of (getitem (SurveyAnalyzer.df self) question) o.
Proof.
  unfold SurveyAnalyzer.search_options. intros G M I.
  destruct (has_column (SurveyAnalyzer.df self) question); simpl in G; [|discriminate].
  rewrite M in G. injection G as <-.
  apply In_sorted_str, filter_In in I. destruct I as [I _].
  apply In_all_options in I. destruct I as [[]|(val & Iv & Ix)].
  apply in_map_iff in Ix. destruct Ix as (f & <- & If).
  exists val, f. split; [now apply In_dropna|]. now split.
Qed.

(** C3, as the code has it.  A multiple-choice option string of
    [SurveyAnalyzer] ([get_distribution], [search_options]) is a fragment of a
    non-null cell, split on [';'], with the surrounding whitespace stripped;
    one of [so_lib] ([distribution_mc], [search_options]) is such a fragment
    as it stands.  Nothing drops the empty fragments. *)
Theorem option_strings
    (self : SurveyAnalyzer.t) (question : string) (subset_df : option DataFrame)
    (d : dict string Q) (opt : string) (pct : Q)
    (keyword : string) (opts : list string) (o : string)
    (dat : SoLib.data) (question_id : string)
    (r : SoLib.distribution_of string) (opt' : string) (pct' : Q)
    (query : option string) (opts' : list value) (o' : string) :
  SurveyAnalyzer.is_MC self question = true ->
  SurveyAnalyzer.get_distribution self question subset_df = Ok d ->
  In (opt, pct) d ->
  SurveyAnalyzer.search_options self question keyword = Ok opts ->
  In o opts ->
  SoLib.distribution_mc dat question_id = Ok r ->
  In (opt', pct') (SoLib.distribution r) ->
  SoLib.search_options dat question_id query = Ok opts' ->
  In (VStr o') opts' ->
  (stripped_fragment_of (getitem (rowset self subset_df) question) opt
   /\ trimmed opt)
  /\ (stripped_fragment_of (getitem (SurveyAnalyzer.df self) question) o
      /\ trimmed o)
  /\ fragment_of (getitem (SoLib.raw_data dat) question_id) opt'
  /\ fragment_of (getitem (SoLib.raw_data dat) question_id) o'.
Proof.
  intros M G I S Io G' I' S' Io'.
  assert (T : forall s x, stripped_fragment_of s x -> trimmed x).
  { intros s x (val & f & _ & _ & ->). apply strip_trimmed. }
  assert (F1 : stripped_fragment_of (getitem (rowset self subset_df) question) opt).
  { destruct (get_distribution_entry _ _ _ _ _ _ G I) as [_ E]. rewrite M in E.
    destruct E as (n & -> & N & _).
    apply occurrences_In, In_fragments in N.
    destruct N as (val & f & Iv & If & ->). exists val, f.
    split; [now apply In_dropna|]. now split. }
  assert (F2 : stripped_fragment_of (getitem (SurveyAnalyzer.df self) question) o)
    by (eapply search_options_MC; eassumption).
  repeat split; try assumption; try (eapply T; eassumption).
  - apply distribution_mc_Ok in G'. destruct G' as [_ E]. rewrite E in I'.
    apply in_map_iff in I'. destruct I' as ([k n] & [= <- <-] & It).
    apply In_tally in It. destruct It as [-> N].
    apply occurrences_In, In_text_fragments in N. destruct N as (s & Is & If).
    exists s. split; [now apply In_dropna|assumption].
  - eapply search_options_fragment; eassumption.
Qed.

Lemma option_strings_witness : trimmed "Java" /\ fragment_of
    (getitem (SoLib.raw_data test_data) "Q2") "Option Y".
Proof.
  destruct (option_strings
              analyzer "Languages" None
              [("Python", (300 # 5)%Q); ("JavaScript", (300 # 5)%Q);
               ("Java", (200 # 5)%Q)]
              "Java" (200 # 5)%Q
              "Java" ["Java"; "JavaScript"] "Java"
              test_data "Q2"
              {| SoLib.dist_question_id := "Q2";
                 SoLib.dist_question_text := "Test multiple-choice question?";
                 SoLib.distribution :=
                   [("Option X", (200 # 4)%Q); ("Option Y", (200 # 4)%Q);
                    ("Option Z", (200 # 4)%Q)] |}
              "Option Y" (200 # 4)%Q
              None [VStr "Option X"; VStr "Option Y"; VStr "Option Z"] "Option Y")
    as [[_ T] [_ [F _]]].
  - vm_compute. reflexivity.
  - vm_compute. reflexivity.
  - simpl. auto.
  - vm_compute. reflexivity.
  - simpl. auto.
  - vm_compute. reflexivity.
  - simpl. auto.
  - vm_compute. reflexivity.
  - simpl. auto.
  - split; assumption.
Defined.

(** C3 as stated fails: the cell ["Python;; Java "] gives [get_distribution]
    an entry for the empty option, and gives [distribution_mc] the empty
    option and the option [" Java "] with its blanks. *)
Lemma empty_fragment_counterexample :
  SurveyAnalyzer.is_MC (SurveyAnalyzer.init ragged_data) "Languages" = true
  /\ (exists d pct,
         SurveyAnalyzer.get_distribution
           (SurveyAnalyzer.init ragged_data) "Languages" None = Ok d
         /\ In ("", pct) d)
  /\ (exists r pct pct',
         SoLib.distribution_mc ragged_so_data "Languages" = Ok r
         /\ In ("", pct) (SoLib.distribution r)
         /\ In (" Java ", pct') (SoLib.distribution r)
         /\ ~ trimmed " Java ").
Proof.
  split; [reflexivity|]. split.
  - eexists. exists (100 # 2)%Q. split; [vm_compute; reflexivity|].
    simpl. auto.
  - eexists. exists (100 # 2)%Q, (100 # 2)%Q.
    split; [vm_compute; reflexivity|]. simpl.
    repeat split; auto. intros [S _]. discriminate.
Qed.

(* ================================================================= *)
(** ** Truncation *)

Lemma slice_bound_nat len n : slice_bound len (Z.of_nat n) = n.
Proof.
  unfold slice_bound. destruct (Z.of_nat n <? 0)%Z eqn:E.
  - apply Z.ltb_lt in E. lia.
  - apply Nat2Z.id.
Qed.

(** C5, as the code has it.  For a distribution that is not empty,
    [display_distribution] shows every entry (percentages rounded to two
    decimals) when [top_n] is [None] or 0; and when [top_n] is positive and
    the distribution has more entries, it shows [top_n + 1] rows: the first
    [top_n] entries and the row [Others] with the sum of the remaining
    percentages. *)
Theorem display_truncation (self : SurveyAnalyzer.t) (question : string)
    (subset_df : option DataFrame) (d : dict string Q) :
  SurveyAnalyzer.get_distribution self question subset_df = Ok d ->
  d <> [] ->
  SurveyAnalyzer.display_distribution self question subset_df None = Ok (shown d)
  /\ SurveyAnalyzer.display_distribution self question subset_df (Some 0%Z)
     = Ok (shown d)
  /\ forall n : nat,
      0 < n < List.length d ->
      let rows :=
        shown (firstn n d)
        ++ [("Others", round2 (sum (map snd (skipn n d))))] in
      SurveyAnalyzer.display_distribution self question subset_df
        (Some (Z.of_nat n)) = Ok rows
      /\ List.length rows = n + 1.
Proof.
  intros G N. unfold SurveyAnalyzer.display_distribution. rewrite G. simpl bind.
  destruct d as [|e d]; [contradiction|].
  split; [reflexivity|]. split; [reflexivity|].
  intros n [P L]. cbv zeta. split.
  - assert (Z : (Z.of_nat n =? 0)%Z = false) by (apply Z.eqb_neq; lia).
    assert (B : (Z.of_nat n <? Z.of_nat (List.length (e :: d)))%Z = true)
      by (apply Z.ltb_lt; lia).
    unfold SurveyAnalyzer.truthy. rewrite Z, B. simpl negb. cbv iota. simpl andb.
    cbv iota. unfold slice_to, slice_from. rewrite slice_bound_nat. reflexivity.
  - unfold shown.
    rewrite length_app, length_map, firstn_length_le by lia. reflexivity.
Qed.

Lemma display_truncation_witness :
  SurveyAnalyzer.display_distribution analyzer "Country" None (Some 2%Z)
  = Ok [("USA", round2 (200 # 5)); ("UK", round2 (200 # 5));
        ("Others", round2 (sum [(100 # 5)%Q]))].
Proof.
  assert (G : SurveyAnalyzer.get_distribution analyzer "Country" None
              = Ok [("USA", (200 # 5)%Q); ("UK", (200 # 5)%Q);
                    ("Canada", (100 # 5)%Q)])
    by (vm_compute; reflexivity).
  assert (N : [("USA", (200 # 5)%Q); ("UK", (200 # 5)%Q); ("Canada", (100 # 5)%Q)]
              <> []) by discriminate.
  destruct (display_truncation analyzer "Country" None _ G N) as (_ & _ & T).
  assert (L : 0 < 2 < 3) by lia.
  exact (proj1 (T 2 L)).
Defined.

(** C5 as stated fails at [top_n = 0]: the distribution of [Country] has
    three entries, more than [top_n], and all three are shown, not the
    [top_n + 1 = 1] rows of the claim. *)
Lemma top_zero_counterexample :
  exists d out,
    SurveyAnalyzer.get_distribution analyzer "Country" None = Ok d
    /\ (0 < Z.of_nat (List.length d))%Z
    /\ SurveyAnalyzer.display_distribution analyzer "Country" None (Some 0%Z)
       = Ok out
    /\ List.length out = 3
    /\ List.length out <> Z.to_nat 0 + 1.
Proof.
  eexists. eexists. split; [vm_compute; reflexivity|].
  split; [simpl; lia|]. split; [vm_compute; reflexivity|].
  split; [reflexivity|]. simpl. lia.
Qed.

(* ================================================================= *)
(** ** Subsets *)

Lemma position_In q cols : In q cols -> exists i, position q cols = Some i.
Proof.
  induction cols as [|c cols IH]; intros I; [destruct I|]. simpl.
  destruct (String.eqb c q) eqn:E; [now exists 0|].
  destruct I as [->|I]; [rewrite String.eqb_refl in E; discriminate|].
  destruct (IH I) as (i & ->). now exists (S i).
Qed.

Lemma getitem_cells df q :
  In q (columns df) -> getitem df q = map (cell_of df q) (rows df).
Proof.
  intros I. unfold getitem, cell_of.
  destruct (position_In _ _ I) as (i & ->). reflexivity.
Qed.

(** Single choice (any question that is not typed [MC]): [create_subset]
    keeps, in order and whole, the rows whose cell is the text [option]. *)
Lemma create_subset_SC self question option :
  In question (columns (SurveyAnalyzer.df self)) ->
  SurveyAnalyzer.is_MC self question = false ->
  SurveyAnalyzer.create_subset self question option
  = Ok {| columns := columns (SurveyAnalyzer.df self);
          rows :=
            filter (fun r => match cell_of (SurveyAnalyzer.df self) question r with
                             | Some (VStr t) => String.eqb t option
                             | _ => false
                             end)
              (rows (SurveyAnalyzer.df self)) |}.
Proof.
  intros I M. unfold SurveyAnalyzer.create_subset.
  rewrite (proj2 (has_column_true _ _) I), M. simpl.
  unfold loc_mask, eq_str. rewrite (getitem_cells _ _ I), map_map, select_map.
  reflexivity.
Qed.

(** Multiple choice, for an option without special characters:
    [create_subset] keeps, in order and whole, the rows whose cell is a text
    that contains the option, case ignored. *)
Lemma create_subset_MC_literal self question option :
  In question (columns (SurveyAnalyzer.df self)) ->
  SurveyAnalyzer.is_MC self question = true ->
  has_str_accessor (getitem (SurveyAnalyzer.df self) question) = true ->
  literal option = true ->
  SurveyAnalyzer.create_subset self question option
  = Ok {| columns := columns (SurveyAnalyzer.df self);
          rows :=
            filter (fun r => match cell_of (SurveyAnalyzer.df self) question r with
                             | Some (VStr t) => contains (lower option) (lower t)
                             | _ => false
                             end)
              (rows (SurveyAnalyzer.df self)) |}.
Proof.
  intros I M A L. unfold SurveyAnalyzer.create_subset.
  rewrite (proj2 (has_column_true _ _) I), M. simpl.
  unfold str_contains. rewrite A, (re_compile_literal _ L). simpl.
  unfold loc_mask, notna. f_equal. f_equal.
  rewrite (getitem_cells _ _ I), !map_map, mask_zip_map, select_map.
  apply filter_ext. intros r.
  destruct (cell_of (SurveyAnalyzer.df self) question r) as [[t|n]|]; simpl;
    [apply re_search_literal_ignorecase|reflexivity|reflexivity].
Qed.

(** *** The printed form of an integer has no [';'] *)

Lemma contains_cons_other sep c s :
  c <> sep ->
  contains (String sep EmptyString) (String c s) = contains (String sep EmptyString) s.
Proof.
  intros N. simpl. destruct (ascii_dec sep c) as [E|_]; [congruence|reflexivity].
Qed.

Lemma string_of_uint_no_sep d : contains ";" (NilEmpty.string_of_uint d) = false.
Proof.
  induction d; simpl NilEmpty.string_of_uint;
    [reflexivity|rewrite contains_cons_other by discriminate; exact IHd ..].
Qed.

Lemma str_of_int_no_sep n : contains ";" (str_of_int n) = false.
Proof.
  unfold str_of_int, NilZero.string_of_int.
  destruct (Z.to_int n) as [d|d]; [|rewrite contains_cons_other by discriminate];
    unfold NilZero.string_of_uint; destruct d;
    try reflexivity; apply string_of_uint_no_sep.
Qed.

(** A column typed [MC] holds a text, so its [.str] accessor exists. *)
Lemma MC_has_str_accessor data question :
  SurveyAnalyzer.is_MC (SurveyAnalyzer.init data) question = true ->
  has_str_accessor (getitem data question) = true.
Proof.
  unfold SurveyAnalyzer.is_MC. rewrite init_question_types.
  destruct (analysed (columns data) question); [|discriminate].
  destruct (column_type (getitem data question)) eqn:T; try discriminate.
  intros _. apply column_type_MC in T. destruct T as (v & F & C).
  unfold first_valid in F. unfold has_str_accessor.
  destruct (getitem data question) as [|c s]; [reflexivity|].
  destruct (dropna (c :: s)) as [|w ws]; [discriminate|].
  simpl in F. injection F as ->. simpl.
  destruct v as [t|n]; [reflexivity|].
  simpl in C. rewrite str_of_int_no_sep in C. discriminate.
Qed.

(** [create_subset] on the analyzer of a table, for an option without
    special characters: the rows kept, in table order and with all their
    columns, are those whose cell is a text that equals the option (single
    choice) or contains it, case ignored (multiple choice). *)
Lemma create_subset_literal data question option :
  In question (columns data) ->
  literal option = true ->
  SurveyAnalyzer.create_subset (SurveyAnalyzer.init data) question option
  = Ok {| columns := columns data;
          rows :=
            filter
              (fun r =>
                 match cell_of data question r with
                 | Some (VStr t) =>
                     if SurveyAnalyzer.is_MC (SurveyAnalyzer.init data) question
                     then contains (lower option) (lower t)
                     else String.eqb t option
                 | _ => false
                 end)
              (rows data) |}.
Proof.
  intros I L.
  destruct (SurveyAnalyzer.is_MC (SurveyAnalyzer.init data) question) eqn:M.
  - rewrite create_subset_MC_literal; rewrite ?init_df; auto.
    now apply MC_has_str_accessor.
  - rewrite create_subset_SC; rewrite ?init_df; auto.
Qed.

(** C2 at the option ["Node.js"].  [create_subset] compiles the option as a
    regular expression, where the dot stands for any character, and so keeps
    the row ["Node-js;Bun"], whose cell does not contain the option; the
    claim's substring test would keep the first row only. *)
Theorem create_subset_dotted_option :
  let self := SurveyAnalyzer.init dotted_data in
  SurveyAnalyzer.is_MC self "Tools" = true
  /\ SurveyAnalyzer.create_subset self "Tools" "Node.js"
     = Ok {| columns := ["Tools"];
             rows := [ [txt "Node.js;Deno"]; [txt "Node-js;Bun"] ] |}
  /\ contains (lower "Node.js") (lower "Node-js;Bun") = false
  /\ filter (fun r => match cell_of dotted_data "Tools" r with
                      | Some (VStr t) => contains (lower "Node.js") (lower t)
                      | _ => false
                      end) (rows dotted_data)
     = [ [txt "Node.js;Deno"] ].
Proof. cbv zeta. repeat split; vm_compute; reflexivity. Qed.

(* ================================================================= *)
(** ** Question search *)

Lemma has_str_accessor_text (ss : list string) :
  has_str_accessor (SoLib.text_series ss) = true.
Proof. destruct ss; reflexivity. Qed.

Lemma str_contains_text_literal {A : Type} (g : A -> string) (l : list A) pat :
  literal pat = true ->
  str_contains (SoLib.text_series (map g l)) pat true
  = Ok (map (fun x => contains pat (g x)) l).
Proof.
  intros L. unfold str_contains.
  rewrite has_str_accessor_text, (re_compile_literal _ L). simpl.
  unfold SoLib.text_series. rewrite !map_map. f_equal.
  apply map_ext. intros x. apply re_search_literal.
Qed.

Lemma contains_empty s : contains "" s = true.
Proof. destruct s; reflexivity. Qed.

(** C8, as the code has it.  [so_lib]'s [search_questions] raises
    [ValueError] for the empty query; for a query that is not empty and has
    no character special in a regular expression it returns the schema rows
    whose text or id contains the query, case ignored, in schema order (none
    when nothing matches).  [SurveyAnalyzer.search_questions] never fails: it
    returns the catalog ids that contain the keyword, case ignored, in
    catalog order, which for the empty keyword are all of them. *)
Theorem search_questions_matches (dat : SoLib.data) (query : string)
    (self : SurveyAnalyzer.t) (keyword : string) :
  query <> "" ->
  literal query = true ->
  SoLib.search_questions dat ""
  = Raise (ValueError "Query must be a non-empty string")
  /\ SoLib.search_questions dat query
     = Ok (filter (fun r => contains (lower query) (lower (SoLib.question_text r))
                            || contains (lower query) (lower (SoLib.column r)))
             (SoLib.schema dat))
  /\ SurveyAnalyzer.search_questions self keyword
     = filter (fun q => contains (lower keyword) (lower q))
         (keys (SurveyAnalyzer.questions self))
  /\ SurveyAnalyzer.search_questions self ""
     = keys (SurveyAnalyzer.questions self).
Proof.
  intros N L. split; [reflexivity|]. split; [|split; [reflexivity|]].
  - unfold SoLib.search_questions.
    rewrite (proj2 (String.eqb_neq _ _) N). unfold SoLib.list_questions.
    rewrite <- literal_lower in L.
    rewrite (str_contains_text_literal
               (fun r => lower (SoLib.question_text r)) _ _ L).
    simpl bind.
    rewrite (str_contains_text_literal (fun r => lower (SoLib.column r)) _ _ L).
    simpl bind. now rewrite mask_zip_map, select_map.
  - unfold SurveyAnalyzer.search_questions. simpl lower.
    induction (keys (SurveyAnalyzer.questions self)) as [|q qs IH]; [reflexivity|].
    simpl. rewrite contains_empty. now rewrite IH.
Qed.

Lemma search_questions_matches_witness :
  SoLib.search_questions test_data "multiple"
  = Ok [ {| SoLib.column := "Q2";
            SoLib.question_text := "Test multiple-choice question?";
            SoLib.type := "MC" |} ].
Proof.
  assert (N : "multiple" <> "") by discriminate.
  assert (L : literal "multiple" = true) by reflexivity.
  destruct (search_questions_matches test_data "multiple" analyzer "year" N L)
    as (_ & S & _).
  rewrite S. reflexivity.
Defined.

(** C8 as stated fails for [SurveyAnalyzer.search_questions]: the empty
    keyword is not rejected, it selects every question of the catalog. *)
Lemma empty_keyword_counterexample :
  SurveyAnalyzer.search_questions analyzer ""
  = ["Country"; "Languages"; "YearsCode"; "EmptyColumn"].
Proof. reflexivity. Qed.

(** The query of [so_lib]'s [search_questions] is compiled as a regular
    expression too: ["q."] selects all three questions of the test schema,
    none of which contains it. *)
Example search_questions_dotted_query :
  SoLib.search_questions test_data "q." = Ok (SoLib.schema test_data)
  /\ filter (fun r => contains (lower "q.") (lower (SoLib.question_text r))
                      || contains (lower "q.") (lower (SoLib.column r)))
       (SoLib.schema test_data) = [].
Proof. split; reflexivity. Qed.

(* ================================================================= *)
(** ** Sum of a single-choice distribution *)

(** *** Sums of percentages *)

Lemma fold_left_Qplus (l : list Q) (acc : Q) :
  (fold_left Qplus l acc == acc + fold_right Qplus 0 l)%Q.
Proof.
  revert acc. induction l as [|x l IH]; intros acc; simpl.
  - ring.
  - rewrite IH. ring.
Qed.

Lemma sum_fold_right (l : list Q) : (sum l == fold_right Qplus 0 l)%Q.
Proof. unfold sum. rewrite fold_left_Qplus. simpl. ring. Qed.


Lemma percent_plus a b total :
  (percent (a + b) total == percent a total + percent b total)%Q.
Proof.
  unfold percent, Qdiv. rewrite Nat2Z.inj_add, inject_Z_plus. ring.
Qed.

Lemma sum_percent (ns : list nat) (total : nat) :
  (sum (map (fun n => percent n total) ns) == percent (list_sum ns) total)%Q.
Proof.
  rewrite sum_fold_right. induction ns as [|n ns IH]; simpl.
  - unfold percent, Qdiv. simpl. ring.
  - now rewrite IH, percent_plus.
Qed.

Lemma percent_all total : total <> 0 -> (percent total total == 100)%Q.
Proof.
  intros N. unfold percent. field.
  intros Z. apply (Qlt_irrefl 0). rewrite <- Z at 2. now apply inject_nat_pos.
Qed.

(** The percentages over [value_counts] sum to 100. *)
Lemma sum_value_counts (s : Series) :
  notna_sum s <> 0 ->
  (sum (map (fun vc => percent (snd vc) (notna_sum s)) (value_counts s)) == 100)%Q.
Proof.
  intros N. rewrite <- (map_map snd (fun n => percent n (notna_sum s))).
  rewrite sum_percent, list_sum_value_counts, <- notna_sum_dropna.
  now apply percent_all.
Qed.

(** [distribution_sc]: the percentages of a question with a response sum
    to 100. *)
Lemma distribution_sc_sum dat question_id r :
  SoLib.distribution_sc dat question_id = Ok r ->
  notna_sum (getitem (SoLib.raw_data dat) question_id) <> 0 ->
  (sum (map snd (SoLib.distribution r)) == 100)%Q.
Proof.
  intros G N. apply distribution_sc_Ok in G. destruct G as [_ ->].
  rewrite map_map. simpl. now apply sum_value_counts.
Qed.


(** C6 at a column where the number 5 and the text ["5"] both occur.  The
    column is typed [SC] and has two responses; [get_distribution] keys its
    entries by [str], the two values share the key ["5"], the later
    percentage overwrites the earlier, and the percentages sum to 50, not
    100.  [distribution_sc], which keys by the value, returns both entries. *)
Theorem mixed_column_sum :
  let self := SurveyAnalyzer.init mixed_data in
  dict_get (SurveyAnalyzer.question_types self) "YearsCode"
  = Some SurveyAnalyzer.SC
  /\ notna_sum (getitem mixed_data "YearsCode") = 2
  /\ SurveyAnalyzer.get_distribution self "YearsCode" None
     = Ok [("5", (100 # 2)%Q)]
  /\ (sum (map snd [("5", (100 # 2)%Q)]) == 50)%Q
  /\ ~ (sum (map snd [("5", (100 # 2)%Q)]) == 100)%Q
  /\ exists r,
      SoLib.distribution_sc mixed_so_data "YearsCode" = Ok r
      /\ In (VInt 5, (100 # 2)%Q) (SoLib.distribution r)
      /\ In (VStr "5", (100 # 2)%Q) (SoLib.distribution r)
      /\ (sum (map snd (SoLib.distribution r)) == 100)%Q.
Proof.
  cbv zeta. repeat split; try (vm_compute; reflexivity).
  - vm_compute. discriminate.
  - eexists. split; [vm_compute; reflexivity|]. simpl.
    split; [auto|]. split; [auto|]. vm_compute. reflexivity.
Qed.

(* ================================================================= *)
(** * Further properties *)

Import MoreTerms PyText.

(* ================================================================= *)
(** ** Subsets and the distributions over them *)

Lemma select_Subsequence {A : Type} (mask : list bool) (l : list A) :
  Subsequence (select mask l) l.
Proof.
  revert mask. induction l as [|x l IH]; intros mask.
  - destruct mask as [|b mask]; constructor.
  - destruct mask as [|b mask]; simpl.
    + constructor. apply (IH []).
    + destruct b; constructor; apply IH.
Qed.

Lemma get_distribution_total self question subset_df :
  In question (columns (rowset self subset_df)) ->
  exists d, SurveyAnalyzer.get_distribution self question subset_df = Ok d.
Proof.
  intros I. apply has_column_true in I.
  unfold SurveyAnalyzer.get_distribution. fold (rowset self subset_df).
  rewrite I. simpl.
  destruct (notna_sum (getitem (rowset self subset_df) question) =? 0);
    eexists; reflexivity.
Qed.

(** A subset that [create_subset] returns is the table under a mask. *)
Lemma any_create_subset_mask re self question option sub :
  AnyRegex.create_subset re self question option = Ok sub ->
  exists mask, sub = loc_mask (SurveyAnalyzer.df self) mask.
Proof.
  unfold AnyRegex.create_subset.
  destruct (has_column (SurveyAnalyzer.df self) question); simpl; [|discriminate].
  destruct (SurveyAnalyzer.is_MC self question).
  - destruct (AnyRegex.str_contains re _ option false) as [m|e|]; simpl;
      try discriminate.
    intros [= <-]. eexists. reflexivity.
  - simpl. intros [= <-]. eexists. reflexivity.
Qed.

Lemma any_create_subset_selection re self question option sub :
  AnyRegex.create_subset re self question option = Ok sub ->
  selection_of self (Some sub).
Proof.
  intros C. apply any_create_subset_mask in C. destruct C as (mask & ->).
  split; [reflexivity|apply select_Subsequence].
Qed.

(** Under an engine a call raises or returns: nothing is left open. *)
Lemma any_create_subset_raises re self question option e :
  AnyRegex.create_subset re self question option = Raise e ->
  e = SurveyAnalyzer.not_found question "survey"
  \/ e = AttributeError \/ e = re_error.
Proof.
  unfold AnyRegex.create_subset.
  destruct (has_column (SurveyAnalyzer.df self) question); simpl;
    [|intros [= <-]; now left].
  destruct (SurveyAnalyzer.is_MC self question); simpl; [|discriminate].
  unfold AnyRegex.str_contains.
  destruct (has_str_accessor _); simpl; [|intros [= <-]; auto].
  destruct (re option true); simpl; [discriminate|intros [= <-]; auto].
Qed.

Lemma any_create_subset_modelled re self question option :
  AnyRegex.create_subset re self question option <> Unsupported.
Proof.
  unfold AnyRegex.create_subset.
  destruct (has_column (SurveyAnalyzer.df self) question); simpl; [|discriminate].
  destruct (SurveyAnalyzer.is_MC self question); simpl; [|discriminate].
  unfold AnyRegex.str_contains.
  destruct (has_str_accessor _); simpl; [|discriminate].
  destruct (re option true); simpl; discriminate.
Qed.

(** An engine that extends the embedded fragment gives what the fragment
    gives, wherever the fragment gives something. *)
Lemma any_create_subset_fragment re self question option r :
  AnyRegex.extends_fragment re ->
  SurveyAnalyzer.create_subset self question option = r ->
  r <> Unsupported ->
  AnyRegex.create_subset re self question option = r.
Proof.
  intros X <- N. revert N.
  unfold SurveyAnalyzer.create_subset, AnyRegex.create_subset.
  destruct (has_column (SurveyAnalyzer.df self) question); simpl; [|reflexivity].
  destruct (SurveyAnalyzer.is_MC self question); simpl; [|reflexivity].
  unfold str_contains, AnyRegex.str_contains.
  destruct (has_str_accessor _); simpl; [|reflexivity].
  destruct (re_compile option) as [p|] eqn:C; simpl; [|contradiction].
  intros _. destruct (X option p true C) as (search & -> & E). simpl.
  do 3 f_equal. apply map_ext. intros [[t|n]|]; auto.
Qed.

(** X1. Whatever the option, and whatever regular-expression engine
    compiles it, [create_subset] raises (the question is no column, the
    column has no text, the engine rejects the pattern) or returns a subset
    that has the columns of the table and, in table order, some of its rows;
    [get_distribution] over the subset then returns a distribution for every
    column of the table.  Under an engine that extends the embedded fragment
    the call gives what [SurveyAnalyzer.create_subset] gives, wherever that
    is not [Unsupported]. *)
Theorem create_subset_keeps_table (re : AnyRegex.engine)
    (self : SurveyAnalyzer.t) (question option : string) :
  match AnyRegex.create_subset re self question option with
  | Ok sub =>
      columns sub = columns (SurveyAnalyzer.df self)
      /\ Subsequence (rows sub) (rows (SurveyAnalyzer.df self))
      /\ forall question',
          In question' (columns (SurveyAnalyzer.df self)) ->
          exists d,
            SurveyAnalyzer.get_distribution self question' (Some sub) = Ok d
  | Raise e =>
      e = SurveyAnalyzer.not_found question "survey"
      \/ e = AttributeError \/ e = re_error
  | Unsupported => False
  end
  /\ (AnyRegex.extends_fragment re ->
      forall r,
        SurveyAnalyzer.create_subset self question option = r ->
        r <> Unsupported ->
        AnyRegex.create_subset re self question option = r).
Proof.
  split; [|intros X r; now apply any_create_subset_fragment].
  destruct (AnyRegex.create_subset re self question option) as [sub|e|] eqn:C.
  - destruct (any_create_subset_selection _ _ _ _ _ C) as [Ec S].
    repeat split; try assumption.
    intros question' I. apply get_distribution_total. simpl. now rewrite Ec.
  - now apply (any_create_subset_raises re self question option).
  - now apply (any_create_subset_modelled re self question option).
Qed.

(** The option ["C++"], which the engine [strict] rejects, and the option
    ["Java"]. *)
Lemma create_subset_keeps_table_witness :
  AnyRegex.create_subset AnyRegex.strict analyzer "Languages" "C++"
  = Raise re_error
  /\ Subsequence
       [ [num 1; txt "USA"; txt "Python;JavaScript"; num 5; None];
         [num 3; txt "Canada"; txt "JavaScript;Java"; num 7; None];
         [num 4; txt "USA"; txt "Python;Java"; num 2; None];
         [num 5; txt "UK"; txt "JavaScript"; num 4; None] ]
       (rows sample_data).
Proof.
  split; [reflexivity|].
  exact (proj1 (proj2 (proj1 (create_subset_keeps_table AnyRegex.strict analyzer
                                "Languages" "java")))).
Defined.

Lemma bump_same (v : value) (k : nat) : bump [(v, k)] v = [(v, k + 1)].
Proof.
  assert (E : value_eqb v v = true) by now apply value_eqb_eq.
  unfold bump, dict_get_default. simpl. rewrite E. reflexivity.
Qed.

Lemma tally_repeat (v : value) (k n : nat) :
  fold_left bump (repeat v n) [(v, k)] = [(v, k + n)].
Proof.
  revert k. induction n as [|n IH]; intros k; simpl.
  - now rewrite Nat.add_0_r.
  - rewrite bump_same, IH. do 2 f_equal. lia.
Qed.

Lemma value_counts_repeat (v : value) (n : nat) :
  value_counts (repeat (Some v) (S n)) = [(v, S n)].
Proof.
  unfold value_counts, tally.
  assert (E : dropna (repeat (Some v) (S n)) = repeat v (S n)).
  { generalize (S n). intros m. induction m as [|m IH]; simpl; congruence. }
  rewrite E. simpl repeat. cbn [fold_left].
  change (bump [] v) with [(v, 0 + 1)].
  rewrite tally_repeat. reflexivity.
Qed.

Lemma map_filter_repeat {A B : Type} (f : A -> bool) (g : A -> B) (b : B)
    (l : list A) :
  (forall x, f x = true -> g x = b) ->
  map g (filter f l) = repeat b (List.length (filter f l)).
Proof.
  intros H. induction l as [|x l IH]; simpl; [reflexivity|].
  destruct (f x) eqn:E; simpl; [|assumption]. now rewrite (H x E), IH.
Qed.

(** X2. For a question that is not typed [MC], the subset of an option and
    then the distribution of the same question over that subset: the
    distribution is empty when no row has the option, and otherwise it is the
    single entry of the option, at 100 percent. *)
Theorem subset_then_distribution (self : SurveyAnalyzer.t)
    (question option : string) :
  In question (columns (SurveyAnalyzer.df self)) ->
  SurveyAnalyzer.is_MC self question = false ->
  exists sub,
    SurveyAnalyzer.create_subset self question option = Ok sub
    /\ ((rows sub = []
         /\ SurveyAnalyzer.get_distribution self question (Some sub) = Ok [])
        \/ (rows sub <> []
            /\ exists pct,
                SurveyAnalyzer.get_distribution self question (Some sub)
                = Ok [(option, pct)]
                /\ (pct == 100)%Q)).
Proof.
  intros I M. rewrite (create_subset_SC _ _ option I M). eexists.
  split; [reflexivity|].
  set (f := fun r : list cell =>
              match cell_of (SurveyAnalyzer.df self) question r with
              | Some (VStr t) => String.eqb t option
              | _ => false
              end).
  set (sub := {| columns := columns (SurveyAnalyzer.df self);
                 rows := filter f (rows (SurveyAnalyzer.df self)) |}).
  assert (G : getitem sub question
              = repeat (Some (VStr option))
                  (List.length (filter f (rows (SurveyAnalyzer.df self))))).
  { rewrite (getitem_cells sub question I). subst sub. simpl.
    apply map_filter_repeat. intros r. unfold f, cell_of. simpl.
    destruct (position question (columns (SurveyAnalyzer.df self))); [|discriminate].
    destruct (nth n r None) as [[t|z]|]; try discriminate.
    intros E. apply String.eqb_eq in E. now subst. }
  unfold SurveyAnalyzer.get_distribution.
  change (has_column sub question) with (has_column (SurveyAnalyzer.df self) question).
  rewrite (proj2 (has_column_true _ _) I), M. simpl negb. cbv iota.
  rewrite G. change (rows sub) with (filter f (rows (SurveyAnalyzer.df self))).
  destruct (filter f (rows (SurveyAnalyzer.df self))) as [|r rs].
  - left. split; reflexivity.
  - right. split; [discriminate|]. simpl List.length.
    assert (T : notna_sum (repeat (Some (VStr option)) (S (List.length rs)))
                = S (List.length rs)).
    { rewrite notna_sum_dropna. generalize (S (List.length rs)). intros m.
      induction m as [|m IH]; simpl; congruence. }
    rewrite T, value_counts_repeat. simpl.
    eexists. split; [reflexivity|]. now apply percent_all.
Qed.

Lemma subset_then_distribution_witness :
  exists sub pct,
    SurveyAnalyzer.create_subset analyzer "Country" "USA" = Ok sub
    /\ SurveyAnalyzer.get_distribution analyzer "Country" (Some sub)
       = Ok [("USA", pct)].
Proof.
  assert (I : In "Country" (columns (SurveyAnalyzer.df analyzer)))
    by (vm_compute; auto).
  assert (M : SurveyAnalyzer.is_MC analyzer "Country" = false) by reflexivity.
  destruct (subset_then_distribution analyzer "Country" "USA" I M)
    as (sub & C & [[E _]|(_ & pct & G & _)]).
  - exfalso. vm_compute in C. injection C as <-. discriminate.
  - exists sub, pct. split; assumption.
Defined.

(* ================================================================= *)
(** ** Shape of a distribution *)

Lemma dict_set_not_nil {K V : Type} `{Hashable K} (d : dict K V) k v :
  dict_set d k v <> [].
Proof.
  destruct d as [|[k0 v0] d]; simpl; [discriminate|].
  destruct (key_eqb k0 k); discriminate.
Qed.

Lemma fold_dict_set_not_nil {K V A : Type} `{Hashable K}
    (key : A -> K) (val : dict K V -> A -> V) (xs : list A) (d : dict K V) :
  d <> [] \/ xs <> [] ->
  fold_left (fun d x => dict_set d (key x) (val d x)) xs d <> [].
Proof.
  revert d. induction xs as [|x xs IH]; intros d N; simpl.
  - destruct N as [N|N]; [assumption|contradiction].
  - apply IH. left. apply dict_set_not_nil.
Qed.

Lemma dict_of_items_not_nil {K V : Type} `{Hashable K} (items : list (K * V)) :
  items <> [] -> dict_of_items items <> [].
Proof.
  intros N. unfold dict_of_items.
  apply (fold_dict_set_not_nil fst (fun _ kv => snd kv)). now right.
Qed.

Lemma tally_not_nil {K : Type} `{Hashable K} (xs : list K) :
  xs <> [] -> fold_left incr xs [] <> [].
Proof.
  intros N. unfold incr.
  apply (fold_dict_set_not_nil (fun x => x)
           (fun d x => dict_get_default d x 0 + 1)). now right.
Qed.

Lemma unsorted_distribution_not_nil self question (s : Series) :
  notna_sum s <> 0 -> unsorted_distribution self question s <> [].
Proof.
  intros N. rewrite notna_sum_dropna in N. unfold unsorted_distribution.
  destruct (SurveyAnalyzer.is_MC self question); apply dict_of_items_not_nil;
    intros E; apply map_eq_nil in E; revert E.
  - rewrite count_options_tally. apply tally_not_nil.
    destruct (dropna s) as [|v vs]; [contradiction|]. unfold fragments. simpl.
    destruct (split ";"%char (str v)) eqn:S; [|discriminate].
    now apply split_nonempty in S.
  - unfold value_counts, tally. intros E.
    assert (T : fold_left bump (dropna s) [] = []).
    { pose proof (sort_desc_perm count_lt (fold_left bump (dropna s) [])) as P.
      rewrite E in P. now apply Permutation_sym, Permutation_nil in P. }
    revert T. apply (tally_not_nil (K:=value)).
    intros D. rewrite D in N. contradiction.
Qed.

(** X3. For a question of the row set, [get_distribution] returns the empty
    distribution exactly when the column has no non-null cell, and then
    [display_distribution] shows the single row [No responses], whatever
    [top_n] is. *)
Theorem no_responses (self : SurveyAnalyzer.t) (question : string)
    (subset_df : option DataFrame) :
  In question (columns (rowset self subset_df)) ->
  exists d,
    SurveyAnalyzer.get_distribution self question subset_df = Ok d
    /\ (d = [] <-> notna_sum (getitem (rowset self subset_df) question) = 0)
    /\ (d = [] ->
        forall top_n,
          SurveyAnalyzer.display_distribution self question subset_df top_n
          = Ok [("No responses", inject_Z 0)]).
Proof.
  intros I. destruct (get_distribution_total _ _ _ I) as (d & G). exists d.
  split; [assumption|]. split.
  - pose proof (get_distribution_Ok _ _ _ _ G) as O. cbv zeta in O.
    destruct O as [_ [[Z ->]|(N & -> & _)]]; [tauto|].
    split; [|contradiction]. intros E. exfalso.
    apply (unsorted_distribution_not_nil self question _ N).
    pose proof (sorted_desc_perm
                  (unsorted_distribution self question
                     (getitem (rowset self subset_df) question))) as P.
    rewrite E in P. now apply Permutation_sym, Permutation_nil in P.
  - intros -> top_n. unfold SurveyAnalyzer.display_distribution. now rewrite G.
Qed.

Lemma no_responses_witness :
  SurveyAnalyzer.display_distribution analyzer "EmptyColumn" None (Some 10%Z)
  = Ok [("No responses", inject_Z 0)].
Proof.
  assert (I : In "EmptyColumn" (columns (rowset analyzer None)))
    by (vm_compute; auto 10).
  destruct (no_responses analyzer "EmptyColumn" None I) as (d & G & E & D).
  apply D. apply E. reflexivity.
Defined.

(** X4. No option has two entries in a distribution that [get_distribution]
    returns. *)
Theorem distribution_options_distinct (self : SurveyAnalyzer.t)
    (question : string) (subset_df : option DataFrame) (d : dict string Q) :
  SurveyAnalyzer.get_distribution self question subset_df = Ok d ->
  NoDup (keys d).
Proof.
  intros G. apply get_distribution_Ok in G. cbv zeta in G.
  destruct G as [_ [[_ ->]|(_ & -> & ND)]]; [constructor|].
  eapply Permutation_NoDup; [|exact ND].
  apply Permutation_map, sorted_desc_perm.
Qed.

Lemma distribution_options_distinct_witness :
  NoDup ["Python"; "JavaScript"; "Java"].
Proof.
  exact (distribution_options_distinct analyzer "Languages" None
           [("Python", (300 # 5)%Q); ("JavaScript", (300 # 5)%Q);
            ("Java", (200 # 5)%Q)] eq_refl).
Defined.

Lemma occurrences_le_length {K : Type} `{Hashable K} (k : K) (xs : list K) :
  occurrences k xs <= List.length xs.
Proof. unfold occurrences. apply filter_length_le. Qed.

Lemma occurrences_app {K : Type} `{Hashable K} (k : K) (xs ys : list K) :
  occurrences k (xs ++ ys) = occurrences k xs + occurrences k ys.
Proof. unfold occurrences. now rewrite filter_app, length_app. Qed.

Lemma occurrences_NoDup (k : string) (xs : list string) :
  NoDup xs -> occurrences k xs <= 1.
Proof.
  induction 1 as [|x xs N ND IH]; [apply Nat.le_0_l|].
  unfold occurrences in *. simpl.
  destruct (String.eqb k x) eqn:E; [|assumption].
  apply String.eqb_eq in E. subst x. simpl.
  assert (Z : filter (String.eqb k) xs = []).
  { clear IH ND. induction xs as [|y xs IHx]; [reflexivity|]. simpl.
    destruct (String.eqb k y) eqn:Ey.
    - apply String.eqb_eq in Ey. subst y. exfalso. apply N. now left.
    - apply IHx. intros I. apply N. now right. }
  change (key_eqb k) with (String.eqb k). rewrite Z. simpl. lia.
Qed.

Lemma occurrences_fragments_le (opt : string) (vals : list value) :
  (forall val, In val vals -> NoDup (map strip (split ";"%char (str val)))) ->
  occurrences opt (map strip (fragments vals)) <= List.length vals.
Proof.
  induction vals as [|v vs IH]; intros U; [apply Nat.le_0_l|].
  unfold fragments. simpl. rewrite map_app, occurrences_app.
  pose proof (occurrences_NoDup opt _ (U v (or_introl eq_refl))) as O.
  assert (O' : occurrences opt (map strip (fragments vs)) <= List.length vs).
  { apply IH. intros val Iv. apply U. now right. }
  unfold fragments in O'. lia.
Qed.

Lemma percent_le_100 (count total : nat) :
  count <= total -> total <> 0 -> (percent count total <= 100)%Q.
Proof.
  intros L N. unfold percent.
  setoid_replace (100 : Q) with (1 * inject_Z 100)%Q by ring.
  apply Qmult_le_compat_r; [|discriminate].
  apply Qle_shift_div_r; [now apply inject_nat_pos|].
  rewrite Qmult_1_l. rewrite <- Zle_Qle. lia.
Qed.

(** X5. A percentage of [get_distribution] is at most 100 for a question
    that is not typed [MC]; for one typed [MC] it is when no cell names an
    option twice. *)
Theorem percentage_at_most_100 (self : SurveyAnalyzer.t) (question : string)
    (subset_df : option DataFrame) (d : dict string Q) (opt : string) (pct : Q) :
  SurveyAnalyzer.get_distribution self question subset_df = Ok d ->
  In (opt, pct) d ->
  (SurveyAnalyzer.is_MC self question = true ->
   forall val,
     In (Some val) (getitem (rowset self subset_df) question) ->
     NoDup (map strip (split ";"%char (str val)))) ->
  (pct <= 100)%Q.
Proof.
  intros G I U. destruct (get_distribution_entry _ _ _ _ _ _ G I) as [T E].
  destruct (SurveyAnalyzer.is_MC self question).
  - destruct E as (n & -> & _ & ->). apply percent_le_100; [|assumption].
    rewrite notna_sum_dropna.
    apply occurrences_fragments_le.
    intros val Iv. apply U; [reflexivity|now apply In_dropna].
  - destruct E as (val & n & -> & -> & _ & _ & ->).
    apply percent_le_100; [|assumption].
    rewrite notna_sum_dropna. apply occurrences_le_length.
Qed.

Lemma percentage_at_most_100_witness : (200 # 5 <= 100)%Q.
Proof.
  apply (percentage_at_most_100 analyzer "Country" None
           [("USA", (200 # 5)%Q); ("UK", (200 # 5)%Q); ("Canada", (100 # 5)%Q)]
           "USA" (200 # 5)%Q).
  - vm_compute. reflexivity.
  - simpl. auto.
  - intros M. vm_compute in M. discriminate.
Defined.

(* ================================================================= *)
(** ** [display_distribution] at the bounds of [top_n] *)

(** X6. For a distribution that is not empty: a [top_n] at least its number
    of entries shows every entry and no row [Others]; a negative [top_n] is
    a slice bound counted from the end, so [top_n = -k] shows all but the
    last [k] entries (none when [k] exceeds their number) and sums the rest
    under [Others]. *)
Theorem display_distribution_bounds (self : SurveyAnalyzer.t) (question : string)
    (subset_df : option DataFrame) (d : dict string Q) :
  SurveyAnalyzer.get_distribution self question subset_df = Ok d ->
  d <> [] ->
  (forall n : Z,
      (Z.of_nat (List.length d) <= n)%Z ->
      SurveyAnalyzer.display_distribution self question subset_df (Some n)
      = Ok (shown d))
  /\ (forall k : nat,
         0 < k ->
         SurveyAnalyzer.display_distribution self question subset_df
           (Some (- Z.of_nat k)%Z)
         = Ok (shown (firstn (List.length d - k) d)
               ++ [("Others",
                    round2 (sum (map snd (skipn (List.length d - k) d))))])).
Proof.
  intros G N. unfold SurveyAnalyzer.display_distribution. rewrite G. simpl bind.
  destruct d as [|e d]; [contradiction|]. split.
  - intros n L.
    assert (Z : (n =? 0)%Z = false) by (apply Z.eqb_neq; simpl in L; lia).
    assert (B : (n <? Z.of_nat (List.length (e :: d)))%Z = false)
      by (apply Z.ltb_ge; lia).
    unfold SurveyAnalyzer.truthy. rewrite Z, B. simpl negb. cbv iota. simpl andb.
    cbv iota. unfold slice_to, slice_bound.
    assert (P : (n <? 0)%Z = false) by (apply Z.ltb_ge; lia). rewrite P.
    rewrite firstn_all2; [reflexivity|]. lia.
  - intros k P.
    assert (Z : (- Z.of_nat k =? 0)%Z = false) by (apply Z.eqb_neq; lia).
    assert (B : (- Z.of_nat k <? Z.of_nat (List.length (e :: d)))%Z = true)
      by (apply Z.ltb_lt; lia).
    unfold SurveyAnalyzer.truthy. rewrite Z, B. simpl negb. cbv iota. simpl andb.
    cbv iota. unfold slice_to, slice_from, slice_bound.
    assert (Q : (- Z.of_nat k <? 0)%Z = true) by (apply Z.ltb_lt; lia). rewrite Q.
    replace (Z.to_nat (Z.of_nat (List.length (e :: d)) + - Z.of_nat k))
      with (List.length (e :: d) - k) by lia.
    reflexivity.
Qed.

Lemma display_distribution_bounds_witness :
  SurveyAnalyzer.display_distribution analyzer "Country" None (Some (-1)%Z)
  = Ok [("USA", round2 (200 # 5)); ("UK", round2 (200 # 5));
        ("Others", round2 (sum [(100 # 5)%Q]))].
Proof.
  assert (G : SurveyAnalyzer.get_distribution analyzer "Country" None
              = Ok [("USA", (200 # 5)%Q); ("UK", (200 # 5)%Q);
                    ("Canada", (100 # 5)%Q)])
    by (vm_compute; reflexivity).
  assert (N : [("USA", (200 # 5)%Q); ("UK", (200 # 5)%Q); ("Canada", (100 # 5)%Q)]
              <> []) by discriminate.
  destruct (display_distribution_bounds analyzer "Country" None _ G N) as (_ & T).
  assert (L : 0 < 1) by lia.
  exact (T 1 L).
Defined.

(* ================================================================= *)
(** ** [search_options], exactly *)

Lemma In_set_add acc y x :
  In x (SurveyAnalyzer.set_add acc y) <-> In x acc \/ x = y.
Proof.
  unfold SurveyAnalyzer.set_add.
  destruct (existsb (String.eqb y) acc) eqn:E.
  - split; [now left|]. intros [I|Exy]; [assumption|]. subst x.
    apply existsb_exists in E. destruct E as (z & Iz & Ez).
    apply String.eqb_eq in Ez. now subst.
  - rewrite in_app_iff. simpl. intuition congruence.
Qed.

Lemma In_set_add_iff xs acc x :
  In x (fold_left SurveyAnalyzer.set_add xs acc) <-> In x acc \/ In x xs.
Proof.
  revert acc. induction xs as [|y xs IH]; intros acc; simpl.
  - tauto.
  - rewrite IH, In_set_add. intuition congruence.
Qed.

Lemma NoDup_set_add xs acc :
  NoDup acc -> NoDup (fold_left SurveyAnalyzer.set_add xs acc).
Proof.
  revert acc. induction xs as [|y xs IH]; intros acc ND; simpl; [assumption|].
  apply IH. unfold SurveyAnalyzer.set_add.
  destruct (existsb (String.eqb y) acc) eqn:E; [assumption|].
  apply NoDup_snoc; [assumption|]. intros I.
  assert (X : existsb (String.eqb y) acc = true); [|congruence].
  apply existsb_exists. exists y. split; [assumption|apply String.eqb_refl].
Qed.

Lemma all_options_iff (vals : list value) acc x :
  In x (fold_left
          (fun acc val =>
             fold_left SurveyAnalyzer.set_add
               (map strip (split ";"%char (str val))) acc)
          vals acc)
  <-> In x acc
      \/ exists val, In val vals /\ In x (map strip (split ";"%char (str val))).
Proof.
  split; [apply In_all_options|].
  revert acc. induction vals as [|v vals IH]; intros acc; simpl.
  - intros [I|(val & [] & _)]. exact I.
  - intros [I|(val & [->|Iv] & Ix)]; apply IH.
    + left. apply In_set_add_iff. now left.
    + left. apply In_set_add_iff. now right.
    + right. now exists val.
Qed.

Lemma NoDup_all_options (vals : list value) acc :
  NoDup acc ->
  NoDup (fold_left
           (fun acc val =>
              fold_left SurveyAnalyzer.set_add
                (map strip (split ";"%char (str val))) acc)
           vals acc).
Proof.
  revert acc. induction vals as [|v vals IH]; intros acc ND; simpl; [assumption|].
  apply IH. now apply NoDup_set_add.
Qed.

Lemma insert_str_perm x l : Permutation (x :: l) (insert_str x l).
Proof.
  induction l as [|y l IH]; simpl; [reflexivity|].
  destruct (String.ltb x y); [reflexivity|].
  rewrite perm_swap. now constructor.
Qed.

Lemma sorted_str_perm l : Permutation l (sorted_str l).
Proof.
  induction l as [|x l IH]; simpl; [constructor|].
  rewrite <- insert_str_perm. now constructor.
Qed.

Lemma ltb_asym a b : String.ltb a b = true -> String.ltb b a = false.
Proof.
  unfold String.ltb. rewrite (String.compare_antisym b a).
  destruct (String.compare a b); simpl; congruence.
Qed.

Lemma insert_str_Sorted x l : Sorted str_le l -> Sorted str_le (insert_str x l).
Proof.
  induction 1 as [|y l S IH Hd]; simpl.
  - repeat constructor.
  - destruct (String.ltb x y) eqn:E.
    + constructor; [now constructor|]. constructor. now apply ltb_asym.
    + constructor; [assumption|].
      destruct l as [|z l]; simpl; [now constructor|].
      inversion Hd; subst. destruct (String.ltb x z); now constructor.
Qed.

Lemma sorted_str_Sorted l : Sorted str_le (sorted_str l).
Proof.
  induction l as [|x l IH]; simpl; [constructor|].
  now apply insert_str_Sorted.
Qed.

Lemma In_unique_acc_iff seen vs v :
  In v vs -> In v (unique_acc seen vs) \/ In v seen.
Proof.
  revert seen. induction vs as [|w vs IH]; intros seen; simpl; [intros []|].
  destruct (existsb (value_eqb w) seen) eqn:E.
  - intros [->|I]; [|now apply IH].
    right. apply existsb_exists in E. destruct E as (z & Iz & Ez).
    apply value_eqb_eq in Ez. now subst.
  - intros [->|I]; [left; now left|].
    destruct (IH (w :: seen) I) as [I'|[->|I']]; [left; now right|left; now left|now right].
Qed.

Lemma In_unique_iff vs v : In v (unique vs) <-> In v vs.
Proof.
  split; [apply In_unique|]. intros I.
  destruct (In_unique_acc_iff [] vs v I) as [I'|[]]. exact I'.
Qed.

(** X7. [SurveyAnalyzer.search_options] returns, in ascending order, exactly
    the options of the question that contain the keyword, case ignored: for
    a question typed [MC] the stripped fragments of its non-null cells, each
    once; otherwise the strings of its non-null cells. *)
Theorem search_options_exact (self : SurveyAnalyzer.t)
    (question keyword : string) (opts : list string) :
  SurveyAnalyzer.search_options self question keyword = Ok opts ->
  Sorted str_le opts
  /\ (forall o,
         In o opts
         <-> contains (lower keyword) (lower o) = true
             /\ if SurveyAnalyzer.is_MC self question
                then stripped_fragment_of (getitem (SurveyAnalyzer.df self) question) o
                else exists val,
                    In (Some val) (getitem (SurveyAnalyzer.df self) question)
                    /\ o = str val)
  /\ (SurveyAnalyzer.is_MC self question = true -> NoDup opts).
Proof.
  unfold SurveyAnalyzer.search_options.
  destruct (has_column (SurveyAnalyzer.df self) question); simpl; [|discriminate].
  intros [= <-]. split; [apply sorted_str_Sorted|].
  destruct (SurveyAnalyzer.is_MC self question).
  - split.
    + intros o. rewrite In_sorted_str, filter_In, all_options_iff. split.
      * intros [[[]|(val & Iv & Ix)] C]. split; [assumption|].
        apply in_map_iff in Ix. destruct Ix as (f & <- & If).
        exists val, f. split; [now apply In_dropna|]. now split.
      * intros [C (val & f & Iv & If & ->)]. split; [|assumption].
        right. exists val. split; [now apply In_dropna|now apply in_map].
    + intros _. eapply Permutation_NoDup; [apply sorted_str_perm|].
      apply NoDup_filter. apply NoDup_all_options. constructor.
  - split; [|discriminate].
    intros o. rewrite In_sorted_str, in_map_iff. split.
    + intros (val & <- & I). apply filter_In in I. destruct I as [I C].
      split; [assumption|]. exists val.
      split; [now apply In_dropna, In_unique_iff|reflexivity].
    + intros [C (val & Iv & ->)]. exists val. split; [reflexivity|].
      apply filter_In. split; [|assumption].
      now apply In_unique_iff, In_dropna.
Qed.

Lemma search_options_exact_witness :
  In "JavaScript" ["Java"; "JavaScript"] /\ NoDup ["Java"; "JavaScript"].
Proof.
  destruct (search_options_exact analyzer "Languages" "Java"
              ["Java"; "JavaScript"] eq_refl) as (_ & E & N).
  split; [|now apply N].
  apply E. split; [reflexivity|].
  exists (VStr "Python;JavaScript"), "JavaScript".
  split; [vm_compute; auto|]. split; [simpl; auto|reflexivity].
Defined.

(* ================================================================= *)
(** ** The catalog, in column order *)

Lemma analyze_column_keys self c :
  keys (SurveyAnalyzer.questions (SurveyAnalyzer.analyze_column self c))
  = if String.eqb c "ResponseId" then keys (SurveyAnalyzer.questions self)
    else if in_dec string_dec c (keys (SurveyAnalyzer.questions self))
         then keys (SurveyAnalyzer.questions self)
         else keys (SurveyAnalyzer.questions self) ++ [c].
Proof.
  unfold SurveyAnalyzer.analyze_column.
  destruct (String.eqb c "ResponseId"); [reflexivity|].
  cbn [SurveyAnalyzer.questions]. rewrite keys_dict_set.
  destruct (in_dec key_eq_dec c (keys (SurveyAnalyzer.questions self)));
    destruct (in_dec string_dec c (keys (SurveyAnalyzer.questions self)));
    tauto.
Qed.

Lemma fold_analyze_keys cols self :
  NoDup (keys (SurveyAnalyzer.questions self) ++ cols) ->
  keys (SurveyAnalyzer.questions (fold_left SurveyAnalyzer.analyze_column cols self))
  = keys (SurveyAnalyzer.questions self) ++ question_columns cols.
Proof.
  revert self. induction cols as [|c cols IH]; intros self ND; simpl.
  - now rewrite app_nil_r.
  - assert (Nc : ~ In c (keys (SurveyAnalyzer.questions self))).
    { apply NoDup_remove_2 in ND. intros I. apply ND, in_or_app. now left. }
    assert (ND' : NoDup (keys (SurveyAnalyzer.questions self) ++ cols))
      by now apply NoDup_remove_1 in ND.
    assert (Nc' : ~ In c cols).
    { apply NoDup_remove_2 in ND. intros I. apply ND, in_or_app. now right. }
    assert (K := analyze_column_keys self c).
    unfold question_columns. simpl.
    destruct (String.eqb c "ResponseId") eqn:R; simpl.
    + rewrite IH; rewrite K; [reflexivity|assumption].
    + destruct (in_dec string_dec c (keys (SurveyAnalyzer.questions self)));
        [contradiction|].
      rewrite IH; rewrite K; rewrite <- app_assoc; [reflexivity|exact ND].
Qed.

(** [questions] and [question_types] are filled together. *)
Lemma analyze_column_same_keys self c :
  keys (SurveyAnalyzer.question_types self) = keys (SurveyAnalyzer.questions self) ->
  keys (SurveyAnalyzer.question_types (SurveyAnalyzer.analyze_column self c))
  = keys (SurveyAnalyzer.questions (SurveyAnalyzer.analyze_column self c)).
Proof.
  intros E. unfold SurveyAnalyzer.analyze_column.
  destruct (String.eqb c "ResponseId"); [exact E|].
  cbn [SurveyAnalyzer.questions SurveyAnalyzer.question_types].
  rewrite !keys_dict_set, E.
  destruct (in_dec key_eq_dec c (keys (SurveyAnalyzer.questions self)));
    reflexivity.
Qed.

Lemma fold_analyze_same_keys cols self :
  keys (SurveyAnalyzer.question_types self) = keys (SurveyAnalyzer.questions self) ->
  keys (SurveyAnalyzer.question_types
          (fold_left SurveyAnalyzer.analyze_column cols self))
  = keys (SurveyAnalyzer.questions
            (fold_left SurveyAnalyzer.analyze_column cols self)).
Proof.
  revert self. induction cols as [|c cols IH]; intros self E; simpl;
    [exact E|].
  apply IH. now apply analyze_column_same_keys.
Qed.

(** X8. When the column names are distinct, the catalog lists the columns
    other than [ResponseId], in column order, [question_types] has the same
    keys in the same order, and [search_questions] returns those of them
    that contain the keyword, case ignored, in that order. *)
Theorem catalog_in_column_order (data : DataFrame) :
  NoDup (columns data) ->
  keys (SurveyAnalyzer.get_survey_structure (SurveyAnalyzer.init data))
  = question_columns (columns data)
  /\ keys (SurveyAnalyzer.question_types (SurveyAnalyzer.init data))
     = question_columns (columns data)
  /\ forall keyword,
      SurveyAnalyzer.search_questions (SurveyAnalyzer.init data) keyword
      = filter (fun q => contains (lower keyword) (lower q))
          (question_columns (columns data)).
Proof.
  intros ND.
  assert (K : keys (SurveyAnalyzer.questions (SurveyAnalyzer.init data))
              = question_columns (columns data)).
  { unfold SurveyAnalyzer.init, SurveyAnalyzer._analyze_structure.
    now rewrite fold_analyze_keys. }
  split; [exact K|]. split.
  - rewrite <- K. unfold SurveyAnalyzer.init, SurveyAnalyzer._analyze_structure.
    now apply fold_analyze_same_keys.
  - intros keyword. unfold SurveyAnalyzer.search_questions. now rewrite K.
Qed.

Lemma catalog_in_column_order_witness :
  keys (SurveyAnalyzer.get_survey_structure analyzer)
  = ["Country"; "Languages"; "YearsCode"; "EmptyColumn"]
  /\ keys (SurveyAnalyzer.question_types analyzer)
     = ["Country"; "Languages"; "YearsCode"; "EmptyColumn"].
Proof.
  assert (ND : NoDup (columns sample_data)).
  { simpl. repeat constructor; simpl; intuition discriminate. }
  split.
  - exact (proj1 (catalog_in_column_order sample_data ND)).
  - exact (proj1 (proj2 (catalog_in_column_order sample_data ND))).
Defined.

Lemma length_unique_acc_le seen vs :
  List.length (unique_acc seen vs) <= List.length vs.
Proof.
  revert seen. induction vs as [|v vs IH]; intros seen; simpl; [lia|].
  destruct (existsb (value_eqb v) seen); simpl.
  - specialize (IH seen). lia.
  - specialize (IH (v :: seen)). lia.
Qed.

Lemma length_dropna_le (s : Series) : List.length (dropna s) <= List.length s.
Proof.
  induction s as [|[v|] s IH]; simpl; lia.
Qed.

(** X9. In every catalog entry the number of unique values is at most the
    response count, which is at most the number of rows; the one is 0
    exactly when the other is. *)
Theorem catalog_counts (data : DataFrame) (col : string)
    (i : SurveyAnalyzer.info) :
  dict_get (SurveyAnalyzer.questions (SurveyAnalyzer.init data)) col = Some i ->
  SurveyAnalyzer.unique_values i <= SurveyAnalyzer.response_count i
  /\ SurveyAnalyzer.response_count i <= len data
  /\ (SurveyAnalyzer.unique_values i = 0
      <-> SurveyAnalyzer.response_count i = 0).
Proof.
  rewrite init_questions. destruct (analysed (columns data) col) eqn:A;
    [|discriminate].
  intros [= <-]. simpl. rewrite notna_sum_dropna.
  apply andb_true_iff in A. destruct A as [A _].
  assert (I : In col (columns data)) by now apply has_column_true.
  repeat split.
  - apply length_unique_acc_le.
  - rewrite <- (length_getitem data col I). apply length_dropna_le.
  - intros U. apply length_unique_0 in U. now rewrite U.
  - intros L. apply length_zero_iff_nil in L. now rewrite L.
Qed.

Lemma catalog_counts_witness : 3 <= 5 /\ 5 <= len sample_data.
Proof.
  destruct (catalog_counts sample_data "Country"
              {| SurveyAnalyzer.type := SurveyAnalyzer.SC;
                 SurveyAnalyzer.unique_values := 3;
                 SurveyAnalyzer.response_count := 5 |} eq_refl) as (A & B & _).
  split; assumption.
Defined.

(* ================================================================= *)
(** ** [display_survey_structure] and the command [structure] *)

Lemma structure_rows_index i j items :
  SurveyAnalyzer.structure_rows None i items
  = SurveyAnalyzer.structure_rows None j items.
Proof.
  revert i j. induction items as [|[q inf] items IH]; intros i j; simpl;
    [reflexivity|]. now rewrite (IH (S i) (S j)).
Qed.

Lemma structure_rows_zero i items :
  SurveyAnalyzer.structure_rows (Some 0%Z) i items
  = SurveyAnalyzer.structure_rows None i items.
Proof.
  revert i. induction items as [|[q inf] items IH]; intros i; simpl;
    [reflexivity|]. now rewrite IH.
Qed.

Lemma structure_rows_positive n i items :
  0 < n ->
  SurveyAnalyzer.structure_rows (Some (Z.of_nat n)) i items
  = firstn (n - i) (SurveyAnalyzer.structure_rows None i items).
Proof.
  intros P. revert i. induction items as [|[q inf] items IH]; intros i.
  - simpl. now rewrite firstn_nil.
  - cbn [SurveyAnalyzer.structure_rows SurveyAnalyzer.truthy].
    assert (Z : (Z.of_nat n =? 0)%Z = false) by (apply Z.eqb_neq; lia).
    rewrite Z. cbn [negb andb].
    destruct (Z.of_nat n <=? Z.of_nat i)%Z eqn:L.
    + apply Z.leb_le in L. replace (n - i) with 0 by lia. reflexivity.
    + apply Z.leb_gt in L. replace (n - i) with (S (n - S i)) by lia.
      cbn [firstn]. now rewrite IH.
Qed.

Lemma structure_rows_negative n i items :
  (n < 0)%Z -> SurveyAnalyzer.structure_rows (Some n) i items = [].
Proof.
  intros N. destruct items as [|[q inf] items]; [reflexivity|].
  cbn [SurveyAnalyzer.structure_rows SurveyAnalyzer.truthy].
  assert (Z : (n =? 0)%Z = false) by (apply Z.eqb_neq; lia).
  assert (L : (n <=? Z.of_nat i)%Z = true) by (apply Z.leb_le; lia).
  now rewrite Z, L.
Qed.

Lemma structure_rows_questions i items :
  map SurveyAnalyzer.Question (SurveyAnalyzer.structure_rows None i items)
  = map SurveyAnalyzer.shorten (keys items).
Proof.
  revert i. induction items as [|[q inf] items IH]; intros i; simpl;
    [reflexivity|]. now rewrite IH.
Qed.

Lemma length_substring_le n s : String.length (substring 0 n s) <= n.
Proof.
  revert s. induction n as [|n IH]; intros s.
  - destruct s; simpl; lia.
  - destruct s as [|c s]; simpl; [lia|]. specialize (IH s). lia.
Qed.

Lemma length_append s t :
  String.length (s ++ t)%string = String.length s + String.length t.
Proof. induction s as [|c s IH]; simpl; [reflexivity|]. now rewrite IH. Qed.

Lemma length_shorten q : String.length (SurveyAnalyzer.shorten q) <= 83.
Proof.
  unfold SurveyAnalyzer.shorten. destruct (80 <? String.length q) eqn:L.
  - rewrite length_append. pose proof (length_substring_le 80 q). simpl. lia.
  - apply Nat.ltb_ge in L. lia.
Qed.

(** X10. [display_survey_structure] lists one row per catalog entry, in
    catalog order, with the question name cut to 80 characters and ["..."]
    when it is longer.  A limit of [None] or 0 lists them all, a positive
    limit the first [limit] of them, a negative limit none. *)
Theorem display_survey_structure_limit (self : SurveyAnalyzer.t) :
  let all := SurveyAnalyzer.display_survey_structure self None in
  map SurveyAnalyzer.Question all
  = map SurveyAnalyzer.shorten (keys (SurveyAnalyzer.questions self))
  /\ (forall row, In row all -> String.length (SurveyAnalyzer.Question row) <= 83)
  /\ SurveyAnalyzer.display_survey_structure self (Some 0%Z) = all
  /\ (forall n : nat,
         0 < n ->
         SurveyAnalyzer.display_survey_structure self (Some (Z.of_nat n))
         = firstn n all)
  /\ (forall n : Z,
         (n < 0)%Z ->
         SurveyAnalyzer.display_survey_structure self (Some n) = []).
Proof.
  cbv zeta. unfold SurveyAnalyzer.display_survey_structure.
  split; [apply structure_rows_questions|].
  split; [|split; [apply structure_rows_zero|split]].
  - intros row I. apply (in_map SurveyAnalyzer.Question) in I.
    rewrite structure_rows_questions in I. apply in_map_iff in I.
    destruct I as (q & <- & _). apply length_shorten.
  - intros n P. rewrite structure_rows_positive by assumption.
    now rewrite Nat.sub_0_r.
  - intros n N. now apply structure_rows_negative.
Qed.

Lemma display_survey_structure_limit_witness :
  SurveyAnalyzer.display_survey_structure analyzer (Some 2%Z)
  = firstn 2 (SurveyAnalyzer.display_survey_structure analyzer None).
Proof.
  refine (proj1 (proj2 (proj2 (proj2 (display_survey_structure_limit analyzer))))
            2 _).
  lia.
Defined.

Lemma length_structure_rows i items :
  List.length (SurveyAnalyzer.structure_rows None i items) = List.length items.
Proof.
  revert i. induction items as [|[q inf] items IH]; intros i; simpl;
    [reflexivity|]. now rewrite IH.
Qed.

(** X11. The command [structure]: with a limit of at least the number of
    questions it draws them all and adds nothing; with a positive limit
    below that number it draws the first [limit] and adds the line
    [Showing limit of N]; with the limit 0 it draws all the questions and
    still adds [Showing 0 of N]. *)
Theorem structure_command (self : SurveyAnalyzer.t) (limit : nat) :
  let all := SurveyAnalyzer.display_survey_structure self None in
  let total := List.length (SurveyAnalyzer.questions self) in
  let header :=
    Cli.Echo (Cli.nl ++ "Survey Structure (" ++ Cli.str_of_nat total
              ++ " total questions):" ++ Cli.nl)%string in
  let footer (n : Z) :=
    Cli.Echo (Cli.nl ++ "Showing " ++ str_of_int n ++ " of "
              ++ Cli.str_of_nat total
              ++ " questions. Use --limit to see more.")%string in
  (total <= limit ->
   Cli.structure self (Z.of_nat limit) = [header; Cli.TabulateStructure all])
  /\ (0 < limit < total ->
      Cli.structure self (Z.of_nat limit)
      = [header; Cli.TabulateStructure (firstn limit all);
         footer (Z.of_nat limit)])
  /\ (0 < total ->
      Cli.structure self 0%Z = [header; Cli.TabulateStructure all; footer 0%Z]).
Proof.
  cbv zeta. unfold Cli.structure, SurveyAnalyzer.display_survey_structure.
  repeat split.
  - intros L.
    assert (B : (Z.of_nat limit
                 <? Z.of_nat (List.length (SurveyAnalyzer.questions self)))%Z
                = false) by (apply Z.ltb_ge; lia).
    rewrite B. simpl app. f_equal. f_equal. f_equal.
    destruct limit as [|n]; [apply structure_rows_zero|].
    rewrite structure_rows_positive by lia.
    apply firstn_all2. rewrite length_structure_rows. lia.
  - intros [L U].
    assert (B : (Z.of_nat limit
                 <? Z.of_nat (List.length (SurveyAnalyzer.questions self)))%Z
                = true) by (apply Z.ltb_lt; lia).
    rewrite B. simpl app. rewrite structure_rows_positive by assumption.
    now rewrite Nat.sub_0_r.
  - intros L.
    assert (B : (0 <? Z.of_nat (List.length (SurveyAnalyzer.questions self)))%Z
                = true) by (apply Z.ltb_lt; lia).
    rewrite B. simpl app. now rewrite structure_rows_zero.
Qed.

Lemma structure_command_witness :
  Cli.structure analyzer 2%Z
  = [ Cli.Echo (Cli.nl ++ "Survey Structure (4 total questions):" ++ Cli.nl)%string;
      Cli.TabulateStructure
        (firstn 2 (SurveyAnalyzer.display_survey_structure analyzer None));
      Cli.Echo (Cli.nl ++ "Showing 2 of 4 questions. Use --limit to see more.")%string ].
Proof.
  assert (L : 0 < 2 < List.length (SurveyAnalyzer.questions analyzer))
    by (vm_compute; lia).
  exact (proj1 (proj2 (structure_command analyzer 2)) L).
Defined.

(* ================================================================= *)
(** ** [so_lib]: schema lookups and question types *)

Lemma schema_field_missing {A : Type} (field : SoLib.schema_row -> A) sch question_id :
  (forall r, In r sch -> SoLib.column r <> question_id) ->
  SoLib.schema_field field sch question_id = Raise IndexError.
Proof.
  intros N. unfold SoLib.schema_field.
  replace (filter (fun r => String.eqb (SoLib.column r) question_id) sch)
    with (@nil SoLib.schema_row); [reflexivity|].
  symmetry. induction sch as [|r sch IH]; [reflexivity|]. simpl.
  rewrite (proj2 (String.eqb_neq _ _) (N r (or_introl eq_refl))).
  apply IH. intros r' I. apply N. now right.
Qed.

(** X12. A question that is a column of the raw data but has no row in the
    schema: [subset_respondents], [distribution_sc] and [distribution_mc]
    raise [IndexError], the failure of [.iloc[0]] on the empty selection,
    not a [ValueError]. *)
Theorem question_missing_in_schema (dat : SoLib.data) (question_id : string) :
  question_id <> "" ->
  In question_id (columns (SoLib.raw_data dat)) ->
  (forall r, In r (SoLib.schema dat) -> SoLib.column r <> question_id) ->
  (forall option,
      option <> "" ->
      SoLib.subset_respondents dat question_id option = Raise IndexError)
  /\ SoLib.distribution_sc dat question_id = Raise IndexError
  /\ SoLib.distribution_mc dat question_id = Raise IndexError.
Proof.
  intros E I N. apply String.eqb_neq in E. apply has_column_true in I.
  unfold SoLib.subset_respondents, SoLib.distribution_sc, SoLib.distribution_mc.
  rewrite E, I, (schema_field_missing SoLib.type _ _ N). simpl.
  repeat split. intros option O. apply String.eqb_neq in O. now rewrite O.
Qed.

Lemma question_missing_in_schema_witness :
  SoLib.distribution_sc
    {| SoLib.schema := []; SoLib.raw_data := SoLib.raw_data test_data |} "Q1"
  = Raise IndexError.
Proof.
  refine (proj1 (proj2 (question_missing_in_schema
                          {| SoLib.schema := [];
                             SoLib.raw_data := SoLib.raw_data test_data |}
                          "Q1" _ _ _))).
  - discriminate.
  - simpl. auto.
  - intros r [].
Defined.

(** X13. The two distribution functions check the schema type: for a
    question of the raw data whose schema type is not ['SC'],
    [distribution_sc] raises the [ValueError] "is not a single-choice
    question"; when it is not ['MC'], [distribution_mc] raises its
    counterpart.  So no question has both distributions. *)
Theorem distribution_type_check (dat : SoLib.data) (question_id ty : string) :
  question_id <> "" ->
  In question_id (columns (SoLib.raw_data dat)) ->
  SoLib.schema_field SoLib.type (SoLib.schema dat) question_id = Ok ty ->
  (ty <> "SC" ->
   SoLib.distribution_sc dat question_id
   = Raise (ValueError ("Question '" ++ question_id
                        ++ "' is not a single-choice question")%string))
  /\ (ty <> "MC" ->
      SoLib.distribution_mc dat question_id
      = Raise (ValueError ("Question '" ++ question_id
                           ++ "' is not a multiple-choice question")%string))
  /\ ~ (exists r r',
           SoLib.distribution_sc dat question_id = Ok r
           /\ SoLib.distribution_mc dat question_id = Ok r').
Proof.
  intros E I T. apply String.eqb_neq in E. apply has_column_true in I.
  unfold SoLib.distribution_sc, SoLib.distribution_mc.
  rewrite E, I, T. simpl. repeat split.
  - intros N. apply String.eqb_neq in N. now rewrite N.
  - intros N. apply String.eqb_neq in N. now rewrite N.
  - intros (r & r' & S & M).
    destruct (String.eqb ty "SC") eqn:Es; [|discriminate].
    apply String.eqb_eq in Es. subst ty. discriminate.
Qed.

Lemma distribution_type_check_witness :
  SoLib.distribution_sc test_data "Q2"
  = Raise (ValueError "Question 'Q2' is not a single-choice question").
Proof.
  refine (proj1 (distribution_type_check test_data "Q2" "MC" _ _ _) _).
  - discriminate.
  - simpl. auto.
  - reflexivity.
  - discriminate.
Defined.

(** X14. [subset_respondents], for an option without special characters.
    For the schema type ['SC'] it keeps the rows whose cell is the text
    [option]; for any other type it keeps the rows whose cell is a text that
    contains [option], case observed, provided the column holds a text, and
    raises [AttributeError] when it holds none.  The rows stay in table
    order, whole. *)
Theorem subset_respondents_literal (dat : SoLib.data)
    (question_id option ty : string) :
  question_id <> "" ->
  option <> "" ->
  In question_id (columns (SoLib.raw_data dat)) ->
  SoLib.schema_field SoLib.type (SoLib.schema dat) question_id = Ok ty ->
  literal option = true ->
  let kept (test : string -> bool) :=
    {| columns := columns (SoLib.raw_data dat);
       rows :=
         filter (fun r => match cell_of (SoLib.raw_data dat) question_id r with
                          | Some (VStr t) => test t
                          | _ => false
                          end) (rows (SoLib.raw_data dat)) |} in
  (ty = "SC" ->
   SoLib.subset_respondents dat question_id option
   = Ok (kept (fun t => String.eqb t option)))
  /\ (ty <> "SC" ->
      SoLib.subset_respondents dat question_id option
      = if has_str_accessor (getitem (SoLib.raw_data dat) question_id)
        then Ok (kept (contains option))
        else Raise AttributeError).
Proof.
  intros E O I T L kept. apply String.eqb_neq in E, O.
  unfold SoLib.subset_respondents.
  rewrite E, O, (proj2 (has_column_true _ _) I), T. simpl. split.
  - intros ->. simpl. unfold loc_mask, eq_str, kept.
    now rewrite (getitem_cells _ _ I), map_map, select_map.
  - intros N. apply String.eqb_neq in N. rewrite N. unfold str_contains.
    destruct (has_str_accessor (getitem (SoLib.raw_data dat) question_id));
      [|reflexivity].
    simpl. rewrite (re_compile_literal _ L). simpl. unfold loc_mask, kept.
    f_equal. f_equal.
    rewrite (getitem_cells _ _ I), map_map, select_map.
    apply filter_ext. intros r.
    destruct (cell_of (SoLib.raw_data dat) question_id r) as [[t|n]|];
      [apply re_search_literal|reflexivity|reflexivity].
Qed.

Lemma subset_respondents_literal_witness :
  SoLib.subset_respondents test_data "Q2" "Option X"
  = Ok {| columns := ["Q1"; "Q2"; "Q3"];
          rows := [ [txt "Option A"; txt "Option X;Option Y"; txt "Yes"];
                    [txt "Option A"; txt "Option X"; txt "Yes"] ] |}.
Proof.
  refine (eq_trans
            (proj2 (subset_respondents_literal test_data "Q2" "Option X" "MC"
                      _ _ _ _ _) _) _).
  - discriminate.
  - discriminate.
  - simpl. auto.
  - reflexivity.
  - reflexivity.
  - discriminate.
  - reflexivity.
Defined.

(* ================================================================= *)
(** ** [so_lib]: the options of a question *)

Lemma In_value_set_add acc y x :
  In x (SoLib.set_add acc y) <-> In x acc \/ x = y.
Proof.
  unfold SoLib.set_add.
  destruct (existsb (value_eqb y) acc) eqn:E.
  - split; [now left|]. intros [I|Exy]; [assumption|]. subst x.
    apply existsb_exists in E. destruct E as (z & Iz & Ez).
    apply value_eqb_eq in Ez. now subst.
  - rewrite in_app_iff. simpl. intuition congruence.
Qed.

Lemma In_value_set_add_iff xs acc x :
  In x (fold_left SoLib.set_add xs acc) <-> In x acc \/ In x xs.
Proof.
  revert acc. induction xs as [|y xs IH]; intros acc; simpl.
  - tauto.
  - rewrite IH, In_value_set_add. intuition congruence.
Qed.

Lemma NoDup_value_set_add xs acc :
  NoDup acc -> NoDup (fold_left SoLib.set_add xs acc).
Proof.
  revert acc. induction xs as [|y xs IH]; intros acc ND; simpl; [assumption|].
  apply IH. unfold SoLib.set_add.
  destruct (existsb (value_eqb y) acc) eqn:E; [assumption|].
  apply NoDup_snoc; [assumption|]. intros I.
  assert (X : existsb (value_eqb y) acc = true); [|congruence].
  apply existsb_exists. exists y. split; [assumption|now apply value_eqb_eq].
Qed.

Lemma NoDup_unique_acc seen vs :
  NoDup (unique_acc seen vs) /\ forall v, In v (unique_acc seen vs) -> ~ In v seen.
Proof.
  revert seen. induction vs as [|w vs IH]; intros seen; simpl.
  - split; [constructor|intros v []].
  - destruct (existsb (value_eqb w) seen) eqn:E; [apply IH|].
    destruct (IH (w :: seen)) as [ND F]. split.
    + constructor; [|assumption]. intros I. apply (F w I). now left.
    + intros v [->|I].
      * intros Is. assert (X : existsb (value_eqb v) seen = true); [|congruence].
        apply existsb_exists. exists v. split; [assumption|now apply value_eqb_eq].
      * intros Is. apply (F v I). now right.
Qed.

(** The values that are options of a column: a fragment of a text cell, or
    the number of a numeric cell. *)
Lemma so_lib_options_iff (s : Series) (opts : list value) :
  opts = (let options := unique (dropna s) in
          if existsb SoLib.has_separator options then
            fold_left SoLib.set_add
              (flat_map
                 (fun opt =>
                    match opt with
                    | VStr t => if contains ";" t
                                then map VStr (split ";"%char t)
                                else [opt]
                    | VInt _ => [opt]
                    end) options) []
          else options) ->
  NoDup opts
  /\ forall v,
      In v opts
      <-> match v with
          | VStr o => fragment_of s o
          | VInt n => In (Some (VInt n)) s
          end.
Proof.
  cbv zeta. intros ->.
  destruct (existsb SoLib.has_separator (unique (dropna s))) eqn:X.
  - split; [apply NoDup_value_set_add; constructor|].
    intros v. rewrite In_value_set_add_iff, in_flat_map. split.
    + intros [[]|(w & Iw & Iv)]. apply In_unique_iff, In_dropna in Iw.
      destruct w as [t|n].
      * destruct (contains ";" t) eqn:C.
        -- apply in_map_iff in Iv. destruct Iv as (f & <- & If). now exists t.
        -- destruct Iv as [<-|[]]. exists t. split; [assumption|].
           rewrite (split_no_sep _ _ C). now left.
      * destruct Iv as [<-|[]]. assumption.
    + intros F. right. destruct v as [o|n].
      * destruct F as (t & It & Io). exists (VStr t).
        split; [now apply In_unique_iff, In_dropna|].
        destruct (contains ";" t) eqn:C; [now apply in_map|].
        rewrite (split_no_sep _ _ C) in Io. destruct Io as [<-|[]]. now left.
      * exists (VInt n). split; [now apply In_unique_iff, In_dropna|now left].
  - split; [apply NoDup_unique_acc|].
    assert (S : forall t, In (VStr t) (unique (dropna s)) -> contains ";" t = false).
    { intros t I. destruct (contains ";" t) eqn:C; [|reflexivity].
      assert (existsb SoLib.has_separator (unique (dropna s)) = true); [|congruence].
      apply existsb_exists. now exists (VStr t). }
    intros v. rewrite In_unique_iff, In_dropna. destruct v as [o|n]; [|reflexivity].
    split.
    + intros I. exists o. split; [assumption|].
      rewrite (split_no_sep _ o); [now left|].
      now apply S, In_unique_iff, In_dropna.
    + intros (t & It & Io).
      rewrite (split_no_sep _ t) in Io
        by now apply S, In_unique_iff, In_dropna.
      destruct Io as [<-|[]]. assumption.
Qed.

(** X15. [so_lib]'s [search_options] returns each option once.  Without a
    query the options are exactly the fragments of the text cells of the
    column, split on [';'], and the numbers of its numeric cells; a query
    that is not empty keeps those whose string contains it, case ignored. *)
Theorem so_lib_search_options_exact (dat : SoLib.data) (question_id : string)
    (query : option string) (opts : list value) :
  SoLib.search_options dat question_id query = Ok opts ->
  NoDup opts
  /\ forall v,
      In v opts
      <-> match v with
          | VStr o => fragment_of (getitem (SoLib.raw_data dat) question_id) o
          | VInt n => In (Some (VInt n)) (getitem (SoLib.raw_data dat) question_id)
          end
          /\ match query with
             | Some q => q = "" \/ contains (lower q) (lower (str v)) = true
             | None => True
             end.
Proof.
  unfold SoLib.search_options.
  destruct (String.eqb question_id ""); [discriminate|].
  destruct (has_column (SoLib.raw_data dat) question_id); simpl; [|discriminate].
  set (s := getitem (SoLib.raw_data dat) question_id).
  set (options := if existsb SoLib.has_separator (unique (dropna s)) then _ else _).
  destruct (so_lib_options_iff s options eq_refl) as [ND F].
  intros [= <-]. destruct query as [q|]; [destruct (String.eqb q "") eqn:Eq|].
  - apply String.eqb_eq in Eq. split; [assumption|].
    intros v. rewrite F. intuition.
  - apply String.eqb_neq in Eq. split; [now apply NoDup_filter|].
    intros v. rewrite filter_In, F. intuition.
  - split; [assumption|]. intros v. rewrite F. tauto.
Qed.

Lemma so_lib_search_options_exact_witness :
  In (VStr "Option Y") [VStr "Option X"; VStr "Option Y"; VStr "Option Z"]
  /\ NoDup [VStr "Option X"; VStr "Option Y"; VStr "Option Z"].
Proof.
  destruct (so_lib_search_options_exact test_data "Q2" None
              [VStr "Option X"; VStr "Option Y"; VStr "Option Z"] eq_refl)
    as [ND F].
  split; [|exact ND]. apply F. split; [|exact I].
  exists "Option X;Option Y". split; [vm_compute; auto|simpl; auto].
Defined.

(* ================================================================= *)
(** ** Sums of percentages *)



(** X16. [distribution_sc] divides the counts of [value_counts] by the
    number of answered cells.  For a question without any answer the
    distribution is empty, and nothing is divided by zero.  For a question
    with an answer the counts add up to the number of answered cells, so
    that the percentages, exact rationals here, sum to 100; numbers and
    texts that print alike are kept apart.  In the floating-point arithmetic
    of the code the sum is 100 up to rounding. *)
Theorem distribution_sc_sums_to_100 (dat : SoLib.data) (question_id : string)
    (r : SoLib.distribution_of value) :
  SoLib.distribution_sc dat question_id = Ok r ->
  let s := getitem (SoLib.raw_data dat) question_id in
  (exists counts : list (value * nat),
      SoLib.distribution r
      = map (fun vc => (fst vc, percent (snd vc) (notna_sum s))) counts
      /\ list_sum (map snd counts) = notna_sum s)
  /\ (notna_sum s = 0 -> SoLib.distribution r = [])
  /\ (notna_sum s <> 0 -> (sum (map snd (SoLib.distribution r)) == 100)%Q).
Proof.
  intros G s. split; [|split].
  - apply distribution_sc_Ok in G. destruct G as [_ E]. fold s in E.
    exists (value_counts s). split; [exact E|].
    now rewrite list_sum_value_counts, notna_sum_dropna.
  - intros Z. apply distribution_sc_Ok in G. destruct G as [_ ->]. fold s.
    assert (E : map snd (value_counts s) = []).
    { pose proof (list_sum_value_counts s) as L.
      rewrite <- notna_sum_dropna, Z in L.
      destruct (value_counts s) as [|[v n] vc] eqn:V; [reflexivity|].
      exfalso.
      assert (I : In (v, n) (value_counts s)) by (rewrite V; now left).
      apply In_value_counts in I. simpl in L. lia. }
    destruct (value_counts s); [reflexivity|discriminate].
  - intros N. now apply (distribution_sc_sum dat question_id).
Qed.

Lemma distribution_sc_sums_to_100_witness :
  (sum [(200 # 4)%Q; (100 # 4)%Q; (100 # 4)%Q] == 100)%Q.
Proof.
  refine (proj2 (proj2 (distribution_sc_sums_to_100 test_data "Q1"
            {| SoLib.dist_question_id := "Q1";
               SoLib.dist_question_text := "Test question 1?";
               SoLib.distribution :=
                 [(VStr "Option A", (200 # 4)%Q); (VStr "Option B", (100 # 4)%Q);
                  (VStr "Option C", (100 # 4)%Q)] |} _)) _).
  - vm_compute. reflexivity.
  - vm_compute. discriminate.
Defined.





(* ================================================================= *)
(** ** The commands of the command line *)

Lemma create_subset_Ok_column self question option sub :
  SurveyAnalyzer.create_subset self question option = Ok sub ->
  In question (columns (SurveyAnalyzer.df self)).
Proof.
  unfold SurveyAnalyzer.create_subset.
  destruct (has_column (SurveyAnalyzer.df self) question) eqn:C; simpl;
    [|discriminate].
  intros _. now apply has_column_true.
Qed.

Lemma is_MC_no_rows data question :
  rows data = [] -> SurveyAnalyzer.is_MC (SurveyAnalyzer.init data) question = false.
Proof.
  intros R. unfold SurveyAnalyzer.is_MC. rewrite init_question_types.
  destruct (analysed (columns data) question); [|reflexivity].
  unfold getitem. rewrite R.
  destruct (position question (columns data)); reflexivity.
Qed.

(** X19. The command [subset] divides the size of the subset by the size of
    the table and catches [ValueError] only: on the analyzer of a table it
    dies of [ZeroDivisionError] exactly when the table has no rows and the
    question is one of its columns. *)
Theorem subset_command_empty_table (data : DataFrame)
    (current_subset : option DataFrame) (question option : string) (save : bool) :
  Cli.subset (SurveyAnalyzer.init data) current_subset question option save
  = Cli.Died Cli.ZeroDivisionError
  <-> rows data = [] /\ In question (columns data).
Proof.
  unfold Cli.subset, Cli.subset_with. split.
  - destruct (SurveyAnalyzer.create_subset (SurveyAnalyzer.init data) question option)
      as [sub|e|] eqn:C.
    + apply create_subset_Ok_column in C. rewrite init_df in *.
      unfold len. destruct (rows data); simpl; [now split|discriminate].
    + destruct e; discriminate.
    + discriminate.
  - intros [R I].
    rewrite create_subset_SC;
      [|now rewrite init_df|now apply is_MC_no_rows].
    rewrite init_df. unfold len. now rewrite R.
Qed.

Lemma subset_command_empty_table_witness :
  Cli.subset (SurveyAnalyzer.init {| columns := ["Country"]; rows := [] |})
    None "Country" "USA" true
  = Cli.Died Cli.ZeroDivisionError.
Proof.
  apply (proj2 (subset_command_empty_table
                  {| columns := ["Country"]; rows := [] |}
                  None "Country" "USA" true)).
  split; [reflexivity|simpl; auto].
Defined.

(** X20. When the command [distribution] shows a table, the table is that of
    [display_distribution] on the full data or on the saved subset, the
    line "Total responses" carries the number of non-null cells of the
    question in those rows, and the line "Question type" carries the type
    inferred from the full table, or "Unknown" for the column [ResponseId],
    which has no catalog entry. *)
Theorem distribution_command_report (data : DataFrame)
    (current_subset : option DataFrame) (question : string) (top : Z)
    (subset : bool) (out : list Cli.event) (df_dist : list (string * Q)) :
  selection_of (SurveyAnalyzer.init data) current_subset ->
  Cli.distribution (SurveyAnalyzer.init data) current_subset question top subset
  = Cli.Finished out ->
  In (Cli.TabulateDistribution df_dist) out ->
  let data_to_use := if subset then current_subset else None in
  SurveyAnalyzer.display_distribution (SurveyAnalyzer.init data) question
    data_to_use (Some top) = Ok df_dist
  /\ nth_error out 1
     = Some (Cli.Echo
               ("Total responses: "
                ++ Cli.str_of_nat
                     (notna_sum
                        (getitem (rowset (SurveyAnalyzer.init data) data_to_use)
                           question))))
  /\ nth_error out 2
     = Some (Cli.Echo
               ("Question type: "
                ++ (if String.eqb question "ResponseId" then "Unknown"
                    else Cli.qtype_str (column_type (getitem data question)))
                ++ Cli.nl))
  /\ nth_error out 3 = Some (Cli.TabulateDistribution df_dist).
Proof.
  intros S D I data_to_use. unfold Cli.distribution in D.
  destruct (subset && match current_subset with None => true | Some _ => false end)
    eqn:B.
  { injection D as <-. destruct I as [I|[]]. discriminate. }
  fold data_to_use in D.
  destruct (SurveyAnalyzer.display_distribution (SurveyAnalyzer.init data)
              question data_to_use (Some top)) as [d|e|] eqn:DD.
  - injection D as <-.
    assert (E : d = df_dist).
    { destruct I as [I|[I|[I|[I|[]]]]]; try discriminate. now injection I. }
    subst d.
    assert (C : In question (columns data)).
    { unfold SurveyAnalyzer.display_distribution in DD.
      destruct (SurveyAnalyzer.get_distribution (SurveyAnalyzer.init data)
                  question data_to_use) as [d0|e0|] eqn:G; try discriminate.
      apply get_distribution_Ok in G. destruct G as [C _].
      unfold data_to_use in C.
      destruct subset, current_subset as [sub|]; simpl in C;
        rewrite ?init_df in C; try assumption.
      - destruct S as [Sc _]. rewrite init_df in Sc. now rewrite <- Sc. }
    repeat split. simpl. do 3 f_equal.
    rewrite init_question_types. unfold analysed.
    apply has_column_true in C. unfold has_column in C. rewrite C. simpl.
    unfold rowset.
    replace (match data_to_use with
             | Some d => d
             | None => SurveyAnalyzer.df (SurveyAnalyzer.init data)
             end) with (rowset (SurveyAnalyzer.init data) data_to_use)
      by reflexivity.
    destruct (String.eqb question "ResponseId"); reflexivity.
  - destruct e; try discriminate. injection D as <-.
    destruct I as [I|[]]. discriminate.
  - discriminate.
Qed.

Lemma distribution_command_report_witness :
  nth_error
    [ Cli.Echo (Cli.nl ++ "Distribution for 'Country' (full dataset):");
      Cli.Echo "Total responses: 5";
      Cli.Echo ("Question type: SC" ++ Cli.nl);
      Cli.TabulateDistribution
        [("USA", (4000 # 100)%Q); ("UK", (4000 # 100)%Q);
         ("Canada", (2000 # 100)%Q)] ] 1
  = Some (Cli.Echo "Total responses: 5").
Proof.
  refine (eq_trans
            (proj1 (proj2 (distribution_command_report sample_data None
                             "Country" 10 false _
                             [("USA", (4000 # 100)%Q); ("UK", (4000 # 100)%Q);
                              ("Canada", (2000 # 100)%Q)] _ _ _))) _).
  - exact I.
  - vm_compute. reflexivity.
  - simpl. auto.
  - vm_compute. reflexivity.
Defined.

Lemma questions_lines_keys self (items : list (nat * string)) :
  (forall iq, In iq items -> In (snd iq) (keys (SurveyAnalyzer.questions self))) ->
  exists lines,
    Cli.questions_lines self items = Some lines
    /\ List.length lines = 2 * List.length items
    /\ forall ev, In ev lines -> exists text, ev = Cli.Echo text.
Proof.
  induction items as [|iq items IH]; intros K; simpl.
  - exists []. repeat split. intros ev [].
  - destruct IH as (lines & E & L & F); [intros iq' I; apply K; now right|].
    unfold Cli.question_lines.
    destruct (dict_get (SurveyAnalyzer.questions self) (snd iq)) as [q_info|] eqn:G.
    + rewrite E. simpl. eexists. split; [reflexivity|]. split.
      * simpl. lia.
      * intros ev [<-|[<-|I]]; eauto.
    + apply dict_get_None in G. exfalso. apply G, K. now left.
Qed.

Lemma In_enumerate {A : Type} (l : list A) (start : nat) (ix : nat * A) :
  In ix (Cli.enumerate l start) -> In (snd ix) l.
Proof.
  unfold Cli.enumerate. destruct ix as [i x]. intros I.
  now apply in_combine_r in I.
Qed.

Lemma length_enumerate {A : Type} (l : list A) (start : nat) :
  List.length (Cli.enumerate l start) = List.length l.
Proof.
  unfold Cli.enumerate. rewrite length_combine, length_seq. lia.
Qed.

Lemma search_questions_keys self keyword q :
  In q (SurveyAnalyzer.search_questions self keyword) ->
  In q (keys (SurveyAnalyzer.questions self)).
Proof.
  unfold SurveyAnalyzer.search_questions. intros I.
  now apply filter_In in I.
Qed.

(** X21. The command [search] without [--in-options] never fails on the
    lookup [analyzer.questions[q]]: on every analyzer it prints the heading,
    two lines for each question that [search_questions] returns, and the
    line "No matching questions found." when there is none. *)
Theorem search_command_questions (self : SurveyAnalyzer.t) (keyword : string)
    (question : option string) :
  let questions := SurveyAnalyzer.search_questions self keyword in
  exists lines,
    Cli.questions_lines self (Cli.enumerate questions 1) = Some lines
    /\ List.length lines = 2 * List.length questions
    /\ Cli.search self keyword false question
       = Cli.Finished
           (Cli.Echo (Cli.nl ++ "Questions matching '" ++ keyword ++ "':")
            :: lines
            ++ match questions with
               | [] => [Cli.Echo "  No matching questions found."]
               | _ => []
               end).
Proof.
  intros questions.
  destruct (questions_lines_keys self (Cli.enumerate questions 1))
    as (lines & E & L & _).
  { intros iq I. apply In_enumerate in I.
    now apply search_questions_keys in I. }
  exists lines. split; [exact E|]. split.
  - now rewrite L, length_enumerate.
  - unfold Cli.search. fold questions. now rewrite E.
Qed.

Lemma search_echo self keyword in_options question out ev :
  Cli.search self keyword in_options question = Cli.Finished out ->
  In ev out ->
  (exists text, ev = Cli.Echo text) \/ (exists e, ev = Cli.EchoError e).
Proof.
  unfold Cli.search. destruct in_options.
  - destruct question as [[|c question]|].
    + intros [= <-] [<-|[]]. eauto.
    + destruct (SurveyAnalyzer.search_options self (String c question) keyword)
        as [options|e|].
      * intros [= <-] [<-|I]; [eauto|].
        apply in_app_iff in I. destruct I as [I|I].
        -- apply in_map_iff in I. destruct I as (io & <- & _). eauto.
        -- destruct options; [destruct I as [<-|[]]; eauto|destruct I].
      * destruct e; try discriminate. intros [= <-] [<-|[]]. eauto.
      * discriminate.
    + intros [= <-] [<-|[]]. eauto.
  - destruct (questions_lines_keys self
                (Cli.enumerate (SurveyAnalyzer.search_questions self keyword) 1))
      as (lines & E & _ & F).
    { intros iq I. apply In_enumerate in I.
      now apply search_questions_keys in I. }
    rewrite E. intros [= <-] [<-|I]; [eauto|].
    apply in_app_iff in I. destruct I as [I|I].
    + left. now apply F.
    + destruct (SurveyAnalyzer.search_questions self keyword);
        [destruct I as [<-|[]]; eauto|destruct I].
Qed.

(** A run of a command other than [repl] shows no distribution but that of
    [distribution] without [--subset], whatever [create_subset] does. *)
Lemma main_with_full_table create self c current_subset out df_dist :
  (forall inputs, c <> Cli.run_repl inputs) ->
  Cli.main_with create self c = Cli.Finished (current_subset, out) ->
  In (Cli.TabulateDistribution df_dist) out ->
  exists question top,
    c = Cli.run_distribution question top false
    /\ SurveyAnalyzer.display_distribution self question None (Some top)
       = Ok df_dist.
Proof.
  intros NR.
  destruct c as [limit|keyword in_options question|question option save
                 |question top subset|inputs]; simpl.
  - intros [= _ <-]. unfold Cli.structure. intros I.
    apply in_app_iff in I. destruct I as [[I|[I|[]]]|I]; try discriminate.
    destruct (limit <? _)%Z; [destruct I as [I|[]]; discriminate|destruct I].
  - destruct (Cli.search self keyword in_options question) as [o|f|] eqn:S;
      try discriminate.
    intros [= _ <-] I.
    destruct (search_echo _ _ _ _ _ _ S I) as [[t E]|[e E]]; discriminate.
  - unfold Cli.subset_with.
    destruct (create self question option) as [sub|e|].
    + destruct (len (SurveyAnalyzer.df self) =? 0); [discriminate|].
      intros [= _ <-] I. destruct I as [I|[I|I]]; try discriminate.
      destruct save; [destruct I as [I|[]]; discriminate|destruct I].
    + destruct e; try discriminate.
      intros [= _ <-] [I|[]]. discriminate.
    + discriminate.
  - destruct subset.
    + simpl. intros [= _ <-] [I|[]]. discriminate.
    + unfold Cli.distribution. simpl.
      destruct (SurveyAnalyzer.display_distribution self question None (Some top))
        as [d|e|] eqn:D.
      * intros [= _ <-] I. exists question, top. split; [reflexivity|].
        destruct I as [I|[I|[I|[I|[]]]]]; try discriminate.
        injection I as <-. exact D.
      * destruct e; try discriminate. intros [= _ <-] [I|[]]. discriminate.
      * discriminate.
  - exfalso. now apply (NR inputs).
Qed.

(** X22. One run of the program starts without a saved subset and runs one
    command.  So [distribution --subset] prints the error "No subset saved"
    for every question, whatever an earlier run saved, and every
    distribution that a run of a command other than [repl] shows is that of
    [distribution] without [--subset], computed on the full table.  This
    holds under every regular-expression engine, and of the embedded
    fragment. *)
Theorem run_shows_full_table (re : AnyRegex.engine) (self : SurveyAnalyzer.t) :
  let no_subset :=
    Cli.Echo "Error: No subset saved. Create a subset first using the 'subset' command with --save flag." in
  (forall question top,
      AnyRegex.main re self (Cli.run_distribution question top true)
      = Cli.Finished (None, [no_subset])
      /\ Cli.main self (Cli.run_distribution question top true)
         = Cli.Finished (None, [no_subset]))
  /\ (forall c current_subset out df_dist,
         (forall inputs, c <> Cli.run_repl inputs) ->
         AnyRegex.main re self c = Cli.Finished (current_subset, out)
         \/ Cli.main self c = Cli.Finished (current_subset, out) ->
         In (Cli.TabulateDistribution df_dist) out ->
         exists question top,
           c = Cli.run_distribution question top false
           /\ SurveyAnalyzer.display_distribution self question None (Some top)
              = Ok df_dist).
Proof.
  cbv zeta. split.
  - intros question top. split; reflexivity.
  - intros c current_subset out df_dist NR [M|M].
    + now apply (main_with_full_table (AnyRegex.create_subset re) self c
                   current_subset out).
    + now apply (main_with_full_table SurveyAnalyzer.create_subset self c
                   current_subset out).
Qed.

Lemma run_shows_full_table_witness :
  exists question top,
    Cli.run_distribution "Country" 10 false
    = Cli.run_distribution question top false
    /\ SurveyAnalyzer.display_distribution analyzer question None (Some top)
       = Ok [("USA", (4000 # 100)%Q); ("UK", (4000 # 100)%Q);
             ("Canada", (2000 # 100)%Q)].
Proof.
  refine (proj2 (run_shows_full_table AnyRegex.strict analyzer)
            (Cli.run_distribution "Country" 10 false) None _ _ _ _ _).
  - discriminate.
  - left. vm_compute. reflexivity.
  - simpl. auto.
Defined.

(* ================================================================= *)
(** ** The interactive loop *)

Lemma search_options_modelled self question keyword :
  SurveyAnalyzer.search_options self question keyword <> Unsupported.
Proof.
  unfold SurveyAnalyzer.search_options.
  destruct (negb (has_column (SurveyAnalyzer.df self) question)); discriminate.
Qed.

Lemma get_distribution_modelled self question subset_df :
  SurveyAnalyzer.get_distribution self question subset_df <> Unsupported.
Proof.
  unfold SurveyAnalyzer.get_distribution.
  destruct (negb (has_column _ question)); [discriminate|].
  destruct (notna_sum _ =? 0); discriminate.
Qed.

Lemma display_distribution_modelled self question subset_df top_n :
  SurveyAnalyzer.display_distribution self question subset_df top_n <> Unsupported.
Proof.
  unfold SurveyAnalyzer.display_distribution.
  pose proof (get_distribution_modelled self question subset_df) as G.
  destruct (SurveyAnalyzer.get_distribution self question subset_df)
    as [d|e|]; simpl; [|discriminate|contradiction].
  destruct d; [discriminate|].
  destruct top_n as [n|]; [|discriminate].
  destruct (SurveyAnalyzer.truthy (Some n) && _); discriminate.
Qed.

Lemma show_distribution_keeps self current_subset data_to_use cmd usage :
  exists out,
    Cli.show_distribution self current_subset data_to_use cmd usage
    = Cli.Finished (Cli.Continue current_subset out).
Proof.
  unfold Cli.show_distribution.
  destruct (nth_error (split_ws cmd) 1) as [question|]; [|eauto].
  destruct (Cli.int_arg (split_ws cmd) 2 10) as [token|top]; [eauto|].
  pose proof (display_distribution_modelled self question data_to_use (Some top)) as M.
  destruct (SurveyAnalyzer.display_distribution self question data_to_use (Some top));
    simpl; [eauto|eauto|contradiction].
Qed.

(** What a turn of the loop does to the saved subset, whatever
    [create_subset] does. *)
Lemma repl_step_with_cases create self current_subset cmd :
  Cli.repl_step_with create self current_subset cmd = Cli.Finished Cli.Break
  \/ (exists out,
         Cli.repl_step_with create self current_subset cmd
         = Cli.Finished (Cli.Continue current_subset out))
  \/ (String.eqb (strip cmd) "clear-subset" = true
      /\ Cli.repl_step_with create self current_subset cmd
         = Cli.Finished (Cli.Continue None [Cli.Echo "Subset cleared."]))
  \/ (startswith cmd "subset" = true
      /\ exists question option,
          (create self question option = Unsupported
           /\ Cli.repl_step_with create self current_subset cmd = Cli.Unmodelled)
          \/ (exists sub out,
                 create self question option = Ok sub
                 /\ Cli.repl_step_with create self current_subset cmd
                    = Cli.Finished (Cli.Continue (Some sub) out))).
Proof.
  unfold Cli.repl_step_with.
  destruct (String.eqb (strip cmd) "exit"); [now left|].
  destruct (String.eqb (strip cmd) "help"); [right; left; eauto|].
  destruct (startswith cmd "structure").
  { destruct (Cli.int_arg (split_ws cmd) 1 20); right; left; eauto. }
  destruct (startswith cmd "search-options").
  { right; left.
    destruct (split_ws_max cmd 2) as [|a [|question [|keyword [|x l]]]]; eauto.
    pose proof (search_options_modelled self question keyword) as M.
    destruct (SurveyAnalyzer.search_options self question keyword);
      simpl; [eauto|eauto|contradiction]. }
  destruct (startswith cmd "search").
  { right; left.
    destruct (split_ws_max cmd 1) as [|a [|keyword [|x l]]]; eauto. }
  destruct (startswith cmd "subset") eqn:S.
  { destruct (split_ws_max cmd 2) as [|a [|question [|option [|x l]]]];
      try (right; left; eauto; fail).
    destruct (create self question option) as [sub|e|] eqn:C; simpl.
    - right; right; right. split; [reflexivity|].
      exists question, option. right. eauto.
    - right; left; eauto.
    - right; right; right. split; [reflexivity|].
      exists question, option. left. now split. }
  destruct (startswith cmd "dist-subset").
  { right; left. destruct current_subset as [sub|]; [|eauto].
    apply show_distribution_keeps. }
  destruct (startswith cmd "dist").
  { right; left. apply show_distribution_keeps. }
  destruct (String.eqb (strip cmd) "clear-subset"); [|right; left; eauto].
  right; right; left. now split.
Qed.

(** The loop keeps a property of the saved subset that [create_subset]
    establishes, and answers every line when [create_subset] raises or
    returns. *)
Lemma repl_with_selection create self inputs current_subset :
  (forall question option sub,
      create self question option = Ok sub -> selection_of self (Some sub)) ->
  (forall question option, create self question option <> Unsupported) ->
  selection_of self current_subset ->
  exists current_subset' out,
    Cli.repl_with create self current_subset inputs
    = Cli.Finished (current_subset', out)
    /\ selection_of self current_subset'.
Proof.
  intros Sel Mod. revert current_subset.
  induction inputs as [|cmd inputs IH]; intros cs S; simpl; [eauto|].
  destruct (String.eqb cmd ""); [now apply IH|].
  destruct (repl_step_with_cases create self cs cmd)
    as [E|[(o & E)|[(_ & E)|(_ & q & opt & [(U & _)|(sub & o & C & E)])]]];
    try rewrite E.
  - eauto.
  - destruct (IH cs S) as (cs1 & o1 & -> & S1). eauto.
  - destruct (IH None I) as (cs1 & o1 & -> & S1). eauto.
  - exfalso. now apply (Mod q opt).
  - destruct (IH (Some sub) (Sel q opt sub C)) as (cs1 & o1 & -> & S1). eauto.
Qed.

(** A session that the embedded fragment determines goes the same way
    under an engine that extends the fragment. *)
Lemma repl_step_with_fragment re self current_subset cmd :
  AnyRegex.extends_fragment re ->
  Cli.repl_step self current_subset cmd <> Cli.Unmodelled ->
  AnyRegex.repl_step re self current_subset cmd
  = Cli.repl_step self current_subset cmd.
Proof.
  intros X. unfold AnyRegex.repl_step, Cli.repl_step, Cli.repl_step_with.
  destruct (String.eqb (strip cmd) "exit"); [reflexivity|].
  destruct (String.eqb (strip cmd) "help"); [reflexivity|].
  destruct (startswith cmd "structure"); [reflexivity|].
  destruct (startswith cmd "search-options"); [reflexivity|].
  destruct (startswith cmd "search"); [reflexivity|].
  destruct (startswith cmd "subset"); [|reflexivity].
  destruct (split_ws_max cmd 2) as [|a [|question [|option [|x l]]]];
    try reflexivity.
  intros N.
  rewrite (any_create_subset_fragment re self question option _ X eq_refl);
    [reflexivity|].
  intros U. rewrite U in N. now apply N.
Qed.

Lemma repl_with_fragment re self inputs current_subset r :
  AnyRegex.extends_fragment re ->
  Cli.repl self current_subset inputs = Cli.Finished r ->
  AnyRegex.repl re self current_subset inputs = Cli.Finished r.
Proof.
  intros X. unfold AnyRegex.repl, Cli.repl. revert current_subset r.
  induction inputs as [|cmd inputs IH]; intros cs r; simpl; [auto|].
  destruct (String.eqb cmd ""); [apply IH|].
  change (Cli.repl_step_with SurveyAnalyzer.create_subset self cs cmd)
    with (Cli.repl_step self cs cmd).
  change (Cli.repl_step_with (AnyRegex.create_subset re) self cs cmd)
    with (AnyRegex.repl_step re self cs cmd).
  destruct (Cli.repl_step self cs cmd) as [[cs1 o1|]|f|] eqn:E;
    try discriminate;
    rewrite (repl_step_with_fragment re self cs cmd X)
      by (rewrite E; discriminate);
    rewrite E; [|auto].
  destruct (Cli.repl_with SurveyAnalyzer.create_subset self cs1 inputs)
    as [[cs2 o2]|f|] eqn:R; try discriminate.
  intros [= <-]. now rewrite (IH cs1 _ R).
Qed.

(** X23. The saved subset of the loop is always a selection of the
    analyzer's table: it has the table's columns, and its rows are rows of
    the table in table order.  Whatever lines are typed, and whatever
    regular-expression engine compiles the options, the loop answers every
    line (no exception ends it) and the property holds afterwards when it
    held before.  A session that the embedded fragment determines goes the
    same way under an engine that extends the fragment. *)
Theorem repl_saved_subset_selection (re : AnyRegex.engine)
    (self : SurveyAnalyzer.t) (inputs : list string)
    (current_subset : option DataFrame) :
  selection_of self current_subset ->
  (exists current_subset' out,
      AnyRegex.repl re self current_subset inputs
      = Cli.Finished (current_subset', out)
      /\ selection_of self current_subset')
  /\ (AnyRegex.extends_fragment re ->
      forall r,
        Cli.repl self current_subset inputs = Cli.Finished r ->
        AnyRegex.repl re self current_subset inputs = Cli.Finished r).
Proof.
  intros S. split.
  - apply repl_with_selection; [|apply any_create_subset_modelled|exact S].
    intros question option sub. apply any_create_subset_selection.
  - intros X r. now apply repl_with_fragment.
Qed.

(** A session with the option ["C++"], which the engine [strict] rejects. *)
Lemma repl_saved_subset_selection_witness :
  exists current_subset' out,
    AnyRegex.repl AnyRegex.strict analyzer None
      ["subset Country USA"; "subset Languages C++"; "dist-subset Languages";
       "exit"; "clear-subset"]
    = Cli.Finished (current_subset', out)
    /\ selection_of analyzer current_subset'.
Proof.
  exact (proj1 (repl_saved_subset_selection AnyRegex.strict analyzer
                  ["subset Country USA"; "subset Languages C++";
                   "dist-subset Languages"; "exit"; "clear-subset"]
                  None I)).
Defined.

(** X24. Lines that only read leave the saved subset as it is and never end
    the loop with an exception: whatever is typed, as long as no line starts
    with [subset] or is [clear-subset], the loop answers every line and the
    saved subset is the one it started with. *)
Theorem repl_read_only (self : SurveyAnalyzer.t) (inputs : list string)
    (current_subset : option DataFrame) :
  (forall cmd, In cmd inputs -> read_only cmd = true) ->
  exists out,
    Cli.repl self current_subset inputs = Cli.Finished (current_subset, out).
Proof.
  unfold Cli.repl.
  induction inputs as [|cmd inputs IH]; intros RO; simpl; [eauto|].
  destruct IH as (o1 & R); [intros c I; apply RO; now right|].
  destruct (String.eqb cmd ""); [eauto|].
  assert (RC := RO cmd (or_introl eq_refl)). unfold read_only in RC.
  apply andb_true_iff in RC. destruct RC as [NS NC].
  apply negb_true_iff in NS, NC.
  destruct (repl_step_with_cases SurveyAnalyzer.create_subset self
              current_subset cmd)
    as [E|[(o & E)|[(C & _)|(S & _)]]]; try congruence.
  - rewrite E. eauto.
  - rewrite E, R. eauto.
Qed.

Lemma repl_read_only_witness :
  exists out,
    Cli.repl analyzer None ["dist Country"; "structure 2"; "dist Nowhere x"; "hello"]
    = Cli.Finished (None, out).
Proof.
  refine (repl_read_only analyzer
            ["dist Country"; "structure 2"; "dist Nowhere x"; "hello"] None _).
  intros cmd [<-|[<-|[<-|[<-|[]]]]]; reflexivity.
Defined.

Lemma append_nil_r (s : string) : (s ++ "")%string = s.
Proof. induction s as [|c s IH]; simpl; [reflexivity|now rewrite IH]. Qed.

Lemma append_assoc (s t u : string) :
  ((s ++ t) ++ u)%string = (s ++ (t ++ u))%string.
Proof. induction s as [|c s IH]; simpl; [reflexivity|now rewrite IH]. Qed.

(** [split] reads a run of characters that are not whitespace, up to a
    blank or to the end of the text, as one word. *)
Lemma split_words_run maxsplit w q rest :
  forallb (fun c => negb (is_space c)) (list_ascii_of_string q) = true ->
  split_words maxsplit (Some w) (q ++ String " " rest)
  = (w ++ q)%string :: split_words maxsplit None rest.
Proof.
  revert w. induction q as [|c q IH]; intros w F; simpl.
  - now rewrite append_nil_r.
  - simpl in F. apply andb_true_iff in F. destruct F as [Fc F].
    apply negb_true_iff in Fc. rewrite Fc, (IH _ F), append_assoc. reflexivity.
Qed.

Lemma split_words_end maxsplit w q :
  forallb (fun c => negb (is_space c)) (list_ascii_of_string q) = true ->
  split_words maxsplit (Some w) q = [(w ++ q)%string].
Proof.
  revert w. induction q as [|c q IH]; intros w F; simpl.
  - now rewrite append_nil_r.
  - simpl in F. apply andb_true_iff in F. destruct F as [Fc F].
    apply negb_true_iff in Fc. rewrite Fc, (IH _ F), append_assoc. reflexivity.
Qed.

Lemma is_word_cons q :
  is_word q = true ->
  exists c q',
    q = String c q' /\ is_space c = false
    /\ forallb (fun c => negb (is_space c)) (list_ascii_of_string q') = true.
Proof.
  unfold is_word. destruct q as [|c q]; [discriminate|]. simpl.
  intros F. apply andb_true_iff in F. destruct F as [Fc F].
  apply negb_true_iff in Fc. now exists c, q.
Qed.

Lemma strip_head c s :
  is_space c = false -> exists s', strip (String c s) = String c s'.
Proof.
  intros N. unfold strip. simpl. rewrite N. simpl.
  destruct (rstrip s); [rewrite N|]; eauto.
Qed.

(** The line [subset q o] in the loop. *)
Lemma repl_step_subset_line self current_subset q o :
  is_word q = true ->
  o <> "" -> starts_with_space o = false ->
  Cli.repl_step self current_subset ("subset " ++ q ++ " " ++ o)
  = Cli.guarded current_subset
      (bind (SurveyAnalyzer.create_subset self q o)
         (fun subset_df =>
            Ok (Some subset_df,
                [Cli.Echo ("Subset created: " ++ Cli.str_of_nat (len subset_df)
                           ++ " respondents")]))).
Proof.
  intros Wq No So. unfold Cli.repl_step, Cli.repl_step_with.
  assert (H : exists s', strip ("subset " ++ q ++ " " ++ o) = String "s" s')
    by exact (strip_head "s" ("ubset " ++ q ++ " " ++ o) eq_refl).
  destruct H as (s' & ->).
  simpl String.eqb. cbv iota.
  change (startswith ("subset " ++ q ++ " " ++ o) "structure") with false.
  change (startswith ("subset " ++ q ++ " " ++ o) "search-options") with false.
  change (startswith ("subset " ++ q ++ " " ++ o) "search") with false.
  change (startswith ("subset " ++ q ++ " " ++ o) "subset") with true.
  cbv iota.
  replace (split_ws_max ("subset " ++ q ++ " " ++ o) 2) with ["subset"; q; o];
    [reflexivity|].
  destruct (is_word_cons q Wq) as (c & q' & -> & Nc & F).
  destruct o as [|c' o']; [contradiction|]. simpl in So.
  unfold split_ws_max.
  change (split_words (Some 2) None ("subset " ++ String c q' ++ " " ++ String c' o'))
    with ("subset" :: split_words (Some 1) None (String c (q' ++ String " " (String c' o')))).
  simpl. rewrite Nc, (split_words_run _ _ _ _ F). simpl. now rewrite So.
Qed.

(** The line [dist-subset q] in the loop, with a subset saved. *)
Lemma repl_step_dist_subset_line self sub q :
  is_word q = true ->
  Cli.repl_step self (Some sub) ("dist-subset " ++ q)
  = Cli.guarded (Some sub)
      (bind (SurveyAnalyzer.display_distribution self q (Some sub) (Some 10%Z))
         (fun df_dist => Ok (Some sub, [Cli.TabulateDistribution df_dist]))).
Proof.
  intros Wq. unfold Cli.repl_step, Cli.repl_step_with.
  assert (H : exists s', strip ("dist-subset " ++ q) = String "d" s')
    by exact (strip_head "d" ("ist-subset " ++ q) eq_refl).
  destruct H as (s' & ->).
  simpl String.eqb. cbv iota.
  change (startswith ("dist-subset " ++ q) "structure") with false.
  change (startswith ("dist-subset " ++ q) "search-options") with false.
  change (startswith ("dist-subset " ++ q) "search") with false.
  change (startswith ("dist-subset " ++ q) "subset") with false.
  change (startswith ("dist-subset " ++ q) "dist-subset") with true.
  cbv iota. unfold Cli.show_distribution.
  replace (split_ws ("dist-subset " ++ q)) with ["dist-subset"; q];
    [reflexivity|].
  destruct (is_word_cons q Wq) as (c & q' & -> & Nc & F).
  unfold split_ws.
  change (split_words None None ("dist-subset " ++ String c q'))
    with ("dist-subset" :: split_words None None (String c q')).
  simpl. now rewrite Nc, (split_words_end _ _ _ F).
Qed.

(** X25. A session of the loop: after the line [subset q o] has created a
    subset, the line [dist-subset q2] shows the distribution of [q2] over
    that subset, with the ten most frequent options, or prints the error of
    [display_distribution]; the subset stays saved. *)
Theorem repl_subset_session (self : SurveyAnalyzer.t)
    (current_subset : option DataFrame) (q o q2 : string) (sub : DataFrame) :
  is_word q = true ->
  o <> "" -> starts_with_space o = false ->
  is_word q2 = true ->
  SurveyAnalyzer.create_subset self q o = Ok sub ->
  Cli.repl self current_subset
    [("subset " ++ q ++ " " ++ o)%string; ("dist-subset " ++ q2)%string]
  = Cli.Finished
      (Some sub,
       [ Cli.Echo ("Subset created: " ++ Cli.str_of_nat (len sub) ++ " respondents");
         match SurveyAnalyzer.display_distribution self q2 (Some sub) (Some 10%Z) with
         | Ok df_dist => Cli.TabulateDistribution df_dist
         | Raise e => Cli.EchoError e
         | Unsupported => Cli.Echo ""
         end ]).
Proof.
  intros Wq No So Wq2 C.
  pose proof (display_distribution_modelled self q2 (Some sub) (Some 10%Z)) as M.
  unfold Cli.repl, Cli.repl_with.
  change (Cli.repl_step_with SurveyAnalyzer.create_subset) with Cli.repl_step.
  change (String.eqb ("subset " ++ q ++ " " ++ o) "") with false.
  change (String.eqb ("dist-subset " ++ q2) "") with false. cbv iota.
  rewrite (repl_step_subset_line self current_subset q o Wq No So), C.
  cbn [bind Cli.guarded].
  rewrite (repl_step_dist_subset_line self sub q2 Wq2).
  destruct (SurveyAnalyzer.display_distribution self q2 (Some sub) (Some 10%Z));
    simpl; [reflexivity|reflexivity|contradiction].
Qed.

Lemma repl_subset_session_witness :
  Cli.repl analyzer None ["subset Country USA"; "dist-subset Languages"]
  = Cli.Finished
      (Some {| columns := columns sample_data;
               rows := [ [num 1; txt "USA"; txt "Python;JavaScript"; num 5; None];
                         [num 4; txt "USA"; txt "Python;Java"; num 2; None] ] |},
       [ Cli.Echo "Subset created: 2 respondents";
         Cli.TabulateDistribution
           [("Python", (10000 # 100)%Q); ("JavaScript", (5000 # 100)%Q);
            ("Java", (5000 # 100)%Q)] ]).
Proof.
  refine (eq_trans
            (repl_subset_session analyzer None "Country" "USA" "Languages"
               {| columns := columns sample_data;
                  rows := [ [num 1; txt "USA"; txt "Python;JavaScript"; num 5; None];
                            [num 4; txt "USA"; txt "Python;Java"; num 2; None] ] |}
               _ _ _ _ _) _).
  - reflexivity.
  - discriminate.
  - reflexivity.
  - reflexivity.
  - vm_compute. reflexivity.
  - vm_compute. reflexivity.
Defined.
